(** * VNPay client: canonicalisation, signing and verification

    A shallow embedding of [src/vnpay.ts] (class [VNPay]) and the
    properties of its four protocols: building the payment URL,
    verifying a return/IPN callback, querying a transaction and
    refunding it.

    Conventions of the embedding.
    - A JavaScript string is a [string] of bytes (its UTF-8 encoding);
      [Buffer.from(s, 'utf-8')] is therefore the identity.  A surrogate
      that is not part of a pair, which [slice] can leave behind, is written
      as the three bytes of its code point.
    - A JavaScript number is an IEEE-754 binary64 value, Rocq's primitive
      [float]; [*] and [/] are the primitive operations.
    - A plain object is its property list in insertion order; the order in
      which [Object.entries] and the spread syntax enumerate it is computed
      by [own_entries].
    - A method that mutates its argument returns the mutated argument next
      to its result; a method that may throw returns a [Result].
    - What the class imports from files that are not part of [vnpay.ts]
      ([utils/common], [constants]) is the interface [VnpayLib]; what it
      uses of the JavaScript runtime and cannot be written down in a few
      lines (collation, number formatting, the URL parser) is the interface
      [JsRuntime].  Theorems hold for every implementation of both. *)

From Stdlib Require Import String Ascii List Bool Arith NArith ZArith Lia.
From Stdlib Require Import Permutation Sorted.
From Stdlib Require Import PrimFloat FloatOps SpecFloat Uint63.
Import ListNotations.

Open Scope list_scope.
Open Scope string_scope.

(* ================================================================= *)
(** ** Strings *)

Module Str.

(** The characters of [s] after the first [n]. *)
Fixpoint drop (n : nat) (s : string) : string :=
  match n, s with
  | O, _ => s
  | S _, EmptyString => EmptyString
  | S k, String _ s' => drop k s'
  end.

(** [s.slice(1)] for a string that is empty or starts with an ASCII
    character, whose one byte is its one code unit. *)
Definition slice1 (s : string) : string := drop 1 s.

(** The second half of the surrogate pair of a character of four bytes
    whose last two bytes are [b2] and [b3]: the code point
    [0xDC00 + (low ten bits of the character)], in three bytes. *)
Definition low_surrogate (b2 b3 : ascii) : string :=
  String (ascii_of_N 237)
    (String (ascii_of_N (176 + N_of_ascii b2 mod 16))
       (String (ascii_of_N (128 + N_of_ascii b3 mod 64)) EmptyString)).

(** [s.slice(1)] for any string: [s] without its first UTF-16 code unit.
    A character of one, two or three bytes is one code unit and goes whole;
    a character of four bytes is a surrogate pair, of which the first half
    goes and the second stays. *)
Definition slice1_utf16 (s : string) : string :=
  match s with
  | EmptyString => EmptyString
  | String b0 s' =>
      let n := N_of_ascii b0 in
      if (n <? 128)%N then s'
      else if (n <? 224)%N then drop 1 s'
      else if (n <? 240)%N then drop 2 s'
      else match s' with
           | String _ (String b2 (String b3 s'')) => low_surrogate b2 b3 ++ s''
           | _ => EmptyString
           end
  end.

Fixpoint contains_char (c : ascii) (s : string) : bool :=
  match s with
  | EmptyString => false
  | String d s' => Ascii.eqb c d || contains_char c s'
  end.

(** The part of [s] before the first [c] (all of [s] when there is none). *)
Fixpoint before (c : ascii) (s : string) : string :=
  match s with
  | EmptyString => EmptyString
  | String d s' => if Ascii.eqb c d then EmptyString else String d (before c s')
  end.

(** The part of [s] after the first [c] ([None] when there is none). *)
Fixpoint after (c : ascii) (s : string) : option string :=
  match s with
  | EmptyString => None
  | String d s' => if Ascii.eqb c d then Some s' else after c s'
  end.

(** [s.split(c)] for a one-character separator. *)
Fixpoint split (c : ascii) (s : string) : list string :=
  match s with
  | EmptyString => [EmptyString]
  | String d s' =>
      if Ascii.eqb c d then EmptyString :: split c s'
      else match split c s' with
           | [] => [String d EmptyString]
           | w :: ws => String d w :: ws
           end
  end.

(** [s.replace(/pat/g, '')] for a literal, non-empty pattern: one pass from
    the left, every match removed, the scan resuming after the match.
    [skip] counts the characters of the current match still to drop. *)
Fixpoint remove_all_from (pat : string) (skip : nat) (s : string) : string :=
  match s with
  | EmptyString => EmptyString
  | String c s' =>
      match skip with
      | S k => remove_all_from pat k s'
      | O =>
          if String.prefix pat s
          then remove_all_from pat (String.length pat - 1) s'
          else String c (remove_all_from pat 0 s')
      end
  end.

Definition remove_all (pat s : string) : string :=
  match pat with
  | EmptyString => s
  | _ => remove_all_from pat 0 s
  end.

Fixpoint all_chars (p : ascii -> bool) (s : string) : bool :=
  match s with
  | EmptyString => true
  | String c s' => p c && all_chars p s'
  end.

Fixpoint map_chars (f : ascii -> ascii) (s : string) : string :=
  match s with
  | EmptyString => EmptyString
  | String c s' => String (f c) (map_chars f s')
  end.

End Str.

(* ================================================================= *)
(** ** JavaScript values *)

Inductive JsValue : Type :=
| JUndefined
| JNull
| JBool (b : bool)
| JNum (n : float)
| JStr (s : string).

Inductive JsError : Type :=
| Error (message : string)
| TypeError (message : string).

Inductive Result (A : Type) : Type :=
| Ok (a : A)
| Throw (e : JsError).

Arguments Ok {A} a.
Arguments Throw {A} e.

Definition bind {A B : Type} (r : Result A) (k : A -> Result B) : Result B :=
  match r with
  | Ok a => k a
  | Throw e => Throw e
  end.

Notation "x <- r ;; k" := (bind r (fun x => k))
  (at level 61, r at next level, right associativity).

(** [!v] is [negb (truthy v)]. *)
Definition truthy (v : JsValue) : bool :=
  match v with
  | JUndefined | JNull => false
  | JBool b => b
  | JNum n => negb (PrimFloat.eqb n 0%float || PrimFloat.is_nan n)
  | JStr s => negb (String.eqb s "")
  end.

(** [v === w] *)
Definition strict_eq (v w : JsValue) : bool :=
  match v, w with
  | JUndefined, JUndefined => true
  | JNull, JNull => true
  | JBool a, JBool b => Bool.eqb a b
  | JNum a, JNum b => PrimFloat.eqb a b
  | JStr a, JStr b => String.eqb a b
  | _, _ => false
  end.

(** [v ?? d] *)
Definition nullish (v d : JsValue) : JsValue :=
  match v with
  | JUndefined | JNull => d
  | _ => v
  end.

(** [o ?? d] for an optional string of the configuration. *)
Definition or_else (o : option string) (d : string) : string :=
  match o with
  | Some s => s
  | None => d
  end.

Definition of_option (o : option string) : JsValue :=
  match o with
  | Some s => JStr s
  | None => JUndefined
  end.

(* ================================================================= *)
(** ** Plain objects *)

Definition JsObject : Type := list (string * JsValue).

Module Obj.

Definition keys (o : JsObject) : list string := map fst o.

(** [o[k]], [undefined] for a missing property. *)
Fixpoint get (k : string) (o : JsObject) : JsValue :=
  match o with
  | [] => JUndefined
  | (k', v) :: o' => if String.eqb k k' then v else get k o'
  end.

Fixpoint has (k : string) (o : JsObject) : bool :=
  match o with
  | [] => false
  | (k', _) :: o' => String.eqb k k' || has k o'
  end.

(** [o[k] = v]: an existing property keeps its place, a new one goes last. *)
Fixpoint set (k : string) (v : JsValue) (o : JsObject) : JsObject :=
  match o with
  | [] => [(k, v)]
  | (k', v') :: o' =>
      if String.eqb k k' then (k, v) :: o' else (k', v') :: set k v o'
  end.

(** [delete o[k]] *)
Definition delete (k : string) (o : JsObject) : JsObject :=
  filter (fun kv => negb (String.eqb k (fst kv))) o.

(** No property name occurs twice: the property list is that of an object. *)
Fixpoint wf (o : JsObject) : bool :=
  match o with
  | [] => true
  | (k, _) :: o' => negb (has k o') && wf o'
  end.

End Obj.

(** *** Enumeration order

    [Object.entries] and the spread syntax list the array-index names first,
    in increasing numeric order, then the other names in insertion order. *)

Definition is_digit (c : ascii) : bool :=
  (48 <=? nat_of_ascii c)%nat && (nat_of_ascii c <=? 57)%nat.

Fixpoint decimal_value (acc : N) (s : string) : N :=
  match s with
  | EmptyString => acc
  | String c s' =>
      decimal_value (acc * 10 + (N_of_ascii c - 48))%N s'
  end.

(** The array index a property name denotes: a canonical decimal numeral
    below [2^32 - 1]. *)
Definition array_index (k : string) : option N :=
  match k with
  | EmptyString => None
  | String c rest =>
      if Str.all_chars is_digit k
         && (negb (Ascii.eqb c "0") || String.eqb rest "")
         && (String.length k <=? 10)%nat
      then
        let n := decimal_value 0 k in
        if (n <? 4294967295)%N then Some n else None
      else None
  end.

(* ================================================================= *)
(** ** [Array.prototype.sort] with a comparator

    The sort is stable; a stable insertion sort stands for it. *)

Section Sort.

Context {A : Type} (cmp : A -> A -> comparison).

Fixpoint insert_sorted (x : A) (l : list A) : list A :=
  match l with
  | [] => [x]
  | y :: l' =>
      match cmp x y with
      | Gt => y :: insert_sorted x l'
      | _ => x :: l
      end
  end.

Definition sort_by (l : list A) : list A :=
  fold_right insert_sorted [] l.

End Sort.

Definition index_entries (o : JsObject) : list (N * (string * JsValue)) :=
  flat_map (fun kv => match array_index (fst kv) with
                      | Some i => [(i, kv)]
                      | None => []
                      end) o.

Definition is_index (kv : string * JsValue) : bool :=
  match array_index (fst kv) with
  | Some _ => true
  | None => false
  end.

(** [Object.entries(o)] *)
Definition own_entries (o : JsObject) : list (string * JsValue) :=
  (map snd (sort_by (fun a b => N.compare (fst a) (fst b)) (index_entries o))
   ++ filter (fun kv => negb (is_index kv)) o)%list.

(** The properties [l] set on [target] one after the other. *)
Definition set_all (l : list (string * JsValue)) (target : JsObject) : JsObject :=
  fold_left (fun acc kv => Obj.set (fst kv) (snd kv) acc) l target.

(** [Object.assign(target, src)]; [{...a, ...b}] is
    [assign (assign [] a) b]. *)
Definition assign (target src : JsObject) : JsObject :=
  set_all (own_entries src) target.

(** [Object.fromEntries(l)] *)
Definition fromEntries (l : list (string * JsValue)) : JsObject :=
  set_all l [].

(* ================================================================= *)
(** ** [URLSearchParams] and [URL]

    The [application/x-www-form-urlencoded] serializer and parser of the
    URL standard, on bytes. *)

Definition is_alnum (c : ascii) : bool :=
  let n := nat_of_ascii c in
  ((48 <=? n) && (n <=? 57) || (65 <=? n) && (n <=? 90)
   || (97 <=? n) && (n <=? 122))%nat.

(** Bytes the serializer leaves as they are. *)
Definition unreserved (c : ascii) : bool :=
  is_alnum c || Ascii.eqb c "*" || Ascii.eqb c "-" || Ascii.eqb c "."
  || Ascii.eqb c "_".

Definition hex_digit (n : N) : ascii :=
  if (n <? 10)%N then ascii_of_N (48 + n) else ascii_of_N (55 + n).

Definition hex_value (c : ascii) : option N :=
  let n := N_of_ascii c in
  if (48 <=? n)%N && (n <=? 57)%N then Some (n - 48)%N
  else if (65 <=? n)%N && (n <=? 70)%N then Some (n - 55)%N
  else if (97 <=? n)%N && (n <=? 102)%N then Some (n - 87)%N
  else None.

Definition encode_byte (c : ascii) : string :=
  if unreserved c then String c EmptyString
  else if Ascii.eqb c " " then "+"
  else String "%" (String (hex_digit (N_of_ascii c / 16))
                  (String (hex_digit (N_of_ascii c mod 16)) EmptyString)).

Fixpoint urlencode (s : string) : string :=
  match s with
  | EmptyString => EmptyString
  | String c s' => encode_byte c ++ urlencode s'
  end.

(** One name-value pair of the serialization. *)
Definition pair_string (kv : string * string) : string :=
  urlencode (fst kv) ++ "=" ++ urlencode (snd kv).

(** [URLSearchParams.prototype.toString] *)
Definition serialize (l : list (string * string)) : string :=
  String.concat "&" (map pair_string l).

Definition plus_to_space (s : string) : string :=
  Str.map_chars (fun c => if Ascii.eqb c "+" then " "%char else c) s.

Fixpoint percent_decode (s : string) : string :=
  match s with
  | EmptyString => EmptyString
  | String c s' =>
      if Ascii.eqb c "%" then
        match s' with
        | String h (String l s'') =>
            match hex_value h, hex_value l with
            | Some a, Some b =>
                String (ascii_of_N (a * 16 + b)) (percent_decode s'')
            | _, _ => String c (percent_decode s')
            end
        | _ => String c (percent_decode s')
        end
      else String c (percent_decode s')
  end.

Definition form_decode (s : string) : string :=
  percent_decode (plus_to_space s).

Definition parse_pair (seq : string) : string * string :=
  (form_decode (Str.before "=" seq),
   form_decode (match Str.after "=" seq with Some v => v | None => "" end)).

(** The parser behind [new URLSearchParams(s)]. *)
Definition parse_urlencoded (s : string) : list (string * string) :=
  map parse_pair
      (filter (fun seq => negb (String.eqb seq "")) (Str.split "&" s)).

(** A parsed URL: everything up to the query, the query (without [?]) and
    the fragment (without [#]), the last two possibly null. *)
Record URL : Type := {
  url_base : string;
  url_query : option string;
  url_fragment : option string
}.

(** [u.search] *)
Definition url_search (u : URL) : string :=
  match url_query u with
  | None | Some EmptyString => ""
  | Some q => "?" ++ q
  end.

(** [u.toString()] *)
Definition url_href (u : URL) : string :=
  url_base u
  ++ match url_query u with Some q => "?" ++ q | None => "" end
  ++ match url_fragment u with Some f => "#" ++ f | None => "" end.

(** The list of [u.searchParams]. *)
Definition url_params (u : URL) : list (string * string) :=
  parse_urlencoded (match url_query u with Some q => q | None => "" end).

(** [u.searchParams.append(k, v)]: the pair goes last and the query of [u]
    becomes the serialization of the list. *)
Definition searchParams_append (k v : string) (u : URL) : URL :=
  let q := serialize (url_params u ++ [(k, v)])%list in
  {| url_base := url_base u;
     url_query := if String.eqb q "" then None else Some q;
     url_fragment := url_fragment u |}.

(* ================================================================= *)
(** ** The collaborators of the class *)

(** Modelled from the spec: the enumerated set of hash algorithms
    ([enums.ts] is not part of the sources). *)
Inductive HashAlgorithm : Type := SHA256 | SHA512 | MD5.

(** The response tables of [constants.ts], by name. *)
Inductive ResponseMap : Type := QUERY_DR_RESPONSE_MAP | REFUND_RESPONSE_MAP.

(** What [vnpay.ts] uses of the JavaScript runtime. *)
Class JsRuntime : Type := {
  (** [a.localeCompare(b)], by sign *)
  localeCompare : string -> string -> comparison;
  (** [Number.prototype.toString] *)
  Number_toString : float -> string;
  (** [Number(s)] on a string *)
  StringToNumber : string -> float;
  (** [new URL(s)], [None] when it throws *)
  URL_parse : string -> option URL
}.

(** What [vnpay.ts] imports from [./utils/common] and [./constants]. *)
Class VnpayLib : Type := {
  (** [hash(secret, data, algorithm)]: the keyed digest, in hex *)
  hash : string -> string -> HashAlgorithm -> string;
  getResponseByStatusCode : JsValue -> string -> option ResponseMap -> string;
  isValidVnpayDateFormat : JsValue -> bool;
  resolveUrlString : string -> string -> string;
  VNPAY_GATEWAY_SANDBOX_HOST : string;
  PAYMENT_ENDPOINT : string;
  QUERY_DR_REFUND_ENDPOINT : string;
  VNP_DEFAULT_COMMAND : string;
  VNP_VERSION : string;
  ProductCode_Other : string;
  VnpCurrCode_VND : string;
  VnpLocale_VN : string
}.

(** [Buffer.from(s, 'utf-8')] *)
Definition Buffer_from (s : string) : string := s.

Section Conversions.

Context {RT : JsRuntime}.

(** [`${v}`] and, for a value that is neither undefined nor null,
    [v.toString()]. *)
Definition ToString (v : JsValue) : string :=
  match v with
  | JUndefined => "undefined"
  | JNull => "null"
  | JBool true => "true"
  | JBool false => "false"
  | JNum n => Number_toString n
  | JStr s => s
  end.

(** [Number(v)], the conversion [*] and [/] apply to an operand. *)
Definition ToNumber (v : JsValue) : float :=
  match v with
  | JUndefined => PrimFloat.nan
  | JNull => 0%float
  | JBool true => 1%float
  | JBool false => 0%float
  | JNum n => n
  | JStr s => StringToNumber s
  end.

(** [v?.toString()] *)
Definition opt_toString (v : JsValue) : JsValue :=
  match v with
  | JUndefined | JNull => JUndefined
  | _ => JStr (ToString v)
  end.

(** The comparator [([key1], [key2]) => key1.toString().localeCompare(key2.toString())]. *)
Definition by_key (a b : string * JsValue) : comparison :=
  localeCompare (fst a) (fst b).

End Conversions.

(* ================================================================= *)
(** ** The class [VNPay] *)

(** The argument of the constructor; [None] is an absent option. *)
Record VNPayConfig : Type := {
  cfg_vnpayHost : option string;
  cfg_vnp_Version : option string;
  cfg_vnp_CurrCode : option string;
  cfg_vnp_Locale : option string;
  cfg_testMode : option bool;
  cfg_paymentEndpoint : option string;
  cfg_tmnCode : string;
  cfg_secureSecret : string;
  cfg_hashAlgorithm : option HashAlgorithm
}.

(** [globalDefaultConfig]; the fields the methods read through [??] are
    optional. *)
Record GlobalConfig : Type := {
  vnpayHost : option string;
  vnp_Version : option string;
  vnp_CurrCode : string;
  vnp_Locale : string;
  vnp_OrderType : string;
  vnp_Command : string;
  tmnCode : string;
  secureSecret : string;
  paymentEndpoint : option string;
  hashAlgorithm : option HashAlgorithm
}.

Record VNPay : Type := {
  globalDefaultConfig : GlobalConfig;
  HASH_ALGORITHM : HashAlgorithm
}.

(** The answer of [fetch]: [response.ok], [response.status] and what
    [response.json()] gives. *)
Record HttpResponse : Type := {
  resp_ok : bool;
  resp_status : float;
  resp_json : Result JsObject
}.

(** [fetch(url, { method: 'POST', headers, body: JSON.stringify(body) })],
    by URL and body. *)
Definition Fetch : Type := string -> JsObject -> Result HttpResponse.

(** The answer of [fetch] to the bank-list request: [response.json()] is an
    array of bank descriptors. *)
Record BankListResponse : Type := {
  banks_ok : bool;
  banks_status : float;
  banks_json : Result (list JsObject)
}.

(** [fetch(url, { method: 'POST', headers, body })] with a text body, by URL
    and body. *)
Definition FetchForm : Type := string -> string -> Result BankListResponse.

(** [array.forEach(f)] for a callback that updates the element it is given
    and may throw; the array is returned with its elements updated. *)
Fixpoint forEach_update {A : Type} (f : A -> Result A) (l : list A)
  : Result (list A) :=
  match l with
  | [] => Ok []
  | x :: l' =>
      x' <- f x ;;
      l'' <- forEach_update f l' ;;
      Ok (x' :: l'')
  end.

Section Class.

Context {RT : JsRuntime} {LIB : VnpayLib}.

(** The constructor.  [paymentEndpoint] is taken out of the rest [config]
    by the destructuring and is not stored. *)
Definition VNPay_new (c : VNPayConfig) : VNPay :=
  let vnpayHost0 := or_else (cfg_vnpayHost c) VNPAY_GATEWAY_SANDBOX_HOST in
  let vnp_Version0 := or_else (cfg_vnp_Version c) VNP_VERSION in
  let vnp_CurrCode0 := or_else (cfg_vnp_CurrCode c) VnpCurrCode_VND in
  let vnp_Locale0 := or_else (cfg_vnp_Locale c) VnpLocale_VN in
  let testMode := match cfg_testMode c with Some b => b | None => false end in
  let vnpayHost1 := if testMode then VNPAY_GATEWAY_SANDBOX_HOST else vnpayHost0 in
  {| globalDefaultConfig :=
       {| vnpayHost := Some vnpayHost1;
          vnp_Version := Some vnp_Version0;
          vnp_CurrCode := vnp_CurrCode0;
          vnp_Locale := vnp_Locale0;
          vnp_OrderType := ProductCode_Other;
          vnp_Command := VNP_DEFAULT_COMMAND;
          tmnCode := cfg_tmnCode c;
          secureSecret := cfg_secureSecret c;
          paymentEndpoint := None;
          hashAlgorithm := cfg_hashAlgorithm c |};
     HASH_ALGORITHM :=
       match cfg_hashAlgorithm c with Some a => a | None => SHA512 end |}.

Variable this : VNPay.

Let config : GlobalConfig := globalDefaultConfig this.

(** [get defaultConfig()] *)
Definition defaultConfig : JsObject :=
  [ ("vnp_TmnCode", JStr (tmnCode config));
    ("vnp_Version", of_option (vnp_Version config));
    ("vnp_CurrCode", JStr (vnp_CurrCode config));
    ("vnp_Locale", JStr (vnp_Locale config));
    ("vnp_Command", JStr (vnp_Command config));
    ("vnp_OrderType", JStr (vnp_OrderType config)) ].

(** [new URL(s)] *)
Definition new_URL (s : string) : Result URL :=
  match URL_parse s with
  | Some u => Ok u
  | None => Throw (TypeError "Invalid URL")
  end.

(** [`${o.k}`] *)
Definition field (o : JsObject) (k : string) : string :=
  ToString (Obj.get k o).

(** *** [buildPaymentUrl] *)

(** [!value || value === '' || value === undefined || value === null] *)
Definition build_skips (value : JsValue) : bool :=
  negb (truthy value) || strict_eq value (JStr "")
  || strict_eq value JUndefined || strict_eq value JNull.

(** The object [dataToBuild] when the loop starts; [now] is what
    [dateFormat(new Date(timeGMT7), 'yyyyMMddHHmmss')] gives at the call. *)
Definition dataToBuild (now : JsValue) (data : JsObject) : JsObject :=
  let d0 := assign (assign [] defaultConfig) data in
  let d1 :=
    Obj.set "vnp_Amount"
      (JNum (ToNumber (Obj.get "vnp_Amount" d0) * 100)%float) d0 in
  if negb (isValidVnpayDateFormat
             (nullish (Obj.get "vnp_CreateDate" d1) (JNum 0%float)))
  then Obj.set "vnp_CreateDate" now d1
  else d1.

(** The [sort(...).forEach(...)] loop on [redirectUrl.searchParams]. *)
Definition append_fields (entries : list (string * JsValue)) (u : URL) : URL :=
  fold_left
    (fun u kv =>
       if build_skips (snd kv) then u
       else searchParams_append (fst kv) (ToString (snd kv)) u)
    (sort_by by_key entries) u.

Definition buildPaymentUrl (now : JsValue) (data : JsObject) : Result string :=
  let dataToBuild := dataToBuild now data in
  redirectUrl <-
    new_URL (resolveUrlString
               (or_else (vnpayHost config) VNPAY_GATEWAY_SANDBOX_HOST)
               (or_else (paymentEndpoint config) PAYMENT_ENDPOINT)) ;;
  let redirectUrl := append_fields (own_entries dataToBuild) redirectUrl in
  let signed :=
    hash (secureSecret config)
         (Buffer_from (Str.slice1 (url_search redirectUrl)))
         (HASH_ALGORITHM this) in
  let redirectUrl := searchParams_append "vnp_SecureHash" signed redirectUrl in
  Ok (url_href redirectUrl).

(** *** [verifyReturnUrl] *)

(** [value === '' || value === undefined || value === null] *)
Definition verify_skips (value : JsValue) : bool :=
  strict_eq value (JStr "") || strict_eq value JUndefined
  || strict_eq value JNull.

(** The [sort(...).forEach(...)] loop on a fresh [URLSearchParams]. *)
Definition collect_fields (entries : list (string * JsValue))
  : list (string * string) :=
  fold_left
    (fun sp kv =>
       if verify_skips (snd kv) then sp
       else (sp ++ [(fst kv, ToString (snd kv))])%list)
    (sort_by by_key entries) [].

(** The result and the argument as the call leaves it. *)
Definition verifyReturnUrl (query : JsObject) : JsObject * JsObject :=
  let secureHash := Obj.get "vnp_SecureHash" query in
  let query := Obj.delete "vnp_SecureHash" query in
  let query := Obj.delete "vnp_SecureHashType" query in
  let outputResults : JsObject :=
    [ ("isVerified", JBool true);
      ("isSuccess",
       JBool (strict_eq (Obj.get "vnp_ResponseCode" query) (JStr "00")));
      ("message",
       JStr (getResponseByStatusCode
               (nullish (opt_toString (Obj.get "vnp_ResponseCode" query))
                        (JStr ""))
               (vnp_Locale config) None)) ] in
  let searchParams := collect_fields (own_entries query) in
  let signed :=
    hash (secureSecret config) (Buffer_from (serialize searchParams))
         (HASH_ALGORITHM this) in
  let outputResults :=
    if negb (strict_eq secureHash (JStr signed))
    then assign outputResults
           [ ("isVerified", JBool false); ("message", JStr "Wrong checksum") ]
    else outputResults in
  (Obj.set "vnp_Amount"
     (JNum (ToNumber (Obj.get "vnp_Amount" query) / 100)%float)
     (assign (assign [] query) outputResults),
   query).

Definition verifyIpnCall (query : JsObject) : JsObject * JsObject :=
  verifyReturnUrl query.

(** The string [verifyReturnUrl] signs for the argument [query], and the
    signature it compares with [query.vnp_SecureHash]. *)
Definition return_signed_string (query : JsObject) : string :=
  serialize
    (collect_fields
       (own_entries
          (Obj.delete "vnp_SecureHashType"
             (Obj.delete "vnp_SecureHash" query)))).

Definition return_signature (query : JsObject) : string :=
  hash (secureSecret config) (Buffer_from (return_signed_string query))
       (HASH_ALGORITHM this).

(** *** [queryDr] and [refund] *)

(** [Number(code) >= 90 && Number(code) <= 99] *)
Definition in_soft_range (code : JsValue) : bool :=
  PrimFloat.leb 90%float (ToNumber code)
  && PrimFloat.leb (ToNumber code) 99%float.

Definition http_post (fetch : Fetch) (url : URL) (body : JsObject)
  : Result JsObject :=
  response <- fetch (url_href url) body ;;
  if negb (resp_ok response)
  then Throw (Error ("HTTP error! status: "
                     ++ Number_toString (resp_status response)))
  else resp_json response.

Definition queryDr (fetch : Fetch) (query : JsObject) : Result JsObject :=
  let command := "querydr" in
  let dataQuery :=
    assign [("vnp_Version", JStr (or_else (vnp_Version config) VNP_VERSION))]
           query in
  url <- new_URL (resolveUrlString
                    (or_else (vnpayHost config) VNPAY_GATEWAY_SANDBOX_HOST)
                    QUERY_DR_REFUND_ENDPOINT) ;;
  let stringToCheckSum :=
    (field dataQuery "vnp_RequestId" ++ "|" ++ field dataQuery "vnp_Version"
     ++ "|" ++ command)
    ++ ("|" ++ tmnCode config ++ "|" ++ field dataQuery "vnp_TxnRef"
        ++ "|" ++ field dataQuery "vnp_TransactionDate")
    ++ ("|" ++ field dataQuery "vnp_CreateDate" ++ "|"
        ++ field dataQuery "vnp_IpAddr" ++ "|"
        ++ field dataQuery "vnp_OrderInfo") in
  let signed :=
    hash (secureSecret config) (Buffer_from stringToCheckSum)
         (HASH_ALGORITHM this) in
  let body :=
    Obj.set "vnp_SecureHash" (JStr signed)
      (Obj.set "vnp_TmnCode" (JStr (tmnCode config))
         (Obj.set "vnp_Command" (JStr command) (assign [] dataQuery))) in
  responseData <- http_post fetch url body ;;
  if in_soft_range (Obj.get "vnp_ResponseCode" responseData) then
    Ok (Obj.set "vnp_Message"
          (JStr (getResponseByStatusCode
                   (opt_toString (Obj.get "vnp_ResponseCode" responseData))
                   (vnp_Locale config) (Some QUERY_DR_RESPONSE_MAP)))
          (assign [] responseData))
  else
    let stringToCheckSumResponse :=
      (field responseData "vnp_ResponseId" ++ "|"
       ++ field responseData "vnp_Command" ++ "|"
       ++ field responseData "vnp_ResponseCode")
      ++ ("|" ++ field responseData "vnp_Message" ++ "|"
          ++ field defaultConfig "vnp_TmnCode" ++ "|"
          ++ field responseData "vnp_TxnRef")
      ++ ("|" ++ field responseData "vnp_Amount" ++ "|"
          ++ field responseData "vnp_BankCode" ++ "|"
          ++ field responseData "vnp_PayDate")
      ++ ("|" ++ field responseData "vnp_TransactionNo" ++ "|"
          ++ field responseData "vnp_TransactionType" ++ "|"
          ++ field responseData "vnp_TransactionStatus")
      ++ ("|" ++ field responseData "vnp_OrderInfo" ++ "|"
          ++ field responseData "vnp_PromotionCode" ++ "|"
          ++ field responseData "vnp_PromotionAmount") in
    let stringToCheckSumResponse :=
      Str.remove_all "undefined" stringToCheckSumResponse in
    let signedResponse :=
      hash (secureSecret config) (Buffer_from stringToCheckSumResponse)
           (HASH_ALGORITHM this) in
    if negb (strict_eq (JStr signedResponse)
                       (Obj.get "vnp_SecureHash" responseData))
    then Throw (Error "Wrong checksum from VNPay response")
    else
      Ok (Obj.set "vnp_Message"
            (JStr (getResponseByStatusCode
                     (opt_toString (Obj.get "vnp_ResponseCode" responseData))
                     (vnp_Locale config) (Some QUERY_DR_RESPONSE_MAP)))
            (assign [] responseData)).

Definition refund (fetch : Fetch) (data : JsObject) : Result JsObject :=
  let vnp_Command := "refund" in
  let dataQuery :=
    Obj.set "vnp_TmnCode" (JStr (tmnCode config))
      (Obj.set "vnp_Version" (of_option (vnp_Version config))
         (Obj.set "vnp_Command" (JStr vnp_Command) (assign [] data))) in
  url <- new_URL (resolveUrlString
                    (or_else (vnpayHost config) VNPAY_GATEWAY_SANDBOX_HOST)
                    QUERY_DR_REFUND_ENDPOINT) ;;
  let stringToSigned :=
    (field dataQuery "vnp_RequestId" ++ "|" ++ field dataQuery "vnp_Version"
     ++ "|" ++ vnp_Command ++ "|" ++ field dataQuery "vnp_TmnCode" ++ "|")
    ++ (field dataQuery "vnp_TransactionType" ++ "|"
        ++ field dataQuery "vnp_TxnRef" ++ "|"
        ++ field dataQuery "vnp_Amount" ++ "|")
    ++ (field dataQuery "vnp_TransactionNo" ++ "|"
        ++ field dataQuery "vnp_TransactionDate" ++ "|"
        ++ field dataQuery "vnp_CreateBy" ++ "|")
    ++ (field dataQuery "vnp_CreateDate" ++ "|"
        ++ field dataQuery "vnp_IpAddr" ++ "|"
        ++ field dataQuery "vnp_OrderInfo") in
  let signed :=
    hash (secureSecret config) (Buffer_from stringToSigned)
         (HASH_ALGORITHM this) in
  let body := Obj.set "vnp_SecureHash" (JStr signed) (assign [] dataQuery) in
  responseData <- http_post fetch url body ;;
  if in_soft_range (Obj.get "vnp_ResponseCode" responseData) then
    Ok (Obj.set "vnp_Message"
          (JStr (getResponseByStatusCode
                   (opt_toString (Obj.get "vnp_ResponseCode" responseData))
                   (vnp_Locale config) (Some QUERY_DR_RESPONSE_MAP)))
          (assign [] responseData))
  else
    let stringToChecksumResponse :=
      (field responseData "vnp_ResponseId" ++ "|" ++ vnp_Command ++ "|"
       ++ field responseData "vnp_ResponseCode" ++ "|")
      ++ (field responseData "vnp_Message" ++ "|"
          ++ field responseData "vnp_TmnCode" ++ "|"
          ++ field responseData "vnp_TxnRef" ++ "|")
      ++ (field responseData "vnp_Amount" ++ "|"
          ++ field responseData "vnp_BankCode" ++ "|"
          ++ field responseData "vnp_PayDate" ++ "|")
      ++ (field responseData "vnp_TransactionNo" ++ "|"
          ++ field responseData "vnp_TransactionType" ++ "|")
      ++ (field responseData "vnp_TransactionStatus" ++ "|"
          ++ field responseData "vnp_OrderInfo") in
    let signedResponse :=
      hash (secureSecret config) (Buffer_from stringToChecksumResponse)
           (HASH_ALGORITHM this) in
    if negb (strict_eq (JStr signedResponse)
                       (Obj.get "vnp_SecureHash" responseData))
    then Throw (Error "Wrong checksum from VNPay response")
    else
      Ok (Obj.set "vnp_Message"
            (JStr (getResponseByStatusCode
                     (opt_toString (Obj.get "vnp_ResponseCode" responseData))
                     (vnp_Locale config) (Some REFUND_RESPONSE_MAP)))
            (assign [] responseData)).

(** *** [getBankList] *)

(** The callback of [bankList.forEach]:
    [b.logo_link = resolveUrlString(host, b.logo_link.slice(1))].  Reading
    [slice] of a missing or null [logo_link], or calling it on a value that
    has none, is a [TypeError]. *)
Definition resolve_logo (b : JsObject) : Result JsObject :=
  match Obj.get "logo_link" b with
  | JStr s =>
      Ok (Obj.set "logo_link"
            (JStr (resolveUrlString
                     (or_else (vnpayHost config) VNPAY_GATEWAY_SANDBOX_HOST)
                     (Str.slice1_utf16 s)))
            b)
  | JUndefined =>
      Throw (TypeError "Cannot read properties of undefined (reading 'slice')")
  | JNull =>
      Throw (TypeError "Cannot read properties of null (reading 'slice')")
  | _ => Throw (TypeError "b.logo_link.slice is not a function")
  end.

(** [GET_BANK_LIST_ENDPOINT] is a constant of [constants.ts]. *)
Definition getBankList (GET_BANK_LIST_ENDPOINT : string) (fetch : FetchForm)
  : Result (list JsObject) :=
  response <-
    fetch (resolveUrlString
             (or_else (vnpayHost config) VNPAY_GATEWAY_SANDBOX_HOST)
             GET_BANK_LIST_ENDPOINT)
          ("tmn_code=" ++ tmnCode config) ;;
  bankList <- banks_json response ;;
  forEach_update resolve_logo bankList.

End Class.

(* ================================================================= *)
(** ** Reading a URL back *)

(** Name-value pairs as properties with string values. *)
Definition string_fields (l : list (string * string)) : list (string * JsValue) :=
  map (fun kv => (fst kv, JStr (snd kv))) l.

(** Modelled from the spec: [parseQuery] of the round-trip property is not
    a function of the sources; it is the query-string parser of the web
    framework that receives the callback.  The query is what lies between
    the first [?] and the following [#]; it is parsed as
    [application/x-www-form-urlencoded] and the pairs become the properties
    of an object, as [Object.fromEntries(new URL(href).searchParams)]
    does. *)
Definition parseQuery (href : string) : JsObject :=
  fromEntries
    (string_fields
       (parse_urlencoded
          (Str.before "#"
             (match Str.after "?" href with Some q => q | None => "" end)))).

(* ================================================================= *)
(** ** Properties of a comparator *)

(** [cmp] is a total preorder: the sort then puts its argument in order. *)
Record Consistent {A : Type} (cmp : A -> A -> comparison) : Prop := {
  cmp_opp : forall a b, cmp a b = CompOpp (cmp b a);
  cmp_trans : forall a b c, cmp a b <> Gt -> cmp b c <> Gt -> cmp a c <> Gt
}.

(** [cmp] tells every two different names of [names] apart. *)
Definition Separating_on (cmp : string -> string -> comparison)
  (names : list string) : Prop :=
  forall a b, In a names -> In b names -> cmp a b = Eq -> a = b.

(** Modelled from the spec: the byte/ASCII ordering of field names the
    specification asks of the canonical string. *)
Definition ascii_sort (keys : list string) : list string :=
  sort_by String.compare keys.

(** [a] is not after [b]. *)
Definition le_of {A : Type} (cmp : A -> A -> comparison) (a b : A) : Prop :=
  cmp a b <> Gt.

(** The names of the properties of [o] a loop does not skip. *)
Definition present_keys (skips : JsValue -> bool) (o : JsObject) : list string :=
  map fst (filter (fun kv => negb (skips (snd kv))) o).

(** The pairs a [sort(...).forEach(...)] loop appends, given its skip test. *)
Definition canonical_pairs {RT : JsRuntime} (skips : JsValue -> bool)
  (entries : list (string * JsValue)) : list (string * string) :=
  map (fun kv => (fst kv, ToString (snd kv)))
      (filter (fun kv => negb (skips (snd kv))) (sort_by by_key entries)).

(** Modelled from the spec: the fifteen response fields of the status
    query, in the order of the specification. *)
Definition spec_queryDr_response_fields : list string :=
  [ "vnp_ResponseId"; "vnp_Command"; "vnp_ResponseCode"; "vnp_Message";
    "vnp_TmnCode"; "vnp_TxnRef"; "vnp_Amount"; "vnp_BankCode"; "vnp_PayDate";
    "vnp_TransactionNo"; "vnp_TransactionType"; "vnp_TransactionStatus";
    "vnp_OrderInfo"; "vnp_PromotionCode"; "vnp_PromotionAmount" ].

(** Modelled from the spec: the thirteen response fields of the refund, in
    the order of the specification. *)
Definition spec_refund_response_fields : list string :=
  [ "vnp_ResponseId"; "vnp_Command"; "vnp_ResponseCode"; "vnp_Message";
    "vnp_TmnCode"; "vnp_TxnRef"; "vnp_Amount"; "vnp_BankCode"; "vnp_PayDate";
    "vnp_TransactionNo"; "vnp_TransactionType"; "vnp_TransactionStatus";
    "vnp_OrderInfo" ].

(** Modelled from the spec: the fixed-order pipe string of the fields
    [names] of a response. *)
Definition spec_pipe {RT : JsRuntime} (response : JsObject)
  (names : list string) : string :=
  String.concat "|" (map (field response) names).

(* ================================================================= *)
(** ** A reference implementation of the interfaces

    Used to evaluate the methods on concrete inputs.  Each function agrees
    with the collaborator it stands for on the domain its comment gives. *)

Module Ref.

(** Stand-in for the keyed digest: the algorithm, the key and the data,
    written out.  Different data give different digests. *)
Definition hash (secret data : string) (alg : HashAlgorithm) : string :=
  match alg with SHA256 => "sha256" | SHA512 => "sha512" | MD5 => "md5" end
  ++ "(" ++ secret ++ "," ++ data ++ ")".

(** Primary weight of a byte in the root collation, on ASCII: punctuation
    before digits before letters, a letter and its capital alike.  (Among
    punctuation the byte order is kept.) *)
Definition primary_weight (c : ascii) : ascii :=
  let n := nat_of_ascii c in
  if (n <? 48)%nat then ascii_of_nat (n + 1)
  else if (n <=? 57)%nat then ascii_of_nat (n + 19)
  else if (n <=? 64)%nat then ascii_of_nat (n - 9)
  else if (n <=? 90)%nat then ascii_of_nat (n + 12)
  else if (n <=? 96)%nat then ascii_of_nat (n - 35)
  else if (n <=? 122)%nat then ascii_of_nat (n - 20)
  else if (n <=? 127)%nat then ascii_of_nat (n - 61)
  else c.

(** Tertiary weight: a small letter before its capital. *)
Definition swap_case (c : ascii) : ascii :=
  let n := nat_of_ascii c in
  if ((65 <=? n) && (n <=? 90))%nat then ascii_of_nat (n + 32)
  else if ((97 <=? n) && (n <=? 122))%nat then ascii_of_nat (n - 32)
  else c.

(** Sort key: the primary weights, a terminator, the tertiary weights. *)
Definition collation_key (s : string) : string :=
  Str.map_chars primary_weight s
  ++ String Ascii.zero (Str.map_chars swap_case s).

(** [localeCompare] under the root collation, on ASCII letters, digits and
    punctuation. *)
Definition localeCompare (a b : string) : comparison :=
  String.compare (collation_key a) (collation_key b).

Definition digit_char (n : N) : ascii := ascii_of_N (48 + n mod 10).

Fixpoint digits_from (fuel : nat) (n : N) (acc : string) : string :=
  match fuel with
  | O => String (digit_char n) acc
  | S k =>
      if (n <? 10)%N then String (digit_char n) acc
      else digits_from k (n / 10) (String (digit_char n) acc)
  end.

(** Decimal numeral of [n]. *)
Definition decimal (n : N) : string :=
  digits_from (N.to_nat (N.log2 n)) n EmptyString.

Fixpoint fraction_digits (fuel : nat) (r d : N) : string :=
  match fuel with
  | O => EmptyString
  | S k =>
      if (r =? 0)%N then EmptyString
      else String (digit_char (r * 10 / d)) (fraction_digits k (r * 10 mod d) d)
  end.

(** [m * 2^e] in decimal. *)
Definition decimal_of_dyadic (m : positive) (e : Z) : string :=
  match e with
  | Zneg p =>
      let d := (2 ^ Npos p)%N in
      let r := (Npos m mod d)%N in
      decimal (Npos m / d)
      ++ (if (r =? 0)%N then ""
          else String "." (fraction_digits (Pos.to_nat p) r d))
  | _ => decimal (Npos m * 2 ^ Z.to_N e)
  end.

(** [Number.prototype.toString], on the integers of magnitude below
    [10^21] (elsewhere the exact binary value is printed, where the runtime
    prints the shortest numeral that reads back). *)
Definition Number_toString (x : float) : string :=
  match Prim2SF x with
  | S754_zero _ => "0"
  | S754_infinity false => "Infinity"
  | S754_infinity true => "-Infinity"
  | S754_nan => "NaN"
  | S754_finite s m e => (if s then "-" else "") ++ decimal_of_dyadic m e
  end.

(** [Number(s)], on the unsigned decimal numerals of at most 15 digits and
    the empty string (elsewhere the answer is NaN, which the runtime gives
    only to strings that are not numeric literals). *)
Definition StringToNumber (s : string) : float :=
  if Str.all_chars is_digit s && (String.length s <=? 15)%nat
  then PrimFloat.of_uint63 (Uint63.of_Z (Z.of_N (decimal_value 0 s)))
  else PrimFloat.nan.

(** [new URL(s)], on absolute [http] and [https] URLs already in
    serialized form: the string is cut at the first [#] and the first
    [?]. *)
Definition URL_parse (s : string) : option URL :=
  if String.prefix "http://" s || String.prefix "https://" s then
    let front := Str.before "#" s in
    Some {| url_base := Str.before "?" front;
            url_query := Str.after "?" front;
            url_fragment := Str.after "#" s |}
  else None.

#[global] Instance runtime : JsRuntime :=
  Build_JsRuntime localeCompare Number_toString StringToNumber URL_parse.

(** [resolveUrlString], on a host without a trailing slash and a path
    without a leading one. *)
Definition resolveUrlString (host path : string) : string :=
  host ++ "/" ++ path.

(** [isValidVnpayDateFormat]: fourteen decimal digits. *)
Definition isValidVnpayDateFormat (v : JsValue) : bool :=
  let s := ToString v in
  Str.all_chars is_digit s && (String.length s =? 14)%nat.

(** Stand-in for the message tables: the locale and the code. *)
Definition getResponseByStatusCode
  (code : JsValue) (locale : string) (table : option ResponseMap) : string :=
  match table with
  | None => "return"
  | Some QUERY_DR_RESPONSE_MAP => "querydr"
  | Some REFUND_RESPONSE_MAP => "refund"
  end ++ "/" ++ locale ++ "/" ++ ToString (nullish code (JStr "")).

#[global] Instance lib : VnpayLib :=
  Build_VnpayLib hash getResponseByStatusCode isValidVnpayDateFormat
    resolveUrlString
    "https://sandbox.vnpayment.vn"       (* VNPAY_GATEWAY_SANDBOX_HOST *)
    "paymentv2/vpcpay.html"              (* PAYMENT_ENDPOINT *)
    "merchant_webapi/api/transaction"    (* QUERY_DR_REFUND_ENDPOINT *)
    "pay"                                (* VNP_DEFAULT_COMMAND *)
    "2.1.0"                              (* VNP_VERSION *)
    "other"                              (* ProductCode.Other *)
    "VND"                                (* VnpCurrCode.VND *)
    "vn".                                (* VnpLocale.VN *)

(** [new VNPay({ tmnCode: 'TMNCODE', secureSecret: 'SECRET' })] *)
Definition vnpay : VNPay :=
  VNPay_new {| cfg_vnpayHost := None; cfg_vnp_Version := None;
               cfg_vnp_CurrCode := None; cfg_vnp_Locale := None;
               cfg_testMode := None; cfg_paymentEndpoint := None;
               cfg_tmnCode := "TMNCODE"; cfg_secureSecret := "SECRET";
               cfg_hashAlgorithm := None |}.

(** The payment of the class's documentation. *)
Definition payment : JsObject :=
  [ ("vnp_Amount", JNum 100000%float);
    ("vnp_IpAddr", JStr "192.168.0.1");
    ("vnp_ReturnUrl", JStr "http://localhost:8888/order/vnpay_return");
    ("vnp_TxnRef", JStr "12345678");
    ("vnp_OrderInfo", JStr "Thanh toan cho ma GD: 12345678") ].

Definition now : JsValue := JNum 20231201093000%float.

(** What [new URL] makes of the payment address and of the API address of
    [vnpay]. *)
Definition payment_url : URL :=
  {| url_base := "https://sandbox.vnpayment.vn/paymentv2/vpcpay.html";
     url_query := None; url_fragment := None |}.

Definition api_url : URL :=
  {| url_base := "https://sandbox.vnpayment.vn/merchant_webapi/api/transaction";
     url_query := None; url_fragment := None |}.

(** A callback with two names on which the collation and the byte order
    disagree. *)
Definition mixed_case_callback : JsObject :=
  [ ("B", JStr "2"); ("a", JStr "1") ].

(** A callback whose signature is not the one of its fields. *)
Definition tampered_callback : JsObject :=
  [ ("vnp_Amount", JStr "10000000"); ("vnp_ResponseCode", JStr "00");
    ("vnp_TxnRef", JStr "12345678"); ("vnp_SecureHashType", JStr "SHA512");
    ("vnp_SecureHash", JStr "tampered") ].

(** A callback with an amount of zero, as a number. *)
Definition zero_callback : JsObject :=
  [ ("vnp_Amount", JNum 0%float); ("vnp_TxnRef", JStr "12345678") ].

(** A payload with an amount of zero, one with a negative amount, and one
    whose amount is not a number. *)
Definition zero_payment : JsObject :=
  [ ("vnp_Amount", JNum 0%float); ("vnp_TxnRef", JStr "12345678") ].

Definition negative_payment : JsObject :=
  [ ("vnp_Amount", JNum (-5)%float); ("vnp_TxnRef", JStr "12345678") ].

Definition non_numeric_payment : JsObject :=
  [ ("vnp_Amount", JStr "abc") ].

Definition status_query : JsObject :=
  [ ("vnp_RequestId", JStr "req-1"); ("vnp_TxnRef", JStr "12345678");
    ("vnp_TransactionDate", JNum 20231201093000%float);
    ("vnp_CreateDate", JNum 20231201100000%float);
    ("vnp_IpAddr", JStr "192.168.0.1"); ("vnp_OrderInfo", JStr "status") ].

Definition http_ok (body : JsObject) : HttpResponse :=
  {| resp_ok := true; resp_status := 200%float; resp_json := Ok body |}.

(** The fields of a status response for another terminal, and of a
    response whose command is not ["refund"]; neither has a promotion. *)
Definition foreign_fields : JsObject :=
  [ ("vnp_ResponseId", JStr "res-1"); ("vnp_Command", JStr "querydr");
    ("vnp_ResponseCode", JStr "00"); ("vnp_Message", JStr "Success");
    ("vnp_TmnCode", JStr "OTHERTMN"); ("vnp_TxnRef", JStr "12345678");
    ("vnp_Amount", JStr "10000000"); ("vnp_BankCode", JStr "NCB");
    ("vnp_PayDate", JStr "20231201093100");
    ("vnp_TransactionNo", JStr "14200000");
    ("vnp_TransactionType", JStr "01");
    ("vnp_TransactionStatus", JStr "00");
    ("vnp_OrderInfo", JStr "status") ].

(** A response signed, with the key of [vnpay], over its own fields as the
    specification lists them. *)
Definition signed_as_specified (scrub : bool) (names : list string)
  (fields : JsObject) : JsObject :=
  let pipe := spec_pipe fields names in
  Obj.set "vnp_SecureHash"
    (JStr (hash "SECRET"
                (if scrub then Str.remove_all "undefined" pipe else pipe)
                SHA512))
    fields.

Definition foreign_status_response : JsObject :=
  signed_as_specified true spec_queryDr_response_fields foreign_fields.

Definition foreign_refund_response : JsObject :=
  signed_as_specified false spec_refund_response_fields foreign_fields.

(** A status response of the soft range; it has no signature. *)
Definition soft_response : JsObject :=
  [ ("vnp_ResponseId", JStr "res-2"); ("vnp_Command", JStr "querydr");
    ("vnp_ResponseCode", JStr "91");
    ("vnp_Message", JStr "Transaction not found") ].

(** A verified callback: the fields, and the signature [vnpay] computes for
    them. *)
Definition paid_fields : JsObject :=
  [ ("vnp_TxnRef", JStr "12345678"); ("vnp_Amount", JStr "10000000");
    ("vnp_ResponseCode", JStr "00"); ("vnp_BankCode", JStr "") ].

Definition paid_callback : JsObject :=
  Obj.set "vnp_SecureHash" (JStr (return_signature vnpay paid_fields))
    paid_fields.

(** The same fields in another order. *)
Definition paid_fields_reordered : JsObject :=
  [ ("vnp_BankCode", JStr ""); ("vnp_ResponseCode", JStr "00");
    ("vnp_Amount", JStr "10000000"); ("vnp_TxnRef", JStr "12345678") ].

(** A configuration in test mode with a host and a payment endpoint of its
    own. *)
Definition test_mode_config : VNPayConfig :=
  {| cfg_vnpayHost := Some "https://pay.example.com";
     cfg_vnp_Version := None; cfg_vnp_CurrCode := None;
     cfg_vnp_Locale := None; cfg_testMode := Some true;
     cfg_paymentEndpoint := Some "custom/pay.html";
     cfg_tmnCode := "TMNCODE"; cfg_secureSecret := "SECRET";
     cfg_hashAlgorithm := None |}.

Definition payment_reordered : JsObject :=
  [ ("vnp_OrderInfo", JStr "Thanh toan cho ma GD: 12345678");
    ("vnp_TxnRef", JStr "12345678");
    ("vnp_ReturnUrl", JStr "http://localhost:8888/order/vnpay_return");
    ("vnp_IpAddr", JStr "192.168.0.1");
    ("vnp_Amount", JNum 100000%float) ].

Definition refund_data : JsObject :=
  [ ("vnp_RequestId", JStr "req-2"); ("vnp_Version", JStr "9.9.9");
    ("vnp_TransactionType", JStr "02"); ("vnp_TxnRef", JStr "12345678");
    ("vnp_Amount", JNum 10000000%float);
    ("vnp_TransactionDate", JNum 20231201093000%float);
    ("vnp_CreateBy", JStr "admin");
    ("vnp_CreateDate", JNum 20231201100000%float);
    ("vnp_IpAddr", JStr "192.168.0.1"); ("vnp_OrderInfo", JStr "refund") ].

Definition http_error (status : float) (body : JsObject) : HttpResponse :=
  {| resp_ok := false; resp_status := status; resp_json := Ok body |}.

(** A bank list of two banks, and one whose second bank has no logo. *)
Definition bank_list : list JsObject :=
  [ [ ("bank_code", JStr "NCB"); ("logo_link", JStr "/images/bank/ncb.png") ];
    [ ("logo_link", JStr "/images/bank/vcb.png"); ("bank_code", JStr "VCB") ] ].

Definition bank_list_without_logo : list JsObject :=
  [ [ ("bank_code", JStr "NCB"); ("logo_link", JStr "/images/bank/ncb.png") ];
    [ ("bank_code", JStr "VCB") ] ].

Definition banks_answer (ok : bool) (banks : list JsObject) : BankListResponse :=
  {| banks_ok := ok; banks_status := if ok then 200%float else 500%float;
     banks_json := Ok banks |}.

End Ref.

(* ================================================================= *)
(** * Properties *)

(** ** Strings *)

Module StrFacts.

Import Str.

Lemma app_nil_r (s : string) : s ++ "" = s.
Proof. induction s; simpl; congruence. Qed.

Lemma app_assoc (a b c : string) : (a ++ b) ++ c = a ++ (b ++ c).
Proof. induction a; simpl; congruence. Qed.

Lemma app_cons_not_empty (a b : string) (c : ascii) :
  String.eqb (a ++ String c b) "" = false.
Proof. destruct a; reflexivity. Qed.

Lemma contains_app (c : ascii) (a b : string) :
  contains_char c (a ++ b) = contains_char c a || contains_char c b.
Proof.
  induction a as [|d a IH]; simpl; [reflexivity|].
  rewrite IH. now rewrite orb_assoc.
Qed.

Lemma before_app (c : ascii) (a b : string) :
  contains_char c a = false -> before c (a ++ String c b) = a.
Proof.
  induction a as [|d a IH]; simpl; intros H.
  - now rewrite Ascii.eqb_refl.
  - apply orb_false_elim in H as [Hd Ha]. rewrite Hd, IH; auto.
Qed.

Lemma before_none (c : ascii) (a : string) :
  contains_char c a = false -> before c a = a.
Proof.
  induction a as [|d a IH]; simpl; intros H; [reflexivity|].
  apply orb_false_elim in H as [Hd Ha]. rewrite Hd, IH; auto.
Qed.

Lemma after_app (c : ascii) (a b : string) :
  contains_char c a = false -> after c (a ++ String c b) = Some b.
Proof.
  induction a as [|d a IH]; simpl; intros H.
  - now rewrite Ascii.eqb_refl.
  - apply orb_false_elim in H as [Hd Ha]. rewrite Hd. auto.
Qed.

Lemma split_none (c : ascii) (a : string) :
  contains_char c a = false -> split c a = [a].
Proof.
  induction a as [|d a IH]; simpl; intros H; [reflexivity|].
  apply orb_false_elim in H as [Hd Ha]. rewrite Hd, IH; auto.
Qed.

Lemma split_app (c : ascii) (a b : string) :
  contains_char c a = false -> split c (a ++ String c b) = a :: split c b.
Proof.
  induction a as [|d a IH]; simpl; intros H.
  - now rewrite Ascii.eqb_refl.
  - apply orb_false_elim in H as [Hd Ha]. rewrite Hd, IH; auto.
Qed.

Lemma prefix_app (p t : string) : String.prefix p (p ++ t) = true.
Proof.
  induction p as [|c p IH]; simpl; [now destruct t|].
  destruct (ascii_dec c c); [exact IH | congruence].
Qed.

Lemma remove_all_from_skip (pat s t : string) :
  remove_all_from pat (String.length s) (s ++ t) = remove_all_from pat 0 t.
Proof.
  induction s as [|c s IH]; [reflexivity|].
  simpl. exact IH.
Qed.

(** A match at the head is removed and the scan resumes behind it. *)
Lemma remove_all_from_match (c : ascii) (p t : string) :
  remove_all_from (String c p) 0 (String c p ++ t)
  = remove_all_from (String c p) 0 t.
Proof.
  change (String c p ++ t) with (String c (p ++ t)).
  cbn [remove_all_from].
  change (String c (p ++ t)) with (String c p ++ t).
  rewrite prefix_app.
  replace (String.length (String c p) - 1) with (String.length p)
    by (simpl; lia).
  apply remove_all_from_skip.
Qed.

(** The scrub of [queryDr]: a text without the letter [u] is kept, and an
    occurrence of ["undefined"] after such a text is dropped. *)
Lemma remove_all_kept (s : string) :
  contains_char "u" s = false -> remove_all "undefined" s = s.
Proof.
  unfold remove_all. induction s as [|c s IH]; [reflexivity|].
  intros H. simpl in H. apply orb_false_elim in H as [Hc Hs].
  cbn [remove_all_from]. cbn [String.prefix].
  destruct (ascii_dec "u" c) as [<-|Hne]; [discriminate Hc|].
  now rewrite IH.
Qed.

Lemma remove_all_dropped (a b : string) :
  contains_char "u" a = false ->
  remove_all "undefined" (a ++ "undefined" ++ b)
  = a ++ remove_all "undefined" b.
Proof.
  change (remove_all "undefined" (a ++ "undefined" ++ b))
    with (remove_all_from "undefined" 0 (a ++ "undefined" ++ b)).
  change (remove_all "undefined" b) with (remove_all_from "undefined" 0 b).
  induction a as [|c a IH]; intros H.
  - apply remove_all_from_match.
  - simpl in H. apply orb_false_elim in H as [Hc Ha].
    change ((String c a) ++ "undefined" ++ b)
      with (String c (a ++ "undefined" ++ b)).
    cbn [remove_all_from]. cbn [String.prefix].
    destruct (ascii_dec "u" c) as [<-|Hne]; [discriminate Hc|].
    rewrite IH by exact Ha. reflexivity.
Qed.

(** [slice(1)] on a string that starts with an ASCII character drops that
    character. *)
Lemma slice1_utf16_ascii (c : ascii) (s : string) :
  (N_of_ascii c < 128)%N -> Str.slice1_utf16 (String c s) = s.
Proof.
  intros H. unfold Str.slice1_utf16.
  apply N.ltb_lt in H. now rewrite H.
Qed.

(** On such a string the two models of [slice(1)] agree. *)
Lemma slice1_utf16_slice1 (c : ascii) (s : string) :
  (N_of_ascii c < 128)%N ->
  Str.slice1_utf16 (String c s) = Str.slice1 (String c s).
Proof. intros H. now rewrite slice1_utf16_ascii. Qed.

(** [slice(1)] on strings that start with U+00E9, U+20AC and U+1F600: the
    characters of two and three bytes go whole, the one of four bytes leaves
    the surrogate U+DE00. *)
Lemma slice1_utf16_beyond_ascii (rest : string) :
  Str.slice1_utf16
    (String (ascii_of_N 195) (String (ascii_of_N 169) rest)) = rest
  /\ Str.slice1_utf16
       (String (ascii_of_N 226)
          (String (ascii_of_N 130) (String (ascii_of_N 172) rest))) = rest
  /\ Str.slice1_utf16
       (String (ascii_of_N 240)
          (String (ascii_of_N 159)
             (String (ascii_of_N 152) (String (ascii_of_N 128) rest))))
     = String (ascii_of_N 237)
         (String (ascii_of_N 184) (String (ascii_of_N 128) rest)).
Proof. repeat split. Qed.

End StrFacts.

(** ** The form-urlencoded serializer and its parser *)

Module UrlFacts.

Import Str StrFacts.

Lemma hex_digit_roundtrip (c : ascii) :
  let hi := (N_of_ascii c / 16)%N in
  let lo := (N_of_ascii c mod 16)%N in
  unreserved (hex_digit hi) = true /\ unreserved (hex_digit lo) = true
  /\ hex_value (hex_digit hi) = Some hi /\ hex_value (hex_digit lo) = Some lo
  /\ ascii_of_N (hi * 16 + lo) = c.
Proof.
  destruct c as [[] [] [] [] [] [] [] []]; vm_compute; repeat split.
Qed.

Lemma unreserved_neq (c d : ascii) :
  unreserved c = true -> unreserved d = false -> Ascii.eqb d c = false.
Proof.
  intros Hc Hd. destruct (Ascii.eqb_spec d c); [congruence | reflexivity].
Qed.

Lemma unreserved_neq' (c d : ascii) :
  unreserved c = true -> unreserved d = false -> Ascii.eqb c d = false.
Proof.
  intros Hc Hd. destruct (Ascii.eqb_spec c d); [congruence | reflexivity].
Qed.

(** A byte the serializer never writes does not occur in its output. *)
Lemma encode_byte_avoids (sep c : ascii) :
  unreserved sep = false -> Ascii.eqb sep "+" = false ->
  Ascii.eqb sep "%" = false ->
  contains_char sep (encode_byte c) = false.
Proof.
  intros Hu Hp Hq. unfold encode_byte.
  destruct (unreserved c) eqn:Ec.
  - simpl. now rewrite (unreserved_neq c sep Ec Hu).
  - destruct (Ascii.eqb c " ").
    + simpl. now rewrite Hp.
    + destruct (hex_digit_roundtrip c) as (Hh & Hl & _).
      simpl. rewrite Hq, (unreserved_neq _ sep Hh Hu), (unreserved_neq _ sep Hl Hu).
      reflexivity.
Qed.

Lemma urlencode_avoids (sep : ascii) (s : string) :
  unreserved sep = false -> Ascii.eqb sep "+" = false ->
  Ascii.eqb sep "%" = false ->
  contains_char sep (urlencode s) = false.
Proof.
  intros Hu Hp Hq. induction s as [|c s IH]; simpl; [reflexivity|].
  now rewrite contains_app, encode_byte_avoids, IH.
Qed.

Lemma form_decode_encode_byte (c : ascii) (t : string) :
  form_decode (encode_byte c ++ t) = String c (form_decode t).
Proof.
  unfold form_decode, encode_byte.
  destruct (unreserved c) eqn:Ec.
  - simpl.
    rewrite (unreserved_neq' c "+" Ec eq_refl), (unreserved_neq' c "%" Ec eq_refl).
    reflexivity.
  - destruct (Ascii.eqb_spec c " ") as [->|Hsp]; [reflexivity|].
    destruct (hex_digit_roundtrip c) as (Hh & Hl & Vh & Vl & Hc).
    cbn [append plus_to_space map_chars percent_decode].
    rewrite (unreserved_neq' _ "+" Hh eq_refl), (unreserved_neq' _ "+" Hl eq_refl).
    change (Ascii.eqb "%" "+") with false. cbn iota.
    change (Ascii.eqb "%" "%") with true. cbn iota.
    rewrite Vh, Vl, Hc. reflexivity.
Qed.

Lemma form_decode_urlencode (s : string) : form_decode (urlencode s) = s.
Proof.
  induction s as [|c s IH]; simpl; [reflexivity|].
  now rewrite form_decode_encode_byte, IH.
Qed.

Lemma pair_string_avoids (sep : ascii) (kv : string * string) :
  unreserved sep = false -> Ascii.eqb sep "+" = false ->
  Ascii.eqb sep "%" = false -> Ascii.eqb sep "=" = false ->
  contains_char sep (pair_string kv) = false.
Proof.
  intros Hu Hp Hq He. unfold pair_string.
  rewrite contains_app. simpl. rewrite He.
  now rewrite !urlencode_avoids.
Qed.

Lemma parse_pair_string (kv : string * string) :
  parse_pair (pair_string kv) = kv.
Proof.
  destruct kv as [k v]. unfold parse_pair, pair_string. simpl fst; simpl snd.
  change ("=" ++ urlencode v) with (String "=" (urlencode v)).
  rewrite before_app, after_app by (now apply urlencode_avoids).
  now rewrite !form_decode_urlencode.
Qed.

Lemma serialize_cons (kv : string * string) (l : list (string * string)) :
  serialize (kv :: l)
  = match l with
    | [] => pair_string kv
    | _ :: _ => pair_string kv ++ String "&" (serialize l)
    end.
Proof. destruct l; reflexivity. Qed.

Lemma serialize_not_empty (l : list (string * string)) :
  l <> [] -> String.eqb (serialize l) "" = false.
Proof.
  destruct l as [|kv l]; [congruence|]. intros _.
  rewrite serialize_cons. unfold pair_string.
  change ("=" ++ urlencode (snd kv)) with (String "=" (urlencode (snd kv))).
  destruct l; [|rewrite app_assoc]; apply app_cons_not_empty.
Qed.

Lemma serialize_avoids (sep : ascii) (l : list (string * string)) :
  unreserved sep = false -> Ascii.eqb sep "+" = false ->
  Ascii.eqb sep "%" = false -> Ascii.eqb sep "=" = false ->
  Ascii.eqb sep "&" = false ->
  contains_char sep (serialize l) = false.
Proof.
  intros Hu Hp Hq He Ha. induction l as [|kv l IH]; [reflexivity|].
  rewrite serialize_cons. destruct l.
  - now apply pair_string_avoids.
  - rewrite contains_app, pair_string_avoids by assumption.
    simpl contains_char at 1. now rewrite Ha, IH.
Qed.

(** Parsing what the serializer wrote gives the list back. *)
Lemma parse_serialize (l : list (string * string)) :
  parse_urlencoded (serialize l) = l.
Proof.
  induction l as [|kv l IH]; [reflexivity|].
  rewrite serialize_cons. unfold parse_urlencoded in *.
  assert (Hne : String.eqb (pair_string kv) "" = false).
  { unfold pair_string.
    change ("=" ++ urlencode (snd kv)) with (String "=" (urlencode (snd kv))).
    apply app_cons_not_empty. }
  destruct l as [|kv' l].
  - rewrite split_none by (now apply pair_string_avoids).
    simpl. rewrite Hne. simpl. now rewrite parse_pair_string.
  - rewrite split_app by (now apply pair_string_avoids).
    simpl filter. rewrite Hne. simpl negb. cbn iota.
    simpl map. rewrite parse_pair_string. f_equal. exact IH.
Qed.

End UrlFacts.

(** ** The sort *)

Section SortFacts.

Context {A : Type} (cmp : A -> A -> comparison).

Lemma insert_sorted_perm (x : A) (l : list A) :
  Permutation (insert_sorted cmp x l) (x :: l).
Proof.
  induction l as [|y l IH]; simpl; [reflexivity|].
  destruct (cmp x y); try reflexivity.
  rewrite IH. apply perm_swap.
Qed.

Lemma sort_by_perm (l : list A) : Permutation (sort_by cmp l) l.
Proof.
  induction l as [|x l IH]; simpl; [reflexivity|].
  rewrite insert_sorted_perm. now constructor.
Qed.

Hypothesis Hcmp : Consistent cmp.

Lemma le_of_refl (a : A) : le_of cmp a a.
Proof.
  unfold le_of. pose proof (cmp_opp cmp Hcmp a a) as H.
  destruct (cmp a a); simpl in H; congruence.
Qed.

Lemma gt_le_of (a b : A) : cmp a b = Gt -> le_of cmp b a.
Proof.
  unfold le_of. intros H. rewrite (cmp_opp cmp Hcmp b a), H. discriminate.
Qed.

Lemma le_of_both (a b : A) : le_of cmp a b -> le_of cmp b a -> cmp a b = Eq.
Proof.
  unfold le_of. intros H1 H2. rewrite (cmp_opp cmp Hcmp b a) in H2.
  destruct (cmp a b); simpl in *; congruence.
Qed.

Lemma insert_sorted_sorted (x : A) (l : list A) :
  StronglySorted (le_of cmp) l ->
  StronglySorted (le_of cmp) (insert_sorted cmp x l).
Proof.
  induction 1 as [|y l Hs IH Hy]; simpl.
  - repeat constructor.
  - destruct (cmp x y) eqn:E.
    + constructor; [now constructor|]. constructor; [unfold le_of; congruence|].
      eapply Forall_impl; [|exact Hy]. intros z Hz.
      apply (cmp_trans cmp Hcmp x y z); [congruence | exact Hz].
    + constructor; [now constructor|]. constructor; [unfold le_of; congruence|].
      eapply Forall_impl; [|exact Hy]. intros z Hz.
      apply (cmp_trans cmp Hcmp x y z); [congruence | exact Hz].
    + constructor; [exact IH|].
      eapply Permutation_Forall; [symmetry; apply insert_sorted_perm|].
      constructor; [now apply gt_le_of | exact Hy].
Qed.

Lemma sort_by_sorted (l : list A) : StronglySorted (le_of cmp) (sort_by cmp l).
Proof.
  induction l as [|x l IH]; simpl; [constructor|].
  now apply insert_sorted_sorted.
Qed.

(** Two lists in order with the same elements are equal, when [cmp] tells
    the elements apart. *)
Lemma sorted_perm_unique (l l' : list A) :
  (forall a b, In a l -> In b l -> cmp a b = Eq -> a = b) ->
  StronglySorted (le_of cmp) l -> StronglySorted (le_of cmp) l' ->
  Permutation l l' -> l = l'.
Proof.
  revert l'. induction l as [|x l IH]; intros l' Hsep Hl Hl' Hp.
  - now apply Permutation_nil in Hp.
  - destruct l' as [|y l'].
    { symmetry in Hp. now apply Permutation_nil in Hp. }
    inversion Hl as [|? ? Hsl Hxl]; subst.
    inversion Hl' as [|? ? Hsl' Hyl']; subst.
    assert (Hxy : le_of cmp x y).
    { assert (Hin : In y (x :: l))
        by (eapply Permutation_in; [symmetry; exact Hp | now left]).
      destruct Hin as [<-|Hin]; [apply le_of_refl|].
      rewrite Forall_forall in Hxl. now apply Hxl. }
    assert (Hyx : le_of cmp y x).
    { assert (Hin : In x (y :: l'))
        by (eapply Permutation_in; [exact Hp | now left]).
      destruct Hin as [<-|Hin]; [apply le_of_refl|].
      rewrite Forall_forall in Hyl'. now apply Hyl'. }
    assert (x = y) as <-.
    { apply Hsep; [now left | | now apply le_of_both].
      eapply Permutation_in; [symmetry; exact Hp | now left]. }
    f_equal. apply IH; auto.
    + intros a b Ha Hb. apply Hsep; now right.
    + now apply Permutation_cons_inv in Hp.
Qed.

(** Sorting any arrangement of a list in order gives that list. *)
Lemma sort_by_of_perm (l l' : list A) :
  (forall a b, In a l -> In b l -> cmp a b = Eq -> a = b) ->
  StronglySorted (le_of cmp) l -> Permutation l l' -> sort_by cmp l' = l.
Proof.
  intros Hsep Hl Hp. symmetry.
  apply sorted_perm_unique; auto using sort_by_sorted.
  rewrite Hp. symmetry. apply sort_by_perm.
Qed.

End SortFacts.

Lemma StronglySorted_filter {A : Type} (R : A -> A -> Prop) (p : A -> bool)
  (l : list A) :
  StronglySorted R l -> StronglySorted R (filter p l).
Proof.
  induction 1 as [|x l Hs IH Hx]; simpl; [constructor|].
  destruct (p x); [|exact IH]. constructor; [exact IH|].
  rewrite Forall_forall in *. intros y Hy. apply filter_In in Hy. now apply Hx.
Qed.

Lemma StronglySorted_map {A B : Type} (R : B -> B -> Prop) (f : A -> B)
  (l : list A) :
  StronglySorted (fun a b => R (f a) (f b)) l <-> StronglySorted R (map f l).
Proof.
  induction l as [|x l IH]; simpl; split; intros H; try constructor;
    inversion H; subst; try (now apply IH).
  - rewrite Forall_map. assumption.
  - rewrite <- Forall_map. assumption.
Qed.

(** ** Objects *)

Module ObjFacts.

Import Obj.

Lemma get_set_same (k : string) (v : JsValue) (o : JsObject) :
  get k (set k v o) = v.
Proof.
  induction o as [|[k' v'] o IH]; simpl.
  - now rewrite String.eqb_refl.
  - destruct (String.eqb_spec k k'); simpl.
    + now rewrite String.eqb_refl.
    + destruct (String.eqb_spec k k'); [contradiction | exact IH].
Qed.

Lemma get_set_other (k k' : string) (v : JsValue) (o : JsObject) :
  k <> k' -> get k (set k' v o) = get k o.
Proof.
  intros Hk. induction o as [|[k2 v2] o IH]; simpl.
  - destruct (String.eqb_spec k k'); [contradiction | reflexivity].
  - destruct (String.eqb_spec k' k2); simpl.
    + subst k2. destruct (String.eqb_spec k k'); [contradiction | reflexivity].
    + destruct (String.eqb k k2); [reflexivity | exact IH].
Qed.

Lemma has_set (k k' : string) (v : JsValue) (o : JsObject) :
  has k (set k' v o) = String.eqb k k' || has k o.
Proof.
  induction o as [|[k2 v2] o IH]; simpl; [reflexivity|].
  destruct (String.eqb_spec k' k2); simpl.
  - subst k2. now destruct (String.eqb k k'), (has k o).
  - rewrite IH. now destruct (String.eqb k k'), (String.eqb k k2).
Qed.

Lemma has_false_get (k : string) (o : JsObject) :
  has k o = false -> get k o = JUndefined.
Proof.
  induction o as [|[k' v'] o IH]; simpl; [reflexivity|].
  destruct (String.eqb k k'); simpl; [discriminate | exact IH].
Qed.

Lemma has_true_In (k : string) (o : JsObject) :
  has k o = true -> In (k, get k o) o.
Proof.
  induction o as [|[k' v'] o IH]; simpl; [discriminate|].
  destruct (String.eqb_spec k k'); simpl.
  - subst. now left.
  - intros H. right. now apply IH.
Qed.

Lemma has_In_keys (k : string) (o : JsObject) :
  has k o = true <-> In k (keys o).
Proof.
  induction o as [|[k' v'] o IH]; simpl; [split; [discriminate | tauto]|].
  rewrite orb_true_iff, IH, String.eqb_eq. split; intros [H|H]; auto.
Qed.

Lemma has_perm (k : string) (o o' : JsObject) :
  Permutation o o' -> has k o = has k o'.
Proof.
  intros Hp. apply eq_true_iff_eq. rewrite !has_In_keys.
  unfold keys. split; apply Permutation_in; [|symmetry];
    now apply Permutation_map.
Qed.

Lemma wf_NoDup (o : JsObject) : wf o = true <-> NoDup (keys o).
Proof.
  induction o as [|[k v] o IH]; simpl.
  - split; [constructor | reflexivity].
  - rewrite andb_true_iff, negb_true_iff, IH. split.
    + intros [Hk Ho]. constructor; [|exact Ho].
      rewrite <- has_In_keys. congruence.
    + inversion 1; subst. split; [|assumption].
      destruct (has k o) eqn:E; [|reflexivity].
      now apply has_In_keys in E.
Qed.

Lemma wf_perm (o o' : JsObject) :
  Permutation o o' -> wf o = true -> wf o' = true.
Proof.
  rewrite !wf_NoDup. intros Hp. apply Permutation_NoDup.
  now apply Permutation_map.
Qed.

Lemma get_In (k : string) (v : JsValue) (o : JsObject) :
  wf o = true -> In (k, v) o -> get k o = v.
Proof.
  induction o as [|[k' v'] o IH]; simpl; [tauto|].
  rewrite andb_true_iff, negb_true_iff. intros [Hk Ho] [H|H].
  - injection H as -> ->. now rewrite String.eqb_refl.
  - destruct (String.eqb_spec k k'); [|now apply IH].
    subst k'. assert (has k o = true); [|congruence].
    apply has_In_keys. unfold keys. now apply (in_map fst) in H.
Qed.

(** The value of a property does not depend on the order of the list. *)
Lemma get_perm (k : string) (o o' : JsObject) :
  wf o = true -> Permutation o o' -> get k o = get k o'.
Proof.
  intros Hwf Hp. destruct (has k o) eqn:E.
  - symmetry. apply get_In; [now apply (wf_perm o)|].
    eapply Permutation_in; [exact Hp | now apply has_true_In].
  - rewrite (has_false_get k o E). symmetry. apply has_false_get.
    now rewrite <- (has_perm k o o' Hp).
Qed.

Lemma get_delete_same (k : string) (o : JsObject) :
  get k (delete k o) = JUndefined.
Proof.
  induction o as [|[k' v'] o IH]; simpl; [reflexivity|].
  destruct (String.eqb k k') eqn:E; simpl; [exact IH|].
  now rewrite E.
Qed.

Lemma has_delete_same (k : string) (o : JsObject) : has k (delete k o) = false.
Proof.
  induction o as [|[k' v'] o IH]; simpl; [reflexivity|].
  destruct (String.eqb k k') eqn:E; simpl; [exact IH|].
  now rewrite E.
Qed.

Lemma get_delete_other (k k' : string) (o : JsObject) :
  k <> k' -> get k (delete k' o) = get k o.
Proof.
  intros Hk. induction o as [|[k2 v2] o IH]; simpl; [reflexivity|].
  destruct (String.eqb_spec k' k2); simpl.
  - subst k2. destruct (String.eqb_spec k k'); [contradiction | exact IH].
  - now rewrite IH.
Qed.

Lemma has_delete_other (k k' : string) (o : JsObject) :
  k <> k' -> has k (delete k' o) = has k o.
Proof.
  intros Hk. induction o as [|[k2 v2] o IH]; simpl; [reflexivity|].
  destruct (String.eqb_spec k' k2); simpl.
  - subst k2. destruct (String.eqb_spec k k'); [contradiction | exact IH].
  - now rewrite IH.
Qed.

Lemma delete_absent (k : string) (o : JsObject) :
  has k o = false -> delete k o = o.
Proof.
  induction o as [|[k' v'] o IH]; simpl; [reflexivity|].
  intros H. apply orb_false_elim in H as [H1 H2].
  rewrite H1. simpl. now rewrite IH.
Qed.

Lemma delete_set_same (k : string) (v : JsValue) (o : JsObject) :
  delete k (set k v o) = delete k o.
Proof.
  induction o as [|[k' v'] o IH]; simpl.
  - now rewrite String.eqb_refl.
  - destruct (String.eqb k k') eqn:E; simpl.
    + now rewrite String.eqb_refl.
    + now rewrite E, IH.
Qed.

Lemma delete_set_other (k k' : string) (v : JsValue) (o : JsObject) :
  k <> k' -> delete k (set k' v o) = set k' v (delete k o).
Proof.
  intros Hk. induction o as [|[k2 v2] o IH]; simpl.
  - destruct (String.eqb_spec k k'); [contradiction | reflexivity].
  - destruct (String.eqb_spec k' k2); simpl.
    + subst k2. destruct (String.eqb_spec k k'); [contradiction|].
      simpl. now rewrite String.eqb_refl.
    + destruct (String.eqb k k2); simpl; [exact IH|].
      destruct (String.eqb_spec k' k2); [contradiction | now rewrite IH].
Qed.

Lemma set_fresh (k : string) (v : JsValue) (o : JsObject) :
  has k o = false -> set k v o = (o ++ [(k, v)])%list.
Proof.
  induction o as [|[k' v'] o IH]; simpl; [reflexivity|].
  intros H. apply orb_false_elim in H as [H1 H2].
  now rewrite H1, IH.
Qed.

Lemma wf_set (k : string) (v : JsValue) (o : JsObject) :
  wf o = true -> wf (set k v o) = true.
Proof.
  induction o as [|[k' v'] o IH]; simpl; [reflexivity|].
  rewrite andb_true_iff, negb_true_iff. intros [Hk Ho].
  destruct (String.eqb_spec k k'); simpl.
  - subst. now rewrite Hk, Ho.
  - rewrite has_set, Hk, IH by assumption.
    destruct (String.eqb_spec k' k); [congruence | reflexivity].
Qed.

Lemma wf_delete (k : string) (o : JsObject) :
  wf o = true -> wf (delete k o) = true.
Proof.
  induction o as [|[k' v'] o IH]; simpl; [reflexivity|].
  rewrite andb_true_iff, negb_true_iff. intros [Hk Ho].
  destruct (String.eqb_spec k k'); simpl; [now apply IH|].
  rewrite IH by assumption. rewrite has_delete_other by congruence.
  now rewrite Hk.
Qed.

Lemma wf_set_all (l : list (string * JsValue)) (acc : JsObject) :
  wf acc = true -> wf (set_all l acc) = true.
Proof.
  revert acc. induction l as [|[k v] l IH]; intros acc H; [exact H|].
  apply IH. now apply wf_set.
Qed.

(** Properties with new, distinct names are appended in their order. *)
Lemma set_all_fresh (l : list (string * JsValue)) (acc : JsObject) :
  wf l = true -> (forall k, has k l = true -> has k acc = false) ->
  set_all l acc = (acc ++ l)%list.
Proof.
  revert acc. induction l as [|[k v] l IH]; intros acc Hl Hacc.
  - now rewrite app_nil_r.
  - simpl in Hl. apply andb_true_iff in Hl as [Hk Hl].
    apply negb_true_iff in Hk.
    unfold set_all in *. simpl fold_left.
    rewrite set_fresh by (apply Hacc; simpl; now rewrite String.eqb_refl).
    rewrite IH; [now rewrite <- app_assoc | exact Hl |].
    intros k' Hk'. assert (Hx : has k' acc = false).
    { apply Hacc. simpl. rewrite Hk'. apply orb_true_r. }
    clear -Hx Hk Hk'. induction acc as [|[k2 v2] acc IH]; simpl in *.
    + destruct (String.eqb_spec k' k); [congruence | reflexivity].
    + apply orb_false_elim in Hx as [H1 H2]. now rewrite H1, IH.
Qed.

Lemma get_set_all (k : string) (l : list (string * JsValue)) (acc : JsObject) :
  wf l = true ->
  get k (set_all l acc) = if has k l then get k l else get k acc.
Proof.
  revert acc. induction l as [|[k1 v1] l IH]; intros acc Hl; [reflexivity|].
  simpl in Hl. apply andb_true_iff in Hl as [Hk Hl].
  apply negb_true_iff in Hk.
  unfold set_all in *. simpl fold_left. rewrite IH by exact Hl. simpl.
  destruct (String.eqb_spec k k1).
  - subst. rewrite Hk. apply get_set_same.
  - simpl. destruct (has k l); [reflexivity | now apply get_set_other].
Qed.

Lemma has_set_all (k : string) (l : list (string * JsValue)) (acc : JsObject) :
  has k (set_all l acc) = has k l || has k acc.
Proof.
  revert acc. induction l as [|[k1 v1] l IH]; intros acc; [reflexivity|].
  unfold set_all in *. simpl fold_left. rewrite IH, has_set. simpl.
  now destruct (String.eqb k k1), (has k l).
Qed.

End ObjFacts.

(** ** Enumeration of an object *)

Module EnumFacts.

Import Obj ObjFacts.

Lemma index_entries_filter (o : JsObject) :
  map snd (index_entries o) = filter is_index o.
Proof.
  induction o as [|kv o IH]; [reflexivity|].
  unfold index_entries, is_index in *. simpl.
  destruct (array_index (fst kv)); simpl; now rewrite IH.
Qed.

Lemma filter_partition_perm {A : Type} (p : A -> bool) (l : list A) :
  Permutation (filter p l ++ filter (fun x => negb (p x)) l)%list l.
Proof.
  induction l as [|x l IH]; simpl; [reflexivity|].
  destruct (p x); simpl.
  - now constructor.
  - rewrite <- Permutation_middle. now constructor.
Qed.

(** [Object.entries] lists every property once. *)
Lemma own_entries_perm (o : JsObject) : Permutation (own_entries o) o.
Proof.
  unfold own_entries.
  rewrite (Permutation_map snd (sort_by_perm _ (index_entries o))).
  rewrite index_entries_filter. apply filter_partition_perm.
Qed.

Lemma wf_own_entries (o : JsObject) : wf o = true -> wf (own_entries o) = true.
Proof. apply wf_perm. symmetry. apply own_entries_perm. Qed.

Lemma get_own_entries (k : string) (o : JsObject) :
  wf o = true -> get k (own_entries o) = get k o.
Proof.
  intros H. symmetry. apply get_perm; [exact H|].
  symmetry. apply own_entries_perm.
Qed.

Lemma has_own_entries (k : string) (o : JsObject) :
  has k (own_entries o) = has k o.
Proof. apply has_perm, own_entries_perm. Qed.

Lemma get_assign (k : string) (target src : JsObject) :
  wf src = true ->
  get k (assign target src) = if has k src then get k src else get k target.
Proof.
  intros H. unfold assign.
  rewrite get_set_all by (now apply wf_own_entries).
  now rewrite has_own_entries, get_own_entries.
Qed.

Lemma has_assign (k : string) (target src : JsObject) :
  has k (assign target src) = has k src || has k target.
Proof. unfold assign. now rewrite has_set_all, has_own_entries. Qed.

Lemma wf_assign (target src : JsObject) :
  wf target = true -> wf (assign target src) = true.
Proof. apply wf_set_all. Qed.

Lemma fromEntries_wf (l : list (string * JsValue)) :
  wf l = true -> fromEntries l = l.
Proof. intros H. unfold fromEntries. now rewrite set_all_fresh. Qed.

End EnumFacts.

(** ** The two loops *)

Section LoopFacts.

Context {RT : JsRuntime}.

Import UrlFacts.

(** The loop of [verifyReturnUrl] collects the canonical pairs. *)
Lemma collect_fields_pairs (entries : list (string * JsValue)) :
  collect_fields entries = canonical_pairs verify_skips entries.
Proof.
  unfold collect_fields, canonical_pairs.
  generalize (sort_by by_key entries) as l.
  assert (H : forall (l : list (string * JsValue)) (acc : list (string * string)),
    fold_left (fun sp kv => if verify_skips (snd kv) then sp
                            else (sp ++ [(fst kv, ToString (snd kv))])%list)
              l acc
    = (acc ++ map (fun kv => (fst kv, ToString (snd kv)))
                  (filter (fun kv => negb (verify_skips (snd kv))) l))%list).
  { induction l as [|kv l IH]; intros acc; simpl.
    - now rewrite app_nil_r.
    - rewrite IH. destruct (verify_skips (snd kv)); simpl; [reflexivity|].
      now rewrite <- app_assoc. }
  intros l. apply (H l []).
Qed.

Lemma url_params_append (k v : string) (u : URL) :
  searchParams_append k v u
  = {| url_base := url_base u;
       url_query := Some (serialize (url_params u ++ [(k, v)]));
       url_fragment := url_fragment u |}.
Proof.
  unfold searchParams_append.
  rewrite serialize_not_empty; [reflexivity|].
  now destruct (url_params u).
Qed.

Lemma url_params_serialized (b : string) (l : list (string * string))
  (f : option string) :
  url_params {| url_base := b; url_query := Some (serialize l);
                url_fragment := f |} = l.
Proof. unfold url_params. simpl. apply parse_serialize. Qed.

(** The loop of [buildPaymentUrl] appends the canonical pairs to the
    parameters the URL already has. *)
Lemma append_fields_pairs (entries : list (string * JsValue)) (u : URL) :
  append_fields entries u
  = match canonical_pairs build_skips entries with
    | [] => u
    | l => {| url_base := url_base u;
              url_query := Some (serialize (url_params u ++ l));
              url_fragment := url_fragment u |}
    end.
Proof.
  unfold append_fields, canonical_pairs.
  generalize (sort_by by_key entries) as l. intros l. revert u.
  induction l as [|kv l IH]; intros u; [reflexivity|].
  simpl. destruct (build_skips (snd kv)); simpl; [apply IH|].
  rewrite IH, url_params_append. simpl url_base. simpl url_fragment.
  rewrite url_params_serialized.
  destruct (map _ (filter _ l)); [reflexivity|].
  now rewrite <- app_assoc.
Qed.

Lemma canonical_pairs_keys (skips : JsValue -> bool)
  (entries : list (string * JsValue)) :
  map fst (canonical_pairs skips entries)
  = map fst (filter (fun kv => negb (skips (snd kv))) (sort_by by_key entries)).
Proof. unfold canonical_pairs. rewrite map_map. reflexivity. Qed.

End LoopFacts.

(** ** [buildPaymentUrl] *)

Section BuildFacts.

Context {RT : JsRuntime} {LIB : VnpayLib}.

Variable this : VNPay.

Import Obj ObjFacts EnumFacts UrlFacts StrFacts.

Lemma wf_dataToBuild (now : JsValue) (data : JsObject) :
  wf (dataToBuild this now data) = true.
Proof.
  unfold dataToBuild.
  assert (H : wf (assign (assign [] (defaultConfig this)) data) = true)
    by (apply wf_assign, wf_assign; reflexivity).
  destruct (negb _); auto using wf_set.
Qed.

(** The names of [dataToBuild]: those of the defaults, of the payload, and
    the two the method sets. *)
Lemma has_dataToBuild (k : string) (now : JsValue) (data : JsObject) :
  has k (dataToBuild this now data) = true ->
  has k (defaultConfig this) = true \/ has k data = true
  \/ k = "vnp_Amount" \/ k = "vnp_CreateDate".
Proof.
  unfold dataToBuild.
  destruct (negb _); rewrite ?has_set, !has_assign;
    change (has k []) with false;
    rewrite ?orb_false_r, ?orb_true_iff, ?String.eqb_eq; tauto.
Qed.

(** The URL [buildPaymentUrl] returns when the gateway URL has no query of
    its own: the canonical pairs, then the signature of their
    serialization. *)
Lemma buildPaymentUrl_shape (u0 : URL) (now : JsValue) (data : JsObject) :
  URL_parse (resolveUrlString
               (or_else (vnpayHost (globalDefaultConfig this))
                        VNPAY_GATEWAY_SANDBOX_HOST)
               (or_else (paymentEndpoint (globalDefaultConfig this))
                        PAYMENT_ENDPOINT)) = Some u0 ->
  url_query u0 = None ->
  let pairs :=
    canonical_pairs build_skips (own_entries (dataToBuild this now data)) in
  let signed :=
    hash (secureSecret (globalDefaultConfig this)) (serialize pairs)
         (HASH_ALGORITHM this) in
  buildPaymentUrl this now data
  = Ok (url_base u0
        ++ String "?" (serialize (pairs ++ [("vnp_SecureHash", signed)])
                       ++ match url_fragment u0 with
                          | Some f => "#" ++ f
                          | None => ""
                          end)).
Proof.
  intros Hu Hq. cbv zeta. unfold buildPaymentUrl, new_URL.
  rewrite Hu. simpl bind. rewrite append_fields_pairs. unfold Buffer_from.
  assert (Hp0 : url_params u0 = []) by (unfold url_params; now rewrite Hq).
  rewrite Hp0. simpl app.
  destruct (canonical_pairs build_skips (own_entries (dataToBuild this now data)))
    as [|p l].
  - rewrite url_params_append, Hp0. unfold url_search, url_href.
    rewrite Hq. reflexivity.
  - rewrite url_params_append, url_params_serialized.
    unfold url_search, url_href. simpl url_query.
    pose proof (serialize_not_empty (p :: l)) as Hne.
    destruct (serialize (p :: l)) eqn:Es;
      [discriminate Hne; congruence | reflexivity].
Qed.

End BuildFacts.

(** ** [verifyReturnUrl] *)

Section VerifyFacts.

Context {RT : JsRuntime} {LIB : VnpayLib}.

Variable this : VNPay.

Import Obj ObjFacts EnumFacts UrlFacts StrFacts.

Lemma verifyReturnUrl_isVerified (query : JsObject) :
  get "isVerified" (fst (verifyReturnUrl this query))
  = JBool (strict_eq (get "vnp_SecureHash" query) (JStr (return_signature this query))).
Proof.
  unfold verifyReturnUrl, return_signature, return_signed_string. cbv zeta.
  simpl fst. rewrite get_set_other by discriminate.
  destruct (strict_eq (get "vnp_SecureHash" query) _); simpl negb; cbv iota.
  - rewrite get_assign by reflexivity. reflexivity.
  - rewrite get_assign by (apply wf_assign; reflexivity).
    rewrite has_assign. simpl has. cbv iota.
    rewrite get_assign by reflexivity. reflexivity.
Qed.

Lemma verifyReturnUrl_message (query : JsObject) :
  strict_eq (get "vnp_SecureHash" query) (JStr (return_signature this query)) = false ->
  get "message" (fst (verifyReturnUrl this query)) = JStr "Wrong checksum".
Proof.
  unfold return_signature, return_signed_string. intros H.
  unfold verifyReturnUrl. cbv zeta. simpl fst.
  rewrite get_set_other by discriminate. rewrite H. simpl negb. cbv iota.
  rewrite get_assign by (apply wf_assign; reflexivity).
  rewrite has_assign. simpl has. cbv iota.
  rewrite get_assign by reflexivity. reflexivity.
Qed.

Lemma verifyReturnUrl_argument (query : JsObject) :
  snd (verifyReturnUrl this query)
  = delete "vnp_SecureHashType" (delete "vnp_SecureHash" query).
Proof. reflexivity. Qed.

(** A property the method neither removes nor sets is returned as it came. *)
Lemma verifyReturnUrl_frame (query : JsObject) (k : string) :
  wf query = true ->
  k <> "vnp_SecureHash" -> k <> "vnp_SecureHashType" ->
  k <> "isVerified" -> k <> "isSuccess" -> k <> "message" ->
  k <> "vnp_Amount" ->
  get k (fst (verifyReturnUrl this query)) = get k query.
Proof.
  intros Hwf H1 H2 H3 H4 H5 H6.
  unfold verifyReturnUrl. cbv zeta. simpl fst.
  rewrite get_set_other by assumption.
  set (q' := delete "vnp_SecureHashType" (delete "vnp_SecureHash" query)).
  assert (Hq' : wf q' = true) by (unfold q'; auto using wf_delete).
  assert (Hk : forall m,
             has k [("isVerified", JBool true); ("isSuccess", JBool (strict_eq (get "vnp_ResponseCode" q') (JStr "00"))); ("message", JStr m)] = false).
  { intros m. simpl.
    destruct (String.eqb_spec k "isVerified"); [contradiction|].
    destruct (String.eqb_spec k "isSuccess"); [contradiction|].
    destruct (String.eqb_spec k "message"); [contradiction|]. reflexivity. }
  assert (Hget : get k (assign [] q') = get k query).
  { rewrite get_assign by exact Hq'. unfold q'.
    destruct (has k _) eqn:E.
    - now rewrite !get_delete_other.
    - rewrite !has_delete_other in E by assumption.
      now rewrite (has_false_get _ _ E). }
  destruct (negb _).
  - rewrite get_assign by (apply wf_assign; reflexivity).
    rewrite has_assign, Hk. simpl has.
    destruct (String.eqb_spec k "isVerified"); [contradiction|].
    destruct (String.eqb_spec k "message"); [contradiction|].
    simpl. exact Hget.
  - rewrite get_assign by reflexivity. rewrite Hk. exact Hget.
Qed.

End VerifyFacts.

(** ** The canonical pairs *)

Section CanonicalFacts.

Context {RT : JsRuntime}.

Import Obj ObjFacts EnumFacts.

Lemma Permutation_filter {A : Type} (p : A -> bool) (l l' : list A) :
  Permutation l l' -> Permutation (filter p l) (filter p l').
Proof.
  induction 1 as [|x l l' Hp IH|x y l|l l' l'' H1 IH1 H2 IH2]; simpl.
  - constructor.
  - destruct (p x); [now constructor | exact IH].
  - destruct (p x), (p y); try reflexivity. apply perm_swap.
  - now transitivity (filter p l').
Qed.

Lemma has_filter (k : string) (p : string * JsValue -> bool) (o : JsObject) :
  has k (filter p o) = true -> has k o = true.
Proof.
  rewrite !has_In_keys. unfold keys. rewrite !in_map_iff.
  intros (kv & Hk & Hin). apply filter_In in Hin as [Hin _]. eauto.
Qed.

Lemma wf_filter (p : string * JsValue -> bool) (o : JsObject) :
  wf o = true -> wf (filter p o) = true.
Proof.
  induction o as [|[k v] o IH]; simpl; [reflexivity|].
  rewrite andb_true_iff, negb_true_iff. intros [Hk Ho].
  destruct (p (k, v)); simpl; [|now apply IH].
  rewrite IH by assumption. rewrite andb_true_r, negb_true_iff.
  destruct (has k (filter p o)) eqn:E; [|reflexivity].
  apply has_filter in E. congruence.
Qed.

Lemma by_key_consistent :
  Consistent localeCompare -> Consistent by_key.
Proof.
  intros [Ho Ht]. split; unfold by_key.
  - intros a b. apply Ho.
  - intros a b c. apply Ht.
Qed.

(** The names of the canonical pairs are the names the loop does not skip, *)
Lemma canonical_pairs_perm (skips : JsValue -> bool)
  (entries : list (string * JsValue)) :
  Permutation (map fst (canonical_pairs skips entries))
              (present_keys skips entries).
Proof.
  rewrite canonical_pairs_keys. unfold present_keys.
  apply Permutation_map, Permutation_filter, sort_by_perm.
Qed.

(** in the order of [localeCompare], *)
Lemma canonical_pairs_sorted (skips : JsValue -> bool)
  (entries : list (string * JsValue)) :
  Consistent localeCompare ->
  StronglySorted (le_of localeCompare) (map fst (canonical_pairs skips entries)).
Proof.
  intros Hc. rewrite canonical_pairs_keys.
  apply (StronglySorted_map (le_of localeCompare) fst).
  apply StronglySorted_filter.
  apply (sort_by_sorted by_key (by_key_consistent Hc)).
Qed.

(** each once. *)
Lemma canonical_pairs_NoDup (skips : JsValue -> bool)
  (entries : list (string * JsValue)) :
  wf entries = true -> NoDup (map fst (canonical_pairs skips entries)).
Proof.
  intros Hwf. rewrite canonical_pairs_keys.
  apply (wf_NoDup (filter _ _)). apply wf_filter.
  apply (wf_perm entries); [|exact Hwf].
  symmetry. apply sort_by_perm.
Qed.

Lemma canonical_pairs_In (skips : JsValue -> bool)
  (entries : list (string * JsValue)) (k s : string) :
  In (k, s) (canonical_pairs skips entries) ->
  exists v, In (k, v) entries /\ skips v = false /\ s = ToString v.
Proof.
  unfold canonical_pairs. rewrite in_map_iff.
  intros ([k' v] & Heq & Hin). simpl in Heq. injection Heq as <- <-.
  apply filter_In in Hin as [Hin Hs]. simpl in Hs.
  apply negb_true_iff in Hs. exists v. repeat split; auto.
  eapply Permutation_in; [apply sort_by_perm | exact Hin].
Qed.

Lemma In_canonical_pairs (skips : JsValue -> bool)
  (entries : list (string * JsValue)) (k : string) (v : JsValue) :
  In (k, v) entries -> skips v = false ->
  In (k, ToString v) (canonical_pairs skips entries).
Proof.
  intros Hin Hs. unfold canonical_pairs.
  apply (in_map (fun kv => (fst kv, ToString (snd kv))) _ (k, v)).
  apply filter_In. split; [|simpl; now rewrite Hs].
  eapply Permutation_in; [symmetry; apply sort_by_perm | exact Hin].
Qed.

(** What [buildPaymentUrl] does not skip has a non-empty text. *)
Lemma build_kept_not_empty (v : JsValue) :
  (forall n, Number_toString n <> "") ->
  build_skips v = false -> ToString v <> "".
Proof.
  intros Hn. unfold build_skips.
  destruct v as [| |[]|n|s]; simpl; try discriminate.
  - intros _. apply Hn.
  - destruct (String.eqb_spec s ""); simpl; [discriminate | auto].
Qed.

Lemma keys_string_fields (l : list (string * string)) :
  keys (string_fields l) = map fst l.
Proof. unfold keys, string_fields. now rewrite map_map. Qed.

(** Canonical pairs read back as strings are their own canonical pairs
    under the test of [verifyReturnUrl]. *)
Lemma canonical_pairs_string_fields (l : list (string * string)) :
  Consistent localeCompare -> Separating_on localeCompare (map fst l) ->
  NoDup (map fst l) ->
  StronglySorted (le_of localeCompare) (map fst l) ->
  (forall k s, In (k, s) l -> s <> "") ->
  canonical_pairs verify_skips (own_entries (string_fields l)) = l.
Proof.
  intros Hc Hsep Hnd Hs Hne.
  assert (Hwf : wf (string_fields l) = true)
    by (apply wf_NoDup; now rewrite keys_string_fields).
  unfold canonical_pairs.
  rewrite (sort_by_of_perm by_key (by_key_consistent Hc) (string_fields l)).
  - clear Hnd Hs Hwf Hsep. induction l as [|[k s] l IH]; [reflexivity|].
    assert (Hk : verify_skips (JStr s) = false).
    { unfold verify_skips. simpl. rewrite !orb_false_r.
      apply String.eqb_neq. apply (Hne k). now left. }
    simpl. rewrite Hk. simpl. f_equal. apply IH.
    intros k' s' H. apply (Hne k'). now right.
  - intros [k1 v1] [k2 v2] H1 H2 He. unfold by_key in He. simpl in He.
    apply Hsep in He;
      [| rewrite <- keys_string_fields; apply (in_map fst _ _ H1)
       | rewrite <- keys_string_fields; apply (in_map fst _ _ H2)].
    subst k2. f_equal.
    rewrite <- (get_In k1 v1 _ Hwf H1). now apply get_In.
  - apply (StronglySorted_map (le_of localeCompare) fst).
    change (map fst (string_fields l)) with (keys (string_fields l)).
    now rewrite keys_string_fields.
  - symmetry. apply own_entries_perm.
Qed.

End CanonicalFacts.

(** ** The reference implementation meets what the theorems ask *)

Module RefFacts.

Import StrFacts.

Lemma ascii_compare_trans (a b c : ascii) :
  Ascii.compare a b <> Gt -> Ascii.compare b c <> Gt ->
  Ascii.compare a c <> Gt.
Proof.
  unfold Ascii.compare. rewrite !N.compare_le_iff. lia.
Qed.

Lemma string_compare_trans (a b c : string) :
  String.compare a b <> Gt -> String.compare b c <> Gt ->
  String.compare a c <> Gt.
Proof.
  revert b c. induction a as [|x a IH]; intros [|y b] [|z c]; simpl;
    try congruence.
  destruct (Ascii.compare x y) eqn:Exy; try congruence;
    destruct (Ascii.compare y z) eqn:Eyz; try congruence; intros H1 H2.
  - apply Ascii.compare_eq_iff in Exy, Eyz. subst.
    rewrite (proj2 (N.compare_eq_iff _ _) eq_refl : Ascii.compare z z = Eq).
    now apply (IH b).
  - apply Ascii.compare_eq_iff in Exy. subst. now rewrite Eyz.
  - apply Ascii.compare_eq_iff in Eyz. subst. now rewrite Exy.
  - assert (Hxz : Ascii.compare x z = Lt).
    { unfold Ascii.compare in *. rewrite N.compare_lt_iff in *. lia. }
    now rewrite Hxz.
Qed.

Lemma primary_weight_not_zero (c : ascii) : Ref.primary_weight c <> Ascii.zero.
Proof. destruct c as [[] [] [] [] [] [] [] []]; vm_compute; discriminate. Qed.

Lemma swap_case_involutive (c : ascii) : Ref.swap_case (Ref.swap_case c) = c.
Proof. destruct c as [[] [] [] [] [] [] [] []]; vm_compute; reflexivity. Qed.

Lemma map_swap_case_injective (a b : string) :
  Str.map_chars Ref.swap_case a = Str.map_chars Ref.swap_case b -> a = b.
Proof.
  revert b. induction a as [|x a IH]; intros [|y b]; simpl; try congruence.
  intros H. injection H as Hxy Hab.
  apply (f_equal Ref.swap_case) in Hxy. rewrite !swap_case_involutive in Hxy.
  subst. f_equal. now apply IH.
Qed.

Lemma weights_split (a b r r' : string) :
  Str.map_chars Ref.primary_weight a ++ String Ascii.zero r
  = Str.map_chars Ref.primary_weight b ++ String Ascii.zero r' ->
  r = r'.
Proof.
  revert b. induction a as [|x a IH]; intros [|y b]; simpl; intros H.
  - congruence.
  - injection H as H _. symmetry in H. now apply primary_weight_not_zero in H.
  - injection H as H _. now apply primary_weight_not_zero in H.
  - injection H as _ H. now apply (IH b).
Qed.

Lemma collation_key_injective (a b : string) :
  Ref.collation_key a = Ref.collation_key b -> a = b.
Proof.
  unfold Ref.collation_key. intros H.
  apply weights_split in H. now apply map_swap_case_injective.
Qed.

Lemma localeCompare_consistent : Consistent Ref.localeCompare.
Proof.
  split; unfold Ref.localeCompare.
  - intros a b. apply String.compare_antisym.
  - intros a b c. apply string_compare_trans.
Qed.

Lemma localeCompare_separating (names : list string) :
  Separating_on Ref.localeCompare names.
Proof.
  intros a b _ _ H. apply String.compare_eq_iff in H.
  now apply collation_key_injective.
Qed.

Lemma digits_from_not_empty (fuel : nat) (n : N) (acc : string) :
  Ref.digits_from fuel n acc <> "".
Proof.
  revert n acc. induction fuel as [|k IH]; intros n acc; simpl.
  - discriminate.
  - destruct (n <? 10)%N; [discriminate | apply IH].
Qed.

Lemma app_not_empty (a b : string) : a <> "" -> a ++ b <> "".
Proof. destruct a; [congruence | discriminate]. Qed.

Lemma decimal_of_dyadic_not_empty (m : positive) (e : Z) :
  Ref.decimal_of_dyadic m e <> "".
Proof.
  unfold Ref.decimal_of_dyadic, Ref.decimal.
  destruct e; try apply digits_from_not_empty.
  apply app_not_empty, digits_from_not_empty.
Qed.

Lemma Number_toString_not_empty (x : float) : Ref.Number_toString x <> "".
Proof.
  unfold Ref.Number_toString.
  destruct (Prim2SF x) as [s|[]| |[] m e]; try discriminate.
  simpl. apply decimal_of_dyadic_not_empty.
Qed.

End RefFacts.

(** ** The four protocols *)

Section Claims.

Context {RT : JsRuntime} {LIB : VnpayLib}.

Import Obj ObjFacts EnumFacts UrlFacts StrFacts.

(** Reading back a URL made of a query-free base, a serialized list and a
    fragment. *)
Lemma parseQuery_href (base : string) (pairs : list (string * string))
  (fragment : option string) :
  Str.contains_char "?" base = false ->
  parseQuery (base ++ String "?" (serialize pairs
                                  ++ match fragment with
                                     | Some f => "#" ++ f
                                     | None => ""
                                     end))
  = fromEntries (string_fields pairs).
Proof.
  intros Hb. unfold parseQuery. rewrite after_app by exact Hb.
  assert (Hs : Str.contains_char "#" (serialize pairs) = false)
    by (now apply serialize_avoids).
  destruct fragment as [f|].
  - change ("#" ++ f) with (String "#" f). now rewrite before_app, parse_serialize.
  - now rewrite app_nil_r, before_none, parse_serialize.
Qed.

(** The callback object a built URL is read back as: the canonical pairs as
    strings, then the signature. *)
Lemma fromEntries_signed (pairs : list (string * string)) (signed : string) :
  NoDup (map fst pairs) -> ~ In "vnp_SecureHash" (map fst pairs) ->
  fromEntries (string_fields (pairs ++ [("vnp_SecureHash", signed)]))
  = (string_fields pairs ++ [("vnp_SecureHash", JStr signed)])%list
  /\ has "vnp_SecureHash" (string_fields pairs) = false
  /\ wf (string_fields pairs) = true.
Proof.
  intros Hnd Hnin.
  assert (Hh : has "vnp_SecureHash" (string_fields pairs) = false).
  { destruct (has _ _) eqn:E; [|reflexivity].
    apply has_In_keys in E. rewrite keys_string_fields in E. contradiction. }
  assert (Hw : wf (string_fields pairs) = true)
    by (apply wf_NoDup; now rewrite keys_string_fields).
  repeat split; auto.
  unfold string_fields at 1. rewrite map_app. simpl map.
  fold (string_fields pairs). apply fromEntries_wf.
  rewrite <- set_fresh by exact Hh. now apply wf_set.
Qed.

Lemma get_last (k : string) (v : JsValue) (o : JsObject) :
  has k o = false -> get k (o ++ [(k, v)])%list = v.
Proof. intros H. rewrite <- set_fresh by exact H. apply get_set_same. Qed.

Lemma delete_last (k : string) (v : JsValue) (o : JsObject) :
  has k o = false -> delete k (o ++ [(k, v)])%list = o.
Proof.
  intros H. rewrite <- set_fresh by exact H.
  rewrite delete_set_same. now apply delete_absent.
Qed.

(** C1.  Round trip.  For every payment payload [data] that does not itself
    carry the signature fields, with a gateway URL that has no query of its
    own, the URL [buildPaymentUrl] returns, read back by [parseQuery] and
    given to [verifyReturnUrl] of the same instance, is verified:
    [isVerified] is [true].  (Of the runtime it is assumed that the
    collation is a total preorder that tells the field names of the request
    apart, and that the text of a number is not empty.) *)
Theorem build_verify_roundtrip (this : VNPay) (now : JsValue)
  (data : JsObject) (u0 : URL) :
  Consistent localeCompare ->
  Separating_on localeCompare (keys (dataToBuild this now data)) ->
  (forall n, Number_toString n <> "") ->
  URL_parse (resolveUrlString
               (or_else (vnpayHost (globalDefaultConfig this))
                        VNPAY_GATEWAY_SANDBOX_HOST)
               (or_else (paymentEndpoint (globalDefaultConfig this))
                        PAYMENT_ENDPOINT)) = Some u0 ->
  url_query u0 = None ->
  Str.contains_char "?" (url_base u0) = false ->
  has "vnp_SecureHash" data = false ->
  has "vnp_SecureHashType" data = false ->
  exists url,
    buildPaymentUrl this now data = Ok url
    /\ get "isVerified" (fst (verifyReturnUrl this (parseQuery url)))
       = JBool true.
Proof.
  intros Hc Hsep Hnum Hu Hq Hbase Hsh Hsht.
  rewrite (buildPaymentUrl_shape this u0 now data Hu Hq).
  eexists. split; [reflexivity|].
  rewrite parseQuery_href by exact Hbase.
  set (entries := own_entries (dataToBuild this now data)).
  set (pairs := canonical_pairs build_skips entries).
  assert (Hwf : wf entries = true)
    by (apply wf_own_entries, wf_dataToBuild).
  assert (Hnd : NoDup (map fst pairs)) by (now apply canonical_pairs_NoDup).
  assert (Hkeys : forall k, In k (map fst pairs) ->
                            k <> "vnp_SecureHash" /\ k <> "vnp_SecureHashType").
  { intros k Hk. apply in_map_iff in Hk as ([k' s] & <- & Hin). simpl.
    apply canonical_pairs_In in Hin as (v & Hin & _).
    assert (Hhas : has k' (dataToBuild this now data) = true).
    { rewrite <- has_own_entries. apply has_In_keys.
      now apply (in_map fst) in Hin. }
    apply has_dataToBuild in Hhas. simpl has in Hhas.
    split; intros ->; simpl in Hhas; intuition congruence. }
  destruct (fromEntries_signed pairs
              (hash (secureSecret (globalDefaultConfig this))
                    (serialize pairs) (HASH_ALGORITHM this)) Hnd)
    as (Hfrom & Hhas & Hwfp).
  { intros H. now apply Hkeys in H. }
  rewrite verifyReturnUrl_isVerified, Hfrom.
  rewrite get_last by exact Hhas.
  unfold return_signature, return_signed_string, Buffer_from.
  rewrite delete_last by exact Hhas.
  rewrite delete_absent.
  2:{ destruct (has "vnp_SecureHashType" (string_fields pairs)) eqn:E;
        [|reflexivity].
      apply has_In_keys in E. rewrite keys_string_fields in E.
      now apply Hkeys in E. }
  assert (Hsub : forall k, In k (map fst pairs) ->
                           In k (keys (dataToBuild this now data))).
  { intros k Hk. apply in_map_iff in Hk as ([k' s] & <- & Hk). simpl.
    apply canonical_pairs_In in Hk as (v & Hk & _).
    apply has_In_keys. rewrite <- has_own_entries. apply has_In_keys.
    now apply (in_map fst) in Hk. }
  rewrite collect_fields_pairs, canonical_pairs_string_fields; auto.
  - simpl. now rewrite String.eqb_refl.
  - intros a b Ha Hb. apply Hsep; auto.
  - now apply canonical_pairs_sorted.
  - intros k s Hin. apply canonical_pairs_In in Hin as (v & _ & Hs & ->).
    now apply build_kept_not_empty.
Qed.

Lemma present_keys_own_entries (skips : JsValue -> bool) (o : JsObject) :
  Permutation (present_keys skips (own_entries o)) (present_keys skips o).
Proof.
  unfold present_keys.
  apply Permutation_map, Permutation_filter, own_entries_perm.
Qed.

(** C2, as amended.  The key=value pairs of the signed string are ordered
    by [localeCompare] of the field names, a locale-aware collation, on both
    paths: the names in [verifyReturnUrl]'s signed string, and in the query
    [buildPaymentUrl] signs, are the names the loop does not skip, each in
    its place in the order of [localeCompare]. *)
Theorem canonical_order_localeCompare (this : VNPay) (now : JsValue)
  (data query : JsObject) (u0 : URL) :
  Consistent localeCompare ->
  (let names := map fst (parse_urlencoded (return_signed_string query)) in
   StronglySorted (le_of localeCompare) names
   /\ Permutation names
        (present_keys verify_skips
           (delete "vnp_SecureHashType" (delete "vnp_SecureHash" query))))
  /\ (URL_parse (resolveUrlString
                   (or_else (vnpayHost (globalDefaultConfig this))
                            VNPAY_GATEWAY_SANDBOX_HOST)
                   (or_else (paymentEndpoint (globalDefaultConfig this))
                            PAYMENT_ENDPOINT)) = Some u0 ->
      url_query u0 = None ->
      exists pairs,
        buildPaymentUrl this now data
        = Ok (url_base u0
              ++ String "?"
                   (serialize
                      (pairs
                       ++ [("vnp_SecureHash",
                            hash (secureSecret (globalDefaultConfig this))
                                 (serialize pairs) (HASH_ALGORITHM this))])
                    ++ match url_fragment u0 with
                       | Some f => "#" ++ f
                       | None => ""
                       end))
        /\ StronglySorted (le_of localeCompare) (map fst pairs)
        /\ Permutation (map fst pairs)
             (present_keys build_skips (dataToBuild this now data))).
Proof.
  intros Hc. split.
  - cbv zeta. unfold return_signed_string.
    rewrite parse_serialize, collect_fields_pairs.
    split; [now apply canonical_pairs_sorted|].
    rewrite canonical_pairs_perm. apply present_keys_own_entries.
  - intros Hu Hq. eexists. split; [now apply buildPaymentUrl_shape|].
    split; [now apply canonical_pairs_sorted|].
    rewrite canonical_pairs_perm. apply present_keys_own_entries.
Qed.

(** C3, as amended.  When the recomputed signature differs from the
    supplied [vnp_SecureHash], [verifyReturnUrl] returns a value (it has no
    failing path) with [isVerified = false] and [message = "Wrong checksum"],
    whatever the message of the response code; the value has neither
    [vnp_SecureHash] nor [vnp_SecureHashType], its [vnp_Amount] is the
    original divided by 100, and every other original field that is not one
    of [isVerified], [isSuccess], [message] is carried unchanged. *)
Theorem wrong_checksum_is_returned (this : VNPay) (query : JsObject) :
  wf query = true ->
  strict_eq (get "vnp_SecureHash" query)
            (JStr (return_signature this query)) = false ->
  let result := fst (verifyReturnUrl this query) in
  get "isVerified" result = JBool false
  /\ get "message" result = JStr "Wrong checksum"
  /\ has "vnp_SecureHash" result = false
  /\ has "vnp_SecureHashType" result = false
  /\ get "vnp_Amount" result
     = JNum (ToNumber (get "vnp_Amount" query) / 100)%float
  /\ forall k,
       k <> "vnp_SecureHash" -> k <> "vnp_SecureHashType" ->
       k <> "isVerified" -> k <> "isSuccess" -> k <> "message" ->
       k <> "vnp_Amount" ->
       get k result = get k query.
Proof.
  intros Hwf Hneq result. unfold result.
  split; [now rewrite verifyReturnUrl_isVerified, Hneq|].
  split; [now apply verifyReturnUrl_message|].
  assert (Hhas : forall k,
             k <> "isVerified" -> k <> "isSuccess" -> k <> "message" ->
             k <> "vnp_Amount" ->
             has k (fst (verifyReturnUrl this query))
             = has k (delete "vnp_SecureHashType"
                        (delete "vnp_SecureHash" query))).
  { intros k H1 H2 H3 H4. unfold verifyReturnUrl. cbv zeta. simpl fst.
    apply String.eqb_neq in H1, H2, H3, H4.
    rewrite has_set, H4. destruct (negb _);
      rewrite !has_assign; simpl has; rewrite H1, ?H2, H3; simpl;
      now rewrite orb_false_r. }
  split; [rewrite Hhas by discriminate;
          rewrite has_delete_other by discriminate; apply has_delete_same|].
  split; [rewrite Hhas by discriminate; apply has_delete_same|].
  split.
  - unfold verifyReturnUrl. cbv zeta. simpl fst. rewrite get_set_same.
    now rewrite !get_delete_other by discriminate.
  - intros k H1 H2 H3 H4 H5 H6. now apply verifyReturnUrl_frame.
Qed.

Ltac run_post Hu Hok Hjson :=
  unfold new_URL, http_post; rewrite Hu; cbn [bind]; rewrite Hok;
  cbn [negb bind]; rewrite Hjson; cbn [bind].

(** C4, as amended.  For a status-query response whose numeric code is not
    in [90, 99], [queryDr] builds the pipe string of fifteen values in fixed
    order, fourteen fields of the response and, in fifth place, the terminal
    code of the merchant's configuration; it removes every occurrence of
    ["undefined"], signs the result, and throws
    [Error "Wrong checksum from VNPay response"] if and only if that
    signature differs from the response's [vnp_SecureHash]; otherwise it
    returns the response with the looked-up message. *)
Theorem queryDr_response_check (this : VNPay) (query : JsObject) (u : URL)
  (response : HttpResponse) (responseData : JsObject) :
  URL_parse (resolveUrlString
               (or_else (vnpayHost (globalDefaultConfig this))
                        VNPAY_GATEWAY_SANDBOX_HOST)
               QUERY_DR_REFUND_ENDPOINT) = Some u ->
  resp_ok response = true ->
  resp_json response = Ok responseData ->
  in_soft_range (get "vnp_ResponseCode" responseData) = false ->
  let pipe :=
    String.concat "|"
      [ field responseData "vnp_ResponseId";
        field responseData "vnp_Command";
        field responseData "vnp_ResponseCode";
        field responseData "vnp_Message";
        tmnCode (globalDefaultConfig this);
        field responseData "vnp_TxnRef";
        field responseData "vnp_Amount";
        field responseData "vnp_BankCode";
        field responseData "vnp_PayDate";
        field responseData "vnp_TransactionNo";
        field responseData "vnp_TransactionType";
        field responseData "vnp_TransactionStatus";
        field responseData "vnp_OrderInfo";
        field responseData "vnp_PromotionCode";
        field responseData "vnp_PromotionAmount" ] in
  let signedResponse :=
    hash (secureSecret (globalDefaultConfig this))
         (Str.remove_all "undefined" pipe) (HASH_ALGORITHM this) in
  let matches :=
    strict_eq (JStr signedResponse) (get "vnp_SecureHash" responseData) in
  (queryDr this (fun _ _ => Ok response) query
   = Throw (Error "Wrong checksum from VNPay response")
   <-> matches = false)
  /\ (matches = true ->
      queryDr this (fun _ _ => Ok response) query
      = Ok (set "vnp_Message"
              (JStr (getResponseByStatusCode
                       (opt_toString (get "vnp_ResponseCode" responseData))
                       (vnp_Locale (globalDefaultConfig this))
                       (Some QUERY_DR_RESPONSE_MAP)))
              (assign [] responseData))).
Proof.
  intros Hu Hok Hjson Hrange pipe signedResponse matches.
  unfold queryDr. cbv zeta. run_post Hu Hok Hjson. rewrite Hrange.
  unfold Buffer_from.
  assert (Hpipe :
    (field responseData "vnp_ResponseId" ++ "|"
       ++ field responseData "vnp_Command" ++ "|"
       ++ field responseData "vnp_ResponseCode")
      ++ ("|" ++ field responseData "vnp_Message" ++ "|"
          ++ field (defaultConfig this) "vnp_TmnCode" ++ "|"
          ++ field responseData "vnp_TxnRef")
      ++ ("|" ++ field responseData "vnp_Amount" ++ "|"
          ++ field responseData "vnp_BankCode" ++ "|"
          ++ field responseData "vnp_PayDate")
      ++ ("|" ++ field responseData "vnp_TransactionNo" ++ "|"
          ++ field responseData "vnp_TransactionType" ++ "|"
          ++ field responseData "vnp_TransactionStatus")
      ++ ("|" ++ field responseData "vnp_OrderInfo" ++ "|"
          ++ field responseData "vnp_PromotionCode" ++ "|"
          ++ field responseData "vnp_PromotionAmount") = pipe).
  { unfold pipe. rewrite !app_assoc. reflexivity. }
  rewrite Hpipe. fold signedResponse. fold matches.
  destruct matches; simpl.
  - split; [split; discriminate | reflexivity].
  - split; [split; reflexivity | discriminate].
Qed.

(** The object [{ ...o, vnp_Message: m }], property by property. *)
Lemma with_message_fields (m : JsValue) (o : JsObject) :
  wf o = true ->
  let result := set "vnp_Message" m (assign [] o) in
  get "vnp_Message" result = m
  /\ has "vnp_Message" result = true
  /\ wf result = true
  /\ forall k, k <> "vnp_Message" ->
               get k result = get k o /\ has k result = has k o.
Proof.
  intros Hwf result. unfold result.
  split; [apply get_set_same|].
  split; [rewrite has_set; reflexivity|].
  split; [apply wf_set, wf_assign; reflexivity|].
  intros k Hk. split.
  - rewrite get_set_other by exact Hk.
    rewrite get_assign by exact Hwf.
    destruct (has k o) eqn:E; [reflexivity|].
    now rewrite (has_false_get _ _ E).
  - rewrite has_set, has_assign. apply String.eqb_neq in Hk. rewrite Hk.
    simpl. apply orb_false_r.
Qed.

(** C5.  For a status-query response whose numeric code lies in
    [90, 99], [queryDr] returns, and what it returns is the response with
    the looked-up message: [vnp_Message] is the message of the code in the
    table of the status query, and every other property is present exactly
    when the response has it, with the value the response gives it.  No
    signature is computed or compared: this holds whatever [vnp_SecureHash]
    the response has or lacks, and putting any other value in its place
    changes nothing of what is returned but that property. *)
Theorem queryDr_soft_range (this : VNPay) (query : JsObject) (u : URL)
  (response : HttpResponse) (responseData : JsObject) :
  URL_parse (resolveUrlString
               (or_else (vnpayHost (globalDefaultConfig this))
                        VNPAY_GATEWAY_SANDBOX_HOST)
               QUERY_DR_REFUND_ENDPOINT) = Some u ->
  resp_ok response = true ->
  resp_json response = Ok responseData ->
  wf responseData = true ->
  in_soft_range (get "vnp_ResponseCode" responseData) = true ->
  exists result,
    queryDr this (fun _ _ => Ok response) query = Ok result
    /\ get "vnp_Message" result
       = JStr (getResponseByStatusCode
                 (opt_toString (get "vnp_ResponseCode" responseData))
                 (vnp_Locale (globalDefaultConfig this))
                 (Some QUERY_DR_RESPONSE_MAP))
    /\ wf result = true
    /\ (forall k, k <> "vnp_Message" ->
                  get k result = get k responseData
                  /\ has k result = has k responseData)
    /\ (forall h, exists result',
           queryDr this
             (fun _ _ =>
                Ok {| resp_ok := true;
                      resp_status := resp_status response;
                      resp_json := Ok (set "vnp_SecureHash" h responseData) |})
             query
           = Ok result'
           /\ get "vnp_SecureHash" result' = h
           /\ forall k, k <> "vnp_SecureHash" ->
                        get k result' = get k result).
Proof.
  intros Hu Hok Hjson Hwf Hrange.
  assert (Hrun : forall r,
             in_soft_range (get "vnp_ResponseCode" r) = true ->
             queryDr this
               (fun _ _ =>
                  Ok {| resp_ok := true;
                        resp_status := resp_status response;
                        resp_json := Ok r |})
               query
             = Ok (set "vnp_Message"
                     (JStr (getResponseByStatusCode
                              (opt_toString (get "vnp_ResponseCode" r))
                              (vnp_Locale (globalDefaultConfig this))
                              (Some QUERY_DR_RESPONSE_MAP)))
                     (assign [] r))).
  { intros r Hr. unfold queryDr. cbv zeta. unfold new_URL, http_post.
    rewrite Hu. cbn [bind resp_ok resp_json negb]. now rewrite Hr. }
  destruct (with_message_fields
              (JStr (getResponseByStatusCode
                       (opt_toString (get "vnp_ResponseCode" responseData))
                       (vnp_Locale (globalDefaultConfig this))
                       (Some QUERY_DR_RESPONSE_MAP)))
              responseData Hwf) as (Hm & _ & Hwfr & Hk).
  eexists. split.
  { unfold queryDr. cbv zeta. run_post Hu Hok Hjson. rewrite Hrange.
    reflexivity. }
  split; [exact Hm|]. split; [exact Hwfr|]. split; [exact Hk|].
  intros h.
  assert (Hcode : get "vnp_ResponseCode" (set "vnp_SecureHash" h responseData)
                  = get "vnp_ResponseCode" responseData)
    by (apply get_set_other; discriminate).
  destruct (with_message_fields
              (JStr (getResponseByStatusCode
                       (opt_toString (get "vnp_ResponseCode" responseData))
                       (vnp_Locale (globalDefaultConfig this))
                       (Some QUERY_DR_RESPONSE_MAP)))
              (set "vnp_SecureHash" h responseData)
              (wf_set _ _ _ Hwf)) as (Hm' & _ & _ & Hk').
  eexists. split.
  { rewrite Hrun by (now rewrite Hcode). rewrite Hcode. reflexivity. }
  split.
  - rewrite (proj1 (Hk' "vnp_SecureHash" ltac:(discriminate))).
    apply get_set_same.
  - intros k Hne.
    destruct (String.eqb_spec k "vnp_Message") as [->|Hmsg].
    + now rewrite Hm, Hm'.
    + rewrite (proj1 (Hk' k Hmsg)), (proj1 (Hk k Hmsg)).
      now apply get_set_other.
Qed.

(** C6, as amended.  For a refund response whose numeric code is not in
    [90, 99], [refund] builds the pipe string of thirteen values in fixed
    order, twelve fields of the response and, in second place, the literal
    command ["refund"]; it signs the string as it is, ["undefined"]
    included, and throws [Error "Wrong checksum from VNPay response"] if and
    only if that signature differs from the response's [vnp_SecureHash];
    otherwise it returns the response with the looked-up message. *)
Theorem refund_response_check (this : VNPay) (data : JsObject) (u : URL)
  (response : HttpResponse) (responseData : JsObject) :
  URL_parse (resolveUrlString
               (or_else (vnpayHost (globalDefaultConfig this))
                        VNPAY_GATEWAY_SANDBOX_HOST)
               QUERY_DR_REFUND_ENDPOINT) = Some u ->
  resp_ok response = true ->
  resp_json response = Ok responseData ->
  in_soft_range (get "vnp_ResponseCode" responseData) = false ->
  let pipe :=
    String.concat "|"
      [ field responseData "vnp_ResponseId";
        "refund";
        field responseData "vnp_ResponseCode";
        field responseData "vnp_Message";
        field responseData "vnp_TmnCode";
        field responseData "vnp_TxnRef";
        field responseData "vnp_Amount";
        field responseData "vnp_BankCode";
        field responseData "vnp_PayDate";
        field responseData "vnp_TransactionNo";
        field responseData "vnp_TransactionType";
        field responseData "vnp_TransactionStatus";
        field responseData "vnp_OrderInfo" ] in
  let signedResponse :=
    hash (secureSecret (globalDefaultConfig this)) pipe
         (HASH_ALGORITHM this) in
  let matches :=
    strict_eq (JStr signedResponse) (get "vnp_SecureHash" responseData) in
  (refund this (fun _ _ => Ok response) data
   = Throw (Error "Wrong checksum from VNPay response")
   <-> matches = false)
  /\ (matches = true ->
      refund this (fun _ _ => Ok response) data
      = Ok (set "vnp_Message"
              (JStr (getResponseByStatusCode
                       (opt_toString (get "vnp_ResponseCode" responseData))
                       (vnp_Locale (globalDefaultConfig this))
                       (Some REFUND_RESPONSE_MAP)))
              (assign [] responseData))).
Proof.
  intros Hu Hok Hjson Hrange pipe signedResponse matches.
  unfold refund. cbv zeta. run_post Hu Hok Hjson. rewrite Hrange.
  unfold Buffer_from.
  assert (Hpipe :
    (field responseData "vnp_ResponseId" ++ "|" ++ "refund" ++ "|"
       ++ field responseData "vnp_ResponseCode" ++ "|")
      ++ (field responseData "vnp_Message" ++ "|"
          ++ field responseData "vnp_TmnCode" ++ "|"
          ++ field responseData "vnp_TxnRef" ++ "|")
      ++ (field responseData "vnp_Amount" ++ "|"
          ++ field responseData "vnp_BankCode" ++ "|"
          ++ field responseData "vnp_PayDate" ++ "|")
      ++ (field responseData "vnp_TransactionNo" ++ "|"
          ++ field responseData "vnp_TransactionType" ++ "|")
      ++ (field responseData "vnp_TransactionStatus" ++ "|"
          ++ field responseData "vnp_OrderInfo") = pipe).
  { unfold pipe. rewrite !app_assoc. reflexivity. }
  rewrite Hpipe. fold signedResponse. fold matches.
  destruct matches; simpl.
  - split; [split; discriminate | reflexivity].
  - split; [split; reflexivity | discriminate].
Qed.

(** C7.  [verifyReturnUrl] signs the fields that remain once
    [vnp_SecureHash] and [vnp_SecureHashType] are removed.  The call does
    not depend on [vnp_SecureHashType]; the signed string does not depend on
    [vnp_SecureHash]; and [vnp_SecureHash] reaches the result only through
    its comparison with the recomputed signature: two values that compare
    alike give the same result, and [isVerified] is that comparison. *)
Theorem signature_fields_not_signed (this : VNPay) (query : JsObject) :
  (forall v,
      verifyReturnUrl this (set "vnp_SecureHashType" v query)
      = verifyReturnUrl this query)
  /\ (forall v,
         return_signed_string (set "vnp_SecureHash" v query)
         = return_signed_string query)
  /\ (forall v w,
         strict_eq v (JStr (return_signature this query))
         = strict_eq w (JStr (return_signature this query)) ->
         verifyReturnUrl this (set "vnp_SecureHash" v query)
         = verifyReturnUrl this (set "vnp_SecureHash" w query))
  /\ get "isVerified" (fst (verifyReturnUrl this query))
     = JBool (strict_eq (get "vnp_SecureHash" query)
                        (JStr (return_signature this query))).
Proof.
  split; [|split; [|split]].
  - intros v. unfold verifyReturnUrl. cbv zeta.
    rewrite get_set_other by discriminate.
    rewrite delete_set_other by discriminate.
    now rewrite delete_set_same.
  - intros v. unfold return_signed_string. now rewrite delete_set_same.
  - intros v w H. unfold return_signature, return_signed_string in H.
    unfold verifyReturnUrl. cbv zeta.
    rewrite !get_set_same, !delete_set_same. now rewrite H.
  - apply verifyReturnUrl_isVerified.
Qed.

(** C10.  [verifyReturnUrl] changes its argument: after the call the
    caller's object is the original without [vnp_SecureHash] and
    [vnp_SecureHashType], every other property unchanged and in its place;
    [verifyIpnCall] is the same call. *)
Theorem verifyReturnUrl_mutates_argument (this : VNPay) (query : JsObject) :
  let after := snd (verifyReturnUrl this query) in
  after
  = filter (fun kv => negb (String.eqb "vnp_SecureHashType" (fst kv)))
      (filter (fun kv => negb (String.eqb "vnp_SecureHash" (fst kv))) query)
  /\ has "vnp_SecureHash" after = false
  /\ has "vnp_SecureHashType" after = false
  /\ (forall k,
         k <> "vnp_SecureHash" -> k <> "vnp_SecureHashType" ->
         get k after = get k query /\ has k after = has k query)
  /\ verifyIpnCall this query = verifyReturnUrl this query.
Proof.
  cbv zeta. rewrite verifyReturnUrl_argument.
  split; [reflexivity|].
  split; [rewrite has_delete_other by discriminate; apply has_delete_same|].
  split; [apply has_delete_same|].
  split; [|reflexivity].
  intros k H1 H2. now rewrite !get_delete_other, !has_delete_other.
Qed.

(** The amount of [dataToBuild] is the caller's, scaled. *)
Lemma get_amount_dataToBuild (this : VNPay) (now : JsValue) (data : JsObject) :
  wf data = true ->
  get "vnp_Amount" (dataToBuild this now data)
  = JNum (ToNumber (get "vnp_Amount" data) * 100)%float.
Proof.
  intros Hwf. unfold dataToBuild.
  assert (H : get "vnp_Amount" (assign (assign [] (defaultConfig this)) data)
              = get "vnp_Amount" data).
  { rewrite get_assign by exact Hwf.
    destruct (has "vnp_Amount" data) eqn:E; [reflexivity|].
    rewrite get_assign by reflexivity. simpl.
    now rewrite (has_false_get _ _ E). }
  destruct (negb _); rewrite ?get_set_other by discriminate;
    now rewrite get_set_same, H.
Qed.

Lemma get_other_dataToBuild (this : VNPay) (now : JsValue) (data : JsObject)
  (k : string) :
  wf data = true -> has k data = true ->
  k <> "vnp_Amount" -> k <> "vnp_CreateDate" ->
  get k (dataToBuild this now data) = get k data.
Proof.
  intros Hwf Hk H1 H2. unfold dataToBuild.
  destruct (negb _); rewrite !get_set_other by assumption;
    rewrite get_assign by exact Hwf; now rewrite Hk.
Qed.

Lemma get_defined_has (k : string) (o : JsObject) :
  get k o <> JUndefined -> has k o = true.
Proof.
  intros H. destruct (has k o) eqn:E; [reflexivity|].
  now apply has_false_get in E.
Qed.

Lemma canonical_pairs_value (skips : JsValue -> bool) (o : JsObject)
  (k s : string) :
  wf o = true -> In (k, s) (canonical_pairs skips (own_entries o)) ->
  skips (get k o) = false /\ s = ToString (get k o).
Proof.
  intros Hwf Hin. apply canonical_pairs_In in Hin as (v & Hin & Hs & ->).
  assert (get k o = v) as ->; [|auto].
  rewrite <- (get_own_entries k o Hwf).
  apply get_In; [now apply wf_own_entries | exact Hin].
Qed.

(** The skip test of [buildPaymentUrl] is the test for a falsy value. *)
Lemma build_skips_falsy (v : JsValue) : build_skips v = negb (truthy v).
Proof.
  unfold build_skips. destruct v as [| |[]|n|s]; simpl; try reflexivity.
  - now rewrite !orb_false_r.
  - destruct (String.eqb s ""); reflexivity.
Qed.

(** A pair of the canonical list is a property the loop keeps, and
    conversely. *)
Lemma canonical_pairs_iff (skips : JsValue -> bool) (o : JsObject)
  (k s : string) :
  wf o = true ->
  In (k, s) (canonical_pairs skips (own_entries o))
  <-> has k o = true /\ skips (get k o) = false /\ s = ToString (get k o).
Proof.
  intros Hwf. split.
  - intros Hin. split.
    + apply canonical_pairs_In in Hin as (v & Hin & _).
      rewrite <- has_own_entries. apply has_In_keys.
      now apply (in_map fst) in Hin.
    + now apply canonical_pairs_value.
  - intros (Hhas & Hs & ->). apply In_canonical_pairs; [|exact Hs].
    eapply Permutation_in; [symmetry; apply own_entries_perm|].
    now apply has_true_In.
Qed.

(** C8, as amended.  [buildPaymentUrl] validates nothing: the only failure
    it has is that of [new URL] on the gateway address, and whenever that
    address parses a URL is returned, whatever the amount and whichever
    fields are missing.  Of the parameters that precede the signature (for
    a gateway address without a query of its own): the amount is converted
    to a number and multiplied by 100, and when the product is neither zero
    nor NaN (a negative amount, a boolean or a numeric string included)
    [vnp_Amount] is written with the product as its value, and otherwise
    [vnp_Amount] is left out.  Any other field the caller gives,
    [vnp_CreateDate] apart, is written as given when its value is truthy and
    left out when it is falsy; a field the caller does not give and the
    configuration has no default for is left out. *)
Theorem buildPaymentUrl_validates_nothing (this : VNPay) (now : JsValue)
  (data : JsObject) (u0 : URL) :
  let gateway :=
    resolveUrlString
      (or_else (vnpayHost (globalDefaultConfig this)) VNPAY_GATEWAY_SANDBOX_HOST)
      (or_else (paymentEndpoint (globalDefaultConfig this)) PAYMENT_ENDPOINT) in
  let amount := (ToNumber (get "vnp_Amount" data) * 100)%float in
  (URL_parse gateway = Some u0 ->
   exists url, buildPaymentUrl this now data = Ok url)
  /\ (forall e, buildPaymentUrl this now data = Throw e ->
                e = TypeError "Invalid URL" /\ URL_parse gateway = None)
  /\ (URL_parse gateway = Some u0 -> url_query u0 = None ->
      wf data = true ->
      exists pairs,
        buildPaymentUrl this now data
        = Ok (url_base u0
              ++ String "?"
                   (serialize
                      (pairs
                       ++ [("vnp_SecureHash",
                            hash (secureSecret (globalDefaultConfig this))
                                 (serialize pairs) (HASH_ALGORITHM this))])
                    ++ match url_fragment u0 with
                       | Some f => "#" ++ f
                       | None => ""
                       end))
        /\ (truthy (JNum amount) = true ->
            forall s, In ("vnp_Amount", s) pairs
                      <-> s = Number_toString amount)
        /\ (truthy (JNum amount) = false ->
            ~ In "vnp_Amount" (map fst pairs))
        /\ (forall k,
               k <> "vnp_Amount" -> k <> "vnp_CreateDate" ->
               has k data = true ->
               (truthy (get k data) = true ->
                forall s, In (k, s) pairs <-> s = ToString (get k data))
               /\ (truthy (get k data) = false ->
                   ~ In k (map fst pairs)))
        /\ (forall k,
               k <> "vnp_Amount" -> k <> "vnp_CreateDate" ->
               has k data = false -> has k (defaultConfig this) = false ->
               ~ In k (map fst pairs))).
Proof.
  cbv zeta. split; [|split].
  - intros Hu. unfold buildPaymentUrl, new_URL. rewrite Hu. simpl. eauto.
  - intros e. unfold buildPaymentUrl, new_URL.
    destruct (URL_parse _); simpl; [discriminate|].
    intros H. injection H as <-. auto.
  - intros Hu Hq Hwf. eexists.
    split; [now apply buildPaymentUrl_shape|].
    pose proof (wf_dataToBuild this now data) as Hwfd.
    assert (Hkept : forall k v,
               get k (dataToBuild this now data) = v -> truthy v = true ->
               forall s,
                 In (k, s)
                    (canonical_pairs build_skips
                       (own_entries (dataToBuild this now data)))
                 <-> s = ToString v).
    { intros k v Hv Ht s. rewrite canonical_pairs_iff by exact Hwfd.
      rewrite Hv, build_skips_falsy, Ht. simpl. split; [tauto|].
      intros ->. repeat split. apply get_defined_has. rewrite Hv.
      intros ->. discriminate Ht. }
    assert (Hleft : forall k,
               truthy (get k (dataToBuild this now data)) = false ->
               ~ In k (map fst
                         (canonical_pairs build_skips
                            (own_entries (dataToBuild this now data))))).
    { intros k Hf Hin. apply in_map_iff in Hin as ([k' s] & Heq & Hin).
      simpl in Heq. subst k'.
      apply canonical_pairs_iff in Hin as (_ & Hs & _); [|exact Hwfd].
      rewrite build_skips_falsy, Hf in Hs. discriminate Hs. }
    pose proof (get_amount_dataToBuild this now data Hwf) as Hamount.
    split; [|split; [|split]].
    + intros Ht s. now apply (Hkept "vnp_Amount" _ Hamount Ht).
    + intros Hf. apply Hleft. now rewrite Hamount.
    + intros k H1 H2 Hhas.
      pose proof (get_other_dataToBuild this now data k Hwf Hhas H1 H2) as Hk.
      split.
      * intros Ht s. now apply (Hkept k _ Hk Ht).
      * intros Hf. apply Hleft. now rewrite Hk.
    + intros k H1 H2 Hd Hc. apply Hleft.
      destruct (has k (dataToBuild this now data)) eqn:E.
      * apply has_dataToBuild in E. rewrite Hd, Hc in E.
        destruct E as [E|[E|[E|E]]]; try discriminate E; contradiction.
      * now rewrite (has_false_get _ _ E).
Qed.

(** C9.  The two skip tests differ on the number 0.  [buildPaymentUrl]
    omits a field whose value is 0 from the query it signs and from the URL
    ([vnp_Amount = 0] is still 0 once scaled); [verifyReturnUrl] keeps such
    a field in the string it signs. *)
Theorem zero_valued_field_asymmetry (this : VNPay) (now : JsValue)
  (data query : JsObject) (u0 : URL) (k : string) :
  (wf data = true -> get "vnp_Amount" data = JNum 0%float ->
   get "vnp_Amount" (dataToBuild this now data) = JNum 0%float)
  /\ (wf data = true -> get k data = JNum 0%float ->
      k <> "vnp_CreateDate" ->
      URL_parse (resolveUrlString
                   (or_else (vnpayHost (globalDefaultConfig this))
                            VNPAY_GATEWAY_SANDBOX_HOST)
                   (or_else (paymentEndpoint (globalDefaultConfig this))
                            PAYMENT_ENDPOINT)) = Some u0 ->
      url_query u0 = None ->
      exists pairs,
        buildPaymentUrl this now data
        = Ok (url_base u0
              ++ String "?"
                   (serialize
                      (pairs
                       ++ [("vnp_SecureHash",
                            hash (secureSecret (globalDefaultConfig this))
                                 (serialize pairs) (HASH_ALGORITHM this))])
                    ++ match url_fragment u0 with
                       | Some f => "#" ++ f
                       | None => ""
                       end))
        /\ ~ In k (map fst pairs))
  /\ (get k query = JNum 0%float ->
      k <> "vnp_SecureHash" -> k <> "vnp_SecureHashType" ->
      In (k, Number_toString 0%float)
         (parse_urlencoded (return_signed_string query))).
Proof.
  assert (Hamount : wf data = true -> get "vnp_Amount" data = JNum 0%float ->
                    get "vnp_Amount" (dataToBuild this now data) = JNum 0%float).
  { intros Hwf Ha. rewrite get_amount_dataToBuild by exact Hwf.
    rewrite Ha. reflexivity. }
  split; [exact Hamount|]. split.
  - intros Hwf Hk Hcd Hu Hq. eexists.
    split; [now apply buildPaymentUrl_shape|].
    intros Hin. apply in_map_iff in Hin as ([k' s] & Heq & Hin).
    simpl in Heq. subst k'.
    apply canonical_pairs_value in Hin as [Hs _]; [|apply wf_dataToBuild].
    assert (Hz : get k (dataToBuild this now data) = JNum 0%float).
    { destruct (String.eqb_spec k "vnp_Amount") as [->|Hne]; [auto|].
      rewrite get_other_dataToBuild; auto.
      apply get_defined_has. rewrite Hk. discriminate. }
    rewrite Hz in Hs. discriminate Hs.
  - intros Hk H1 H2. unfold return_signed_string.
    rewrite parse_serialize, collect_fields_pairs.
    apply (In_canonical_pairs verify_skips _ k (JNum 0%float)); [|reflexivity].
    eapply Permutation_in; [symmetry; apply own_entries_perm|].
    rewrite <- Hk.
    rewrite <- (get_delete_other k "vnp_SecureHash") by assumption.
    rewrite <- (get_delete_other k "vnp_SecureHashType") by assumption.
    apply has_true_In, get_defined_has.
    rewrite !get_delete_other by assumption. rewrite Hk. discriminate.
Qed.

End Claims.

(** ** The protocols on concrete inputs *)

(** C1 on the payment of the class's documentation: the hypotheses hold for
    the reference implementation and the callback is verified. *)
Lemma build_verify_roundtrip_witness :
  URL_parse (resolveUrlString "https://sandbox.vnpayment.vn"
                              "paymentv2/vpcpay.html")
  = Some Ref.payment_url
  /\ Obj.has "vnp_SecureHash" Ref.payment = false
  /\ Obj.has "vnp_SecureHashType" Ref.payment = false
  /\ exists url,
       buildPaymentUrl Ref.vnpay Ref.now Ref.payment = Ok url
       /\ Obj.get "isVerified"
            (fst (verifyReturnUrl Ref.vnpay (parseQuery url)))
          = JBool true.
Proof.
  split; [reflexivity|]. split; [reflexivity|]. split; [reflexivity|].
  apply (build_verify_roundtrip Ref.vnpay Ref.now Ref.payment Ref.payment_url).
  - exact RefFacts.localeCompare_consistent.
  - apply RefFacts.localeCompare_separating.
  - exact RefFacts.Number_toString_not_empty.
  - reflexivity.
  - reflexivity.
  - reflexivity.
  - reflexivity.
  - reflexivity.
Defined.

(** C2 fails as stated: for a callback with the fields [B] and [a], the
    signed string of [verifyReturnUrl] has [a] before [B], the order of the
    collation; the byte order has [B] before [a]. *)
Lemma canonical_order_not_ascii :
  return_signed_string Ref.mixed_case_callback = "a=1&B=2"
  /\ map fst (collect_fields (own_entries Ref.mixed_case_callback))
     = ["a"; "B"]
  /\ ascii_sort (present_keys verify_skips Ref.mixed_case_callback)
     = ["B"; "a"]
  /\ map fst (collect_fields (own_entries Ref.mixed_case_callback))
     <> ascii_sort (present_keys verify_skips Ref.mixed_case_callback).
Proof. vm_compute. repeat split. discriminate. Qed.

Lemma canonical_order_localeCompare_witness :
  let names :=
    map fst (parse_urlencoded (return_signed_string Ref.mixed_case_callback)) in
  StronglySorted (le_of localeCompare) names
  /\ Permutation names
       (present_keys verify_skips
          (Obj.delete "vnp_SecureHashType"
             (Obj.delete "vnp_SecureHash" Ref.mixed_case_callback))).
Proof.
  apply (canonical_order_localeCompare Ref.vnpay Ref.now Ref.payment
           Ref.mixed_case_callback Ref.payment_url).
  exact RefFacts.localeCompare_consistent.
Defined.

(** C3 fails as stated: the value returned for a callback with a wrong
    signature does not carry the original [vnp_SecureHash]. *)
Lemma wrong_checksum_drops_signature :
  strict_eq (Obj.get "vnp_SecureHash" Ref.tampered_callback)
            (JStr (return_signature Ref.vnpay Ref.tampered_callback)) = false
  /\ Obj.get "vnp_SecureHash" Ref.tampered_callback = JStr "tampered"
  /\ Obj.get "vnp_SecureHash"
       (fst (verifyReturnUrl Ref.vnpay Ref.tampered_callback)) = JUndefined
  /\ Obj.get "vnp_SecureHash"
       (fst (verifyReturnUrl Ref.vnpay Ref.tampered_callback))
     <> Obj.get "vnp_SecureHash" Ref.tampered_callback.
Proof. vm_compute. repeat split. discriminate. Qed.

Lemma wrong_checksum_is_returned_witness :
  Obj.wf Ref.tampered_callback = true
  /\ Obj.get "isVerified"
       (fst (verifyReturnUrl Ref.vnpay Ref.tampered_callback)) = JBool false
  /\ Obj.get "message"
       (fst (verifyReturnUrl Ref.vnpay Ref.tampered_callback))
     = JStr "Wrong checksum"
  /\ Obj.get "vnp_TxnRef"
       (fst (verifyReturnUrl Ref.vnpay Ref.tampered_callback))
     = Obj.get "vnp_TxnRef" Ref.tampered_callback.
Proof.
  split; [reflexivity|].
  assert (Hwf : Obj.wf Ref.tampered_callback = true) by reflexivity.
  assert (Hm : strict_eq (Obj.get "vnp_SecureHash" Ref.tampered_callback)
                 (JStr (return_signature Ref.vnpay Ref.tampered_callback))
               = false) by (vm_compute; reflexivity).
  destruct (wrong_checksum_is_returned Ref.vnpay Ref.tampered_callback
              Hwf Hm) as (H1 & H2 & _ & _ & _ & H3).
  split; [exact H1|]. split; [exact H2|].
  apply H3; discriminate.
Defined.

(** C4 fails as stated: a status response that names another terminal and
    is signed over its own fifteen fields is rejected, because the string
    [queryDr] signs has the configured terminal code in fifth place. *)
Lemma queryDr_signs_configured_terminal :
  in_soft_range (Obj.get "vnp_ResponseCode" Ref.foreign_status_response)
  = false
  /\ strict_eq
       (JStr (hash "SECRET"
                   (Str.remove_all "undefined"
                      (spec_pipe Ref.foreign_status_response
                                 spec_queryDr_response_fields))
                   SHA512))
       (Obj.get "vnp_SecureHash" Ref.foreign_status_response) = true
  /\ queryDr Ref.vnpay
       (fun _ _ => Ok (Ref.http_ok Ref.foreign_status_response))
       Ref.status_query
     = Throw (Error "Wrong checksum from VNPay response").
Proof. vm_compute. repeat split. Qed.

Lemma queryDr_response_check_witness :
  queryDr Ref.vnpay
    (fun _ _ => Ok (Ref.http_ok Ref.foreign_status_response))
    Ref.status_query
  = Throw (Error "Wrong checksum from VNPay response").
Proof.
  apply (queryDr_response_check Ref.vnpay Ref.status_query Ref.api_url
           (Ref.http_ok Ref.foreign_status_response)
           Ref.foreign_status_response);
    reflexivity.
Defined.

Lemma queryDr_soft_range_witness :
  in_soft_range (Obj.get "vnp_ResponseCode" Ref.soft_response) = true
  /\ Obj.has "vnp_SecureHash" Ref.soft_response = false
  /\ exists result,
       queryDr Ref.vnpay (fun _ _ => Ok (Ref.http_ok Ref.soft_response))
         Ref.status_query
       = Ok result
       /\ Obj.get "vnp_Message" result = JStr "querydr/vn/91"
       /\ Obj.get "vnp_ResponseId" result = JStr "res-2"
       /\ Obj.has "vnp_SecureHash" result = false.
Proof.
  assert (Hu : URL_parse
                 (resolveUrlString
                    (or_else (vnpayHost (globalDefaultConfig Ref.vnpay))
                             VNPAY_GATEWAY_SANDBOX_HOST)
                    QUERY_DR_REFUND_ENDPOINT) = Some Ref.api_url)
    by reflexivity.
  assert (Hwf : Obj.wf Ref.soft_response = true) by reflexivity.
  assert (Hr : in_soft_range (Obj.get "vnp_ResponseCode" Ref.soft_response)
               = true) by (vm_compute; reflexivity).
  split; [exact Hr|]. split; [reflexivity|].
  destruct (queryDr_soft_range Ref.vnpay Ref.status_query Ref.api_url
              (Ref.http_ok Ref.soft_response) Ref.soft_response
              Hu eq_refl eq_refl Hwf Hr) as (result & Hq & Hm & _ & Hk & _).
  exists result. split; [exact Hq|].
  split; [rewrite Hm; vm_compute; reflexivity|].
  split.
  - rewrite (proj1 (Hk "vnp_ResponseId" ltac:(discriminate))). reflexivity.
  - rewrite (proj2 (Hk "vnp_SecureHash" ltac:(discriminate))). reflexivity.
Defined.

(** C6 fails as stated: a response whose command is not ["refund"], signed
    over its own thirteen fields, is rejected, because the string [refund]
    signs has the literal ["refund"] in second place. *)
Lemma refund_signs_literal_command :
  in_soft_range (Obj.get "vnp_ResponseCode" Ref.foreign_refund_response)
  = false
  /\ strict_eq
       (JStr (hash "SECRET"
                   (spec_pipe Ref.foreign_refund_response
                              spec_refund_response_fields)
                   SHA512))
       (Obj.get "vnp_SecureHash" Ref.foreign_refund_response) = true
  /\ refund Ref.vnpay
       (fun _ _ => Ok (Ref.http_ok Ref.foreign_refund_response))
       Ref.status_query
     = Throw (Error "Wrong checksum from VNPay response").
Proof. vm_compute. repeat split. Qed.

Lemma refund_response_check_witness :
  refund Ref.vnpay
    (fun _ _ => Ok (Ref.http_ok Ref.foreign_refund_response))
    Ref.status_query
  = Throw (Error "Wrong checksum from VNPay response").
Proof.
  apply (refund_response_check Ref.vnpay Ref.status_query Ref.api_url
           (Ref.http_ok Ref.foreign_refund_response)
           Ref.foreign_refund_response);
    reflexivity.
Defined.

Lemma signature_fields_not_signed_witness :
  verifyReturnUrl Ref.vnpay
    (Obj.set "vnp_SecureHash" (JStr "forged") Ref.tampered_callback)
  = verifyReturnUrl Ref.vnpay
      (Obj.set "vnp_SecureHash" JUndefined Ref.tampered_callback).
Proof.
  destruct (signature_fields_not_signed Ref.vnpay Ref.tampered_callback)
    as (_ & _ & H & _).
  apply H. reflexivity.
Defined.

(** C8 fails as stated: a negative amount, an amount that is not a number
    and a payload without any field each give a URL. *)
Lemma buildPaymentUrl_accepts_invalid :
  buildPaymentUrl Ref.vnpay Ref.now Ref.negative_payment
  = Ok "https://sandbox.vnpayment.vn/paymentv2/vpcpay.html?vnp_Amount=-500&vnp_Command=pay&vnp_CreateDate=20231201093000&vnp_CurrCode=VND&vnp_Locale=vn&vnp_OrderType=other&vnp_TmnCode=TMNCODE&vnp_TxnRef=12345678&vnp_Version=2.1.0&vnp_SecureHash=sha512%28SECRET%2Cvnp_Amount%3D-500%26vnp_Command%3Dpay%26vnp_CreateDate%3D20231201093000%26vnp_CurrCode%3DVND%26vnp_Locale%3Dvn%26vnp_OrderType%3Dother%26vnp_TmnCode%3DTMNCODE%26vnp_TxnRef%3D12345678%26vnp_Version%3D2.1.0%29"
  /\ buildPaymentUrl Ref.vnpay Ref.now Ref.non_numeric_payment
     = Ok "https://sandbox.vnpayment.vn/paymentv2/vpcpay.html?vnp_Command=pay&vnp_CreateDate=20231201093000&vnp_CurrCode=VND&vnp_Locale=vn&vnp_OrderType=other&vnp_TmnCode=TMNCODE&vnp_Version=2.1.0&vnp_SecureHash=sha512%28SECRET%2Cvnp_Command%3Dpay%26vnp_CreateDate%3D20231201093000%26vnp_CurrCode%3DVND%26vnp_Locale%3Dvn%26vnp_OrderType%3Dother%26vnp_TmnCode%3DTMNCODE%26vnp_Version%3D2.1.0%29"
  /\ buildPaymentUrl Ref.vnpay Ref.now []
     = buildPaymentUrl Ref.vnpay Ref.now Ref.non_numeric_payment.
Proof. vm_compute. repeat split. Qed.

Lemma buildPaymentUrl_validates_nothing_witness :
  exists pairs,
    buildPaymentUrl Ref.vnpay Ref.now Ref.negative_payment
    = Ok ("https://sandbox.vnpayment.vn/paymentv2/vpcpay.html"
          ++ String "?"
               (serialize
                  (pairs
                   ++ [("vnp_SecureHash",
                        hash "SECRET" (serialize pairs) SHA512)])
                ++ ""))
    /\ In ("vnp_Amount", "-500") pairs
    /\ In ("vnp_TxnRef", "12345678") pairs
    /\ ~ In "vnp_OrderInfo" (map fst pairs).
Proof.
  assert (Hu : URL_parse
                 (resolveUrlString
                    (or_else (vnpayHost (globalDefaultConfig Ref.vnpay))
                             VNPAY_GATEWAY_SANDBOX_HOST)
                    (or_else (paymentEndpoint (globalDefaultConfig Ref.vnpay))
                             PAYMENT_ENDPOINT)) = Some Ref.payment_url)
    by reflexivity.
  assert (Hwf : Obj.wf Ref.negative_payment = true) by reflexivity.
  assert (Ht : truthy
                 (JNum (ToNumber (Obj.get "vnp_Amount" Ref.negative_payment)
                        * 100)%float) = true)
    by (vm_compute; reflexivity).
  assert (Hs : Number_toString
                 (ToNumber (Obj.get "vnp_Amount" Ref.negative_payment)
                  * 100)%float = "-500")
    by (vm_compute; reflexivity).
  destruct (buildPaymentUrl_validates_nothing Ref.vnpay Ref.now
              Ref.negative_payment Ref.payment_url) as (_ & _ & H).
  destruct (H Hu eq_refl Hwf) as (pairs & Hb & Ha & _ & Hk & Hn).
  exists pairs. split; [exact Hb|]. split; [|split].
  - apply (Ha Ht). now rewrite Hs.
  - apply (proj1 (Hk "vnp_TxnRef" ltac:(discriminate) ltac:(discriminate)
                     eq_refl) eq_refl).
    reflexivity.
  - assert (Hd : Obj.has "vnp_OrderInfo" Ref.negative_payment = false)
      by reflexivity.
    assert (Hc : Obj.has "vnp_OrderInfo" (defaultConfig Ref.vnpay) = false)
      by (vm_compute; reflexivity).
    exact (Hn "vnp_OrderInfo" ltac:(discriminate) ltac:(discriminate) Hd Hc).
Defined.

Lemma zero_valued_field_asymmetry_witness :
  (exists pairs,
      buildPaymentUrl Ref.vnpay Ref.now Ref.zero_payment
      = Ok ("https://sandbox.vnpayment.vn/paymentv2/vpcpay.html"
            ++ String "?"
                 (serialize
                    (pairs
                     ++ [("vnp_SecureHash",
                          hash "SECRET" (serialize pairs) SHA512)])
                  ++ ""))
      /\ ~ In "vnp_Amount" (map fst pairs))
  /\ return_signed_string Ref.zero_callback = "vnp_Amount=0&vnp_TxnRef=12345678"
  /\ In ("vnp_Amount", "0")
        (parse_urlencoded (return_signed_string Ref.zero_callback)).
Proof.
  destruct (zero_valued_field_asymmetry Ref.vnpay Ref.now Ref.zero_payment
              Ref.zero_callback Ref.payment_url "vnp_Amount")
    as (_ & Hb & Hv).
  split; [|split].
  - apply Hb; try reflexivity. discriminate.
  - reflexivity.
  - apply Hv; try reflexivity; discriminate.
Defined.

Lemma verifyReturnUrl_mutates_argument_witness :
  Obj.has "vnp_SecureHash" Ref.tampered_callback = true
  /\ Obj.has "vnp_SecureHash"
       (snd (verifyReturnUrl Ref.vnpay Ref.tampered_callback)) = false
  /\ Obj.get "vnp_TxnRef"
       (snd (verifyReturnUrl Ref.vnpay Ref.tampered_callback))
     = Obj.get "vnp_TxnRef" Ref.tampered_callback.
Proof.
  split; [reflexivity|].
  destruct (verifyReturnUrl_mutates_argument Ref.vnpay Ref.tampered_callback)
    as (_ & H1 & _ & H2 & _).
  split; [exact H1|]. apply H2; discriminate.
Defined.

(** ** Further properties of the methods *)

Section MoreFacts.

Context {RT : JsRuntime} {LIB : VnpayLib}.

Import Obj ObjFacts EnumFacts UrlFacts StrFacts.

Lemma get_set (k k' : string) (v : JsValue) (o : JsObject) :
  get k (set k' v o) = if String.eqb k k' then v else get k o.
Proof.
  destruct (String.eqb_spec k k') as [->|H].
  - apply get_set_same.
  - now apply get_set_other.
Qed.

Lemma get_copy (k : string) (o : JsObject) :
  wf o = true -> get k (assign [] o) = get k o.
Proof.
  intros H. rewrite get_assign by exact H.
  destruct (has k o) eqn:E; [reflexivity|].
  now rewrite (has_false_get _ _ E).
Qed.

Lemma serialize_snoc (l : list (string * string)) (kv : string * string) :
  serialize (l ++ [kv])
  = (if String.eqb (serialize l) "" then "" else serialize l ++ "&")
    ++ pair_string kv.
Proof.
  induction l as [|x l IH]; [reflexivity|].
  rewrite (serialize_not_empty (x :: l)) by discriminate.
  change ((x :: l) ++ [kv])%list with (x :: (l ++ [kv]))%list.
  rewrite !serialize_cons, IH.
  destruct l as [|y l].
  - simpl. now rewrite app_assoc.
  - rewrite (serialize_not_empty (y :: l)) by discriminate.
    change ((y :: l) ++ [kv])%list with (y :: (l ++ [kv]))%list.
    rewrite !app_assoc. simpl. reflexivity.
Qed.

(** X1.  In the data [buildPaymentUrl] signs, a field of the caller
    overrides the default of the same name, and a default fills the place of
    a field the caller does not give ([vnp_Amount] and [vnp_CreateDate]
    apart, which the method sets). *)
Theorem caller_overrides_defaults (this : VNPay) (now : JsValue)
  (data : JsObject) (k : string) :
  wf data = true -> k <> "vnp_Amount" -> k <> "vnp_CreateDate" ->
  get k (dataToBuild this now data)
  = if has k data then get k data else get k (defaultConfig this).
Proof.
  intros Hwf H1 H2. unfold dataToBuild.
  destruct (negb _); rewrite !get_set_other by assumption;
    rewrite get_assign by exact Hwf;
    (destruct (has k data); [reflexivity | now apply get_copy]).
Qed.

(** X2.  A creation date the caller gives is kept when
    [isValidVnpayDateFormat] accepts it; otherwise, and when the caller
    gives none, the date is the current timestamp. *)
Theorem create_date_kept_or_generated (this : VNPay) (now : JsValue)
  (data : JsObject) :
  wf data = true ->
  get "vnp_CreateDate" (dataToBuild this now data)
  = if isValidVnpayDateFormat
         (nullish (get "vnp_CreateDate" data) (JNum 0%float))
    then get "vnp_CreateDate" data
    else now.
Proof.
  intros Hwf. unfold dataToBuild.
  assert (H : get "vnp_CreateDate"
                (set "vnp_Amount"
                   (JNum (ToNumber
                            (get "vnp_Amount"
                               (assign (assign [] (defaultConfig this)) data))
                          * 100)%float)
                   (assign (assign [] (defaultConfig this)) data))
              = get "vnp_CreateDate" data).
  { rewrite get_set_other by discriminate.
    rewrite get_assign by exact Hwf.
    destruct (has "vnp_CreateDate" data) eqn:E; [reflexivity|].
    rewrite get_copy by reflexivity. simpl.
    now rewrite (has_false_get _ _ E). }
  rewrite H.
  destruct (isValidVnpayDateFormat _); simpl;
    [exact H | apply get_set_same].
Qed.

(** X3.  The URL [buildPaymentUrl] returns is the gateway address, [?], the
    serialized fields, and last the parameter [vnp_SecureHash], whose value
    is the signature of exactly the query text before it. *)
Theorem signature_is_last_parameter (this : VNPay) (now : JsValue)
  (data : JsObject) (u0 : URL) :
  URL_parse (resolveUrlString
               (or_else (vnpayHost (globalDefaultConfig this))
                        VNPAY_GATEWAY_SANDBOX_HOST)
               (or_else (paymentEndpoint (globalDefaultConfig this))
                        PAYMENT_ENDPOINT)) = Some u0 ->
  url_query u0 = None ->
  let query :=
    serialize
      (canonical_pairs build_skips (own_entries (dataToBuild this now data))) in
  buildPaymentUrl this now data
  = Ok (url_base u0 ++ "?"
        ++ (if String.eqb query "" then "" else query ++ "&")
        ++ "vnp_SecureHash="
        ++ urlencode (hash (secureSecret (globalDefaultConfig this)) query
                           (HASH_ALGORITHM this))
        ++ match url_fragment u0 with Some f => "#" ++ f | None => "" end).
Proof.
  intros Hu Hq. cbv zeta.
  rewrite (buildPaymentUrl_shape this u0 now data Hu Hq).
  rewrite serialize_snoc. unfold pair_string. simpl fst. simpl snd.
  change (urlencode "vnp_SecureHash") with "vnp_SecureHash".
  rewrite !app_assoc. reflexivity.
Qed.

(** X4.  In the URL [buildPaymentUrl] returns no field name occurs twice and
    no field has an empty value: every pair comes from a field of the merged
    data whose value is not skipped, with that value as text. *)
Theorem built_pairs_distinct_and_filled (this : VNPay) (now : JsValue)
  (data : JsObject) (u0 : URL) :
  (forall n, Number_toString n <> "") ->
  URL_parse (resolveUrlString
               (or_else (vnpayHost (globalDefaultConfig this))
                        VNPAY_GATEWAY_SANDBOX_HOST)
               (or_else (paymentEndpoint (globalDefaultConfig this))
                        PAYMENT_ENDPOINT)) = Some u0 ->
  url_query u0 = None ->
  exists pairs,
    buildPaymentUrl this now data
    = Ok (url_base u0
          ++ String "?"
               (serialize
                  (pairs
                   ++ [("vnp_SecureHash",
                        hash (secureSecret (globalDefaultConfig this))
                             (serialize pairs) (HASH_ALGORITHM this))])
                ++ match url_fragment u0 with
                   | Some f => "#" ++ f
                   | None => ""
                   end))
    /\ NoDup (map fst pairs)
    /\ forall k s,
         In (k, s) pairs ->
         s <> ""
         /\ s = ToString (get k (dataToBuild this now data))
         /\ build_skips (get k (dataToBuild this now data)) = false.
Proof.
  intros Hnum Hu Hq. eexists. split; [now apply buildPaymentUrl_shape|].
  split.
  - apply canonical_pairs_NoDup, wf_own_entries, wf_dataToBuild.
  - intros k s Hin.
    apply canonical_pairs_value in Hin as [Hs ->]; [|apply wf_dataToBuild].
    split; [now apply build_kept_not_empty | auto].
Qed.

(** Two objects with the same properties are arrangements of one
    another. *)
Lemma same_properties_perm (o o' : JsObject) :
  wf o = true -> wf o' = true ->
  (forall k, has k o = has k o') -> (forall k, get k o = get k o') ->
  Permutation o o'.
Proof.
  intros Hw Hw' Hhas Hget.
  assert (Hin : forall a b k v, wf a = true ->
                  (forall k, has k a = has k b) ->
                  (forall k, get k a = get k b) ->
                  In (k, v) a -> In (k, v) b).
  { intros a b k v Ha Hh Hg H.
    rewrite <- (get_In k v a Ha H), Hg. apply has_true_In.
    rewrite <- Hh. apply has_In_keys. now apply (in_map fst) in H. }
  apply NoDup_Permutation.
  - apply (NoDup_map_inv fst). now apply wf_NoDup.
  - apply (NoDup_map_inv fst). now apply wf_NoDup.
  - intros [k v]. split; apply Hin; auto.
Qed.

(** What a loop keeps of two lists with the same kept entries is the same
    list, in the order of the collation. *)
Lemma kept_sorted_eq (p : string * JsValue -> bool)
  (e e' : list (string * JsValue)) :
  Consistent localeCompare -> wf e = true ->
  Separating_on localeCompare (keys (filter p e)) ->
  Permutation (filter p e) (filter p e') ->
  filter p (sort_by by_key e) = filter p (sort_by by_key e').
Proof.
  intros Hc Hwf Hsep Hp.
  apply (sorted_perm_unique by_key (by_key_consistent Hc)).
  - assert (Hin : forall a, In a (filter p (sort_by by_key e)) ->
                            In a (filter p e)).
    { intros a Ha. apply filter_In in Ha as [Ha Hpa]. apply filter_In.
      split; [|exact Hpa].
      eapply Permutation_in; [apply sort_by_perm | exact Ha]. }
    intros [k1 v1] [k2 v2] H1 H2 He. apply Hin in H1, H2.
    unfold by_key in He. simpl in He.
    apply Hsep in He;
      [| apply (in_map fst _ _ H1) | apply (in_map fst _ _ H2)].
    subst k2. f_equal.
    apply filter_In in H1 as [H1 _]. apply filter_In in H2 as [H2 _].
    rewrite <- (get_In k1 v1 e Hwf H1). now apply get_In.
  - apply StronglySorted_filter, (sort_by_sorted by_key (by_key_consistent Hc)).
  - apply StronglySorted_filter, (sort_by_sorted by_key (by_key_consistent Hc)).
  - rewrite (Permutation_filter p _ _ (sort_by_perm by_key e)).
    rewrite (Permutation_filter p _ _ (sort_by_perm by_key e')).
    exact Hp.
Qed.

Lemma canonical_pairs_same_kept (skips : JsValue -> bool) (o o' : JsObject) :
  Consistent localeCompare -> wf o = true ->
  Separating_on localeCompare (keys o) ->
  Permutation (filter (fun kv => negb (skips (snd kv))) o)
              (filter (fun kv => negb (skips (snd kv))) o') ->
  canonical_pairs skips (own_entries o) = canonical_pairs skips (own_entries o').
Proof.
  intros Hc Hwf Hsep Hp. unfold canonical_pairs. f_equal.
  apply kept_sorted_eq; auto using wf_own_entries.
  - intros a b Ha Hb. apply Hsep.
    + apply in_map_iff in Ha as (x & <- & Hx). apply filter_In in Hx as [Hx _].
      apply (in_map fst). eapply Permutation_in; [apply own_entries_perm | exact Hx].
    + apply in_map_iff in Hb as (x & <- & Hx). apply filter_In in Hx as [Hx _].
      apply (in_map fst). eapply Permutation_in; [apply own_entries_perm | exact Hx].
  - rewrite (Permutation_filter _ _ _ (own_entries_perm o)).
    rewrite (Permutation_filter _ _ _ (own_entries_perm o')).
    exact Hp.
Qed.

Lemma dataToBuild_same (this : VNPay) (now : JsValue) (data data' : JsObject) :
  wf data = true -> Permutation data data' ->
  (forall k, has k (dataToBuild this now data)
             = has k (dataToBuild this now data'))
  /\ (forall k, get k (dataToBuild this now data)
                = get k (dataToBuild this now data')).
Proof.
  intros Hwf Hp.
  assert (Hwf' : wf data' = true) by (now apply (wf_perm data)).
  assert (H0h : forall k, has k (assign (assign [] (defaultConfig this)) data)
                          = has k (assign (assign [] (defaultConfig this)) data')).
  { intros k. rewrite !has_assign. now rewrite (has_perm k data data' Hp). }
  assert (H0g : forall k, get k (assign (assign [] (defaultConfig this)) data)
                          = get k (assign (assign [] (defaultConfig this)) data')).
  { intros k. rewrite (get_assign k _ data Hwf), (get_assign k _ data' Hwf').
    now rewrite (has_perm k data data' Hp), (get_perm k data data' Hwf Hp). }
  unfold dataToBuild. rewrite !get_set_other by discriminate.
  rewrite <- !H0g.
  destruct (negb _); split; intros k;
    rewrite ?has_set, ?get_set, <- ?H0h, <- ?H0g; reflexivity.
Qed.

(** X5.  The URL [buildPaymentUrl] returns does not depend on the order in
    which the caller wrote the fields of the payload. *)
Theorem buildPaymentUrl_order_independent (this : VNPay) (now : JsValue)
  (data data' : JsObject) :
  Consistent localeCompare ->
  Separating_on localeCompare (keys (dataToBuild this now data)) ->
  wf data = true -> Permutation data data' ->
  buildPaymentUrl this now data = buildPaymentUrl this now data'.
Proof.
  intros Hc Hsep Hwf Hp.
  destruct (dataToBuild_same this now data data' Hwf Hp) as [Hh Hg].
  assert (H : sort_by by_key (own_entries (dataToBuild this now data))
              = sort_by by_key (own_entries (dataToBuild this now data'))).
  { pose proof (kept_sorted_eq (fun _ => true)
                  (own_entries (dataToBuild this now data))
                  (own_entries (dataToBuild this now data'))) as K.
    rewrite !filter_true in K. apply K; auto.
    - apply wf_own_entries, wf_dataToBuild.
    - intros a b Ha Hb. apply Hsep; apply has_In_keys;
        rewrite <- has_own_entries; now apply has_In_keys.
    - rewrite !own_entries_perm.
      apply same_properties_perm; auto using wf_dataToBuild. }
  unfold buildPaymentUrl, append_fields. cbv zeta. now rewrite H.
Qed.

(** The verdict of [verifyReturnUrl], field by field. *)
Lemma verifyReturnUrl_isSuccess (this : VNPay) (query : JsObject) :
  get "isSuccess" (fst (verifyReturnUrl this query))
  = JBool (strict_eq (get "vnp_ResponseCode" query) (JStr "00")).
Proof.
  unfold verifyReturnUrl. cbv zeta. simpl fst.
  rewrite get_set_other by discriminate.
  rewrite !get_delete_other by discriminate.
  destruct (negb _).
  - rewrite get_assign by (apply wf_assign; reflexivity).
    rewrite has_assign. simpl has. cbv iota.
    rewrite get_assign by reflexivity. reflexivity.
  - rewrite get_assign by reflexivity. reflexivity.
Qed.

Lemma verifyReturnUrl_message_verified (this : VNPay) (query : JsObject) :
  strict_eq (get "vnp_SecureHash" query)
            (JStr (return_signature this query)) = true ->
  get "message" (fst (verifyReturnUrl this query))
  = JStr (getResponseByStatusCode
            (nullish (opt_toString (get "vnp_ResponseCode" query)) (JStr ""))
            (vnp_Locale (globalDefaultConfig this)) None).
Proof.
  unfold return_signature, return_signed_string. intros H.
  unfold verifyReturnUrl. cbv zeta. simpl fst.
  rewrite get_set_other by discriminate. rewrite H. simpl negb. cbv iota.
  rewrite !get_delete_other by discriminate.
  rewrite get_assign by reflexivity. reflexivity.
Qed.

Lemma delete_perm (k : string) (o o' : JsObject) :
  Permutation o o' -> Permutation (delete k o) (delete k o').
Proof. apply Permutation_filter. Qed.

(** X6.  The verdict of [verifyReturnUrl] does not depend on the order of
    the fields of the callback: the signed string, [isVerified], [isSuccess]
    and [message] are those of any rearrangement. *)
Theorem verifyReturnUrl_order_independent (this : VNPay)
  (query query' : JsObject) :
  Consistent localeCompare ->
  Separating_on localeCompare (keys query) ->
  wf query = true -> Permutation query query' ->
  return_signed_string query = return_signed_string query'
  /\ (forall k, k = "isVerified" \/ k = "isSuccess" \/ k = "message" ->
                get k (fst (verifyReturnUrl this query))
                = get k (fst (verifyReturnUrl this query'))).
Proof.
  intros Hc Hsep Hwf Hp.
  assert (Hs : return_signed_string query = return_signed_string query').
  { unfold return_signed_string. rewrite !collect_fields_pairs. f_equal.
    apply canonical_pairs_same_kept; auto using wf_delete.
    - intros a b Ha Hb. apply Hsep.
      + apply has_In_keys. apply has_In_keys in Ha.
        now apply has_filter, has_filter in Ha.
      + apply has_In_keys. apply has_In_keys in Hb.
        now apply has_filter, has_filter in Hb.
    - apply Permutation_filter, delete_perm, delete_perm, Hp. }
  split; [exact Hs|].
  assert (Hv : strict_eq (get "vnp_SecureHash" query)
                 (JStr (return_signature this query))
               = strict_eq (get "vnp_SecureHash" query')
                   (JStr (return_signature this query'))).
  { unfold return_signature.
    now rewrite Hs, (get_perm "vnp_SecureHash" query query' Hwf Hp). }
  assert (Hcode : get "vnp_ResponseCode" query = get "vnp_ResponseCode" query')
    by (now apply get_perm).
  intros k [->|[->| ->]].
  - now rewrite !verifyReturnUrl_isVerified, Hv.
  - now rewrite !verifyReturnUrl_isSuccess, Hcode.
  - destruct (strict_eq (get "vnp_SecureHash" query)
                (JStr (return_signature this query))) eqn:E.
    + rewrite !verifyReturnUrl_message_verified by congruence.
      now rewrite Hcode.
    + rewrite !verifyReturnUrl_message by congruence. reflexivity.
Qed.

Lemma filter_kept {A : Type} (p d1 d2 : A -> bool) (l : list A) :
  filter p (filter d1 (filter d2 (filter p l)))
  = filter p (filter d1 (filter d2 l)).
Proof.
  induction l as [|x l IH]; [reflexivity|]. simpl.
  destruct (p x) eqn:Ep; simpl;
    destruct (d2 x) eqn:E2; simpl; try exact IH;
    destruct (d1 x) eqn:E1; simpl; rewrite ?Ep; try exact IH.
  now rewrite IH.
Qed.

(** X7.  A field whose value is the empty string, [null] or [undefined]
    takes no part in the signature of a callback: the string
    [verifyReturnUrl] signs is that of the callback without such fields. *)
Theorem signed_string_ignores_skipped (query : JsObject) :
  Consistent localeCompare ->
  Separating_on localeCompare (keys query) ->
  wf query = true ->
  return_signed_string query
  = return_signed_string
      (filter (fun kv => negb (verify_skips (snd kv))) query).
Proof.
  intros Hc Hsep Hwf. unfold return_signed_string.
  rewrite !collect_fields_pairs. f_equal.
  apply canonical_pairs_same_kept; auto using wf_delete.
  - intros a b Ha Hb. apply Hsep.
    + apply has_In_keys. apply has_In_keys in Ha.
      now apply has_filter, has_filter in Ha.
    + apply has_In_keys. apply has_In_keys in Hb.
      now apply has_filter, has_filter in Hb.
  - unfold delete. now rewrite filter_kept.
Qed.

Lemma In_set (k : string) (v : JsValue) (o : JsObject) : In (k, v) (set k v o).
Proof.
  rewrite <- (get_set_same k v o) at 1. apply has_true_In.
  rewrite has_set, String.eqb_refl. reflexivity.
Qed.

(** The pair a kept field contributes to the signed string, and the field
    a pair of the signed string comes from. *)
Lemma signed_pair_of_set (query : JsObject) (k : string) (v : JsValue) :
  k <> "vnp_SecureHash" -> k <> "vnp_SecureHashType" ->
  verify_skips v = false ->
  In (k, ToString v)
     (parse_urlencoded (return_signed_string (set k v query))).
Proof.
  intros H1 H2 Hv. unfold return_signed_string.
  rewrite parse_serialize, collect_fields_pairs.
  apply In_canonical_pairs; [|exact Hv].
  eapply Permutation_in; [symmetry; apply own_entries_perm|].
  apply filter_In. split; [apply filter_In; split; [apply In_set|]|];
    cbn [fst]; apply negb_true_iff, String.eqb_neq; congruence.
Qed.

Lemma signed_pair_value (query : JsObject) (k s : string) :
  wf query = true ->
  k <> "vnp_SecureHash" -> k <> "vnp_SecureHashType" ->
  In (k, s) (parse_urlencoded (return_signed_string query)) ->
  s = ToString (get k query).
Proof.
  intros Hwf H1 H2. unfold return_signed_string.
  rewrite parse_serialize, collect_fields_pairs. intros Hin.
  apply canonical_pairs_value in Hin as [_ Hin]; [|auto using wf_delete].
  now rewrite !get_delete_other in Hin by assumption.
Qed.

(** X8.  A change in the value of a signed field changes the signed string:
    two callbacks that differ in a field whose two values are not skipped
    and have different texts are signed differently.  (A number and the
    string of its digits have the same text.) *)
Theorem signed_string_detects_change (query : JsObject) (k : string)
  (v v' : JsValue) :
  wf query = true ->
  k <> "vnp_SecureHash" -> k <> "vnp_SecureHashType" ->
  verify_skips v = false -> verify_skips v' = false ->
  ToString v <> ToString v' ->
  return_signed_string (set k v query) <> return_signed_string (set k v' query).
Proof.
  intros Hwf H1 H2 Hv Hv' Hne Heq.
  pose proof (signed_pair_of_set query k v H1 H2 Hv) as Hin.
  rewrite Heq in Hin.
  apply signed_pair_value in Hin; auto using wf_set.
  rewrite get_set_same in Hin. contradiction.
Qed.

Lemma strict_eq_string (v : JsValue) (s : string) :
  strict_eq v (JStr s) = true -> v = JStr s.
Proof.
  destruct v as [| |b|n|t]; simpl; try discriminate.
  intros H. apply String.eqb_eq in H. now subst.
Qed.

(** X9.  With a hash that has no collisions under the secret, tampering is
    detected: if a callback is verified, the same callback with the value
    of a signed field changed to one of another text is not. *)
Theorem tampering_detected (this : VNPay) (query : JsObject) (k : string)
  (v v' : JsValue) :
  (forall d d',
      hash (secureSecret (globalDefaultConfig this)) d (HASH_ALGORITHM this)
      = hash (secureSecret (globalDefaultConfig this)) d' (HASH_ALGORITHM this)
      -> d = d') ->
  wf query = true ->
  k <> "vnp_SecureHash" -> k <> "vnp_SecureHashType" ->
  verify_skips v = false -> verify_skips v' = false ->
  ToString v <> ToString v' ->
  get "isVerified" (fst (verifyReturnUrl this (set k v query))) = JBool true ->
  get "isVerified" (fst (verifyReturnUrl this (set k v' query))) = JBool false.
Proof.
  intros Hinj Hwf H1 H2 Hv Hv' Hne.
  rewrite !verifyReturnUrl_isVerified, !get_set_other by congruence.
  intros H. injection H as H. apply strict_eq_string in H. rewrite H.
  simpl. f_equal. apply String.eqb_neq. unfold return_signature, Buffer_from.
  intros Heq. apply Hinj in Heq.
  pose proof (signed_pair_of_set query k v H1 H2 Hv) as Hin.
  rewrite Heq in Hin.
  apply signed_pair_value in Hin; auto using wf_set.
  rewrite get_set_same in Hin. contradiction.
Qed.

(** X10.  [isSuccess] is decided by the response code alone: it is whether
    [vnp_ResponseCode] is the string ["00"], whatever the signature, so a
    callback that is not verified can still have [isSuccess = true]. *)
Theorem isSuccess_ignores_signature (this : VNPay) (query : JsObject)
  (v : JsValue) :
  get "isSuccess" (fst (verifyReturnUrl this query))
  = JBool (strict_eq (get "vnp_ResponseCode" query) (JStr "00"))
  /\ get "isSuccess" (fst (verifyReturnUrl this (set "vnp_SecureHash" v query)))
     = get "isSuccess" (fst (verifyReturnUrl this query)).
Proof.
  split; [apply verifyReturnUrl_isSuccess|].
  rewrite !verifyReturnUrl_isSuccess. now rewrite get_set_other by discriminate.
Qed.

(** X11.  A callback object can be verified once: the call removes the
    signature from it, so verifying the object the first call left behind
    always gives [isVerified = false] with the message ["Wrong checksum"]. *)
Theorem second_verification_fails (this : VNPay) (query : JsObject) :
  let left := snd (verifyReturnUrl this query) in
  get "isVerified" (fst (verifyReturnUrl this left)) = JBool false
  /\ get "message" (fst (verifyReturnUrl this left)) = JStr "Wrong checksum".
Proof.
  cbv zeta. rewrite verifyReturnUrl_argument.
  assert (H : get "vnp_SecureHash"
                (delete "vnp_SecureHashType" (delete "vnp_SecureHash" query))
              = JUndefined).
  { rewrite get_delete_other by discriminate. apply get_delete_same. }
  split.
  - rewrite verifyReturnUrl_isVerified, H. reflexivity.
  - apply verifyReturnUrl_message. rewrite H. reflexivity.
Qed.

(** X12.  A callback is verified only if its [vnp_SecureHash] is a string,
    the recomputed signature; in particular a callback without
    [vnp_SecureHash] is never verified. *)
Theorem verified_only_with_signature (this : VNPay) (query : JsObject) :
  (get "isVerified" (fst (verifyReturnUrl this query)) = JBool true ->
   get "vnp_SecureHash" query = JStr (return_signature this query))
  /\ (has "vnp_SecureHash" query = false ->
      get "isVerified" (fst (verifyReturnUrl this query)) = JBool false).
Proof.
  rewrite verifyReturnUrl_isVerified. split.
  - intros H. injection H as H. now apply strict_eq_string.
  - intros H. now rewrite (has_false_get _ _ H).
Qed.

(** X13.  Two options of the constructor have no effect: a configured
    [paymentEndpoint] is never stored, and in test mode a configured
    [vnpayHost] is replaced by the sandbox host.  The client built is the
    one built without them. *)
Theorem constructor_ignored_options (c : VNPayConfig) :
  VNPay_new c
  = VNPay_new
      {| cfg_vnpayHost :=
           match cfg_testMode c with
           | Some true => None
           | _ => cfg_vnpayHost c
           end;
         cfg_vnp_Version := cfg_vnp_Version c;
         cfg_vnp_CurrCode := cfg_vnp_CurrCode c;
         cfg_vnp_Locale := cfg_vnp_Locale c;
         cfg_testMode := cfg_testMode c;
         cfg_paymentEndpoint := None;
         cfg_tmnCode := cfg_tmnCode c;
         cfg_secureSecret := cfg_secureSecret c;
         cfg_hashAlgorithm := cfg_hashAlgorithm c |}
  /\ paymentEndpoint (globalDefaultConfig (VNPay_new c)) = None
  /\ (cfg_testMode c = Some true ->
      vnpayHost (globalDefaultConfig (VNPay_new c))
      = Some VNPAY_GATEWAY_SANDBOX_HOST).
Proof.
  split; [|split].
  - unfold VNPay_new. simpl. destruct (cfg_testMode c) as [[]|]; reflexivity.
  - reflexivity.
  - intros H. unfold VNPay_new. simpl. now rewrite H.
Qed.

Ltac open_post Hu :=
  unfold new_URL, http_post; rewrite Hu; cbn [bind].

(** X14.  [queryDr] makes one request, to the API address, and the body it
    posts carries the command ["querydr"], the configured terminal code and
    the signature of the nine values of the body in fixed order, whatever
    the caller put under those three names; the other fields are the
    caller's, and the caller's [vnp_Version] has precedence over the
    configured one. *)
Theorem queryDr_request (this : VNPay) (query : JsObject) (u : URL) :
  URL_parse (resolveUrlString
               (or_else (vnpayHost (globalDefaultConfig this))
                        VNPAY_GATEWAY_SANDBOX_HOST)
               QUERY_DR_REFUND_ENDPOINT) = Some u ->
  exists body,
    (forall fetch,
        queryDr this fetch query
        = queryDr this (fun _ _ => fetch (url_href u) body) query)
    /\ get "vnp_Command" body = JStr "querydr"
    /\ get "vnp_TmnCode" body = JStr (tmnCode (globalDefaultConfig this))
    /\ get "vnp_SecureHash" body
       = JStr (hash (secureSecret (globalDefaultConfig this))
                 (String.concat "|"
                    [ field body "vnp_RequestId"; field body "vnp_Version";
                      "querydr"; tmnCode (globalDefaultConfig this);
                      field body "vnp_TxnRef";
                      field body "vnp_TransactionDate";
                      field body "vnp_CreateDate"; field body "vnp_IpAddr";
                      field body "vnp_OrderInfo" ])
                 (HASH_ALGORITHM this))
    /\ (wf query = true ->
        get "vnp_Version" body
        = if has "vnp_Version" query then get "vnp_Version" query
          else JStr (or_else (vnp_Version (globalDefaultConfig this))
                             VNP_VERSION))
    /\ (wf query = true ->
        forall k, k <> "vnp_Command" -> k <> "vnp_TmnCode" ->
                  k <> "vnp_SecureHash" -> k <> "vnp_Version" ->
                  get k body = get k query).
Proof.
  intros Hu.
  set (dataQuery :=
         assign [("vnp_Version",
                  JStr (or_else (vnp_Version (globalDefaultConfig this))
                                VNP_VERSION))] query).
  assert (Hwf : wf dataQuery = true) by (apply wf_assign; reflexivity).
  eexists. split.
  { intros fetch. unfold queryDr. cbv zeta. open_post Hu. reflexivity. }
  fold dataQuery.
  assert (Hk : forall k v1 v2 v3,
             k <> "vnp_SecureHash" -> k <> "vnp_TmnCode" ->
             k <> "vnp_Command" ->
             get k (set "vnp_SecureHash" v1
                      (set "vnp_TmnCode" v2
                         (set "vnp_Command" v3 (assign [] dataQuery))))
             = get k dataQuery).
  { intros k v1 v2 v3 H1 H2 H3.
    rewrite !get_set_other by assumption. now apply get_copy. }
  split; [now rewrite !get_set_other, get_set_same by discriminate|].
  split; [now rewrite get_set_other, get_set_same by discriminate|].
  split.
  - rewrite get_set_same. unfold field, Buffer_from.
    rewrite !Hk by discriminate. simpl String.concat.
    rewrite !app_assoc. reflexivity.
  - split.
    + intros Hq. rewrite Hk by discriminate. unfold dataQuery.
      rewrite get_assign by exact Hq. reflexivity.
    + intros Hq k H1 H2 H3 H4. rewrite Hk by assumption. unfold dataQuery.
      rewrite get_assign by exact Hq.
      destruct (has k query) eqn:E; [reflexivity|].
      rewrite (has_false_get _ _ E). simpl.
      destruct (String.eqb_spec k "vnp_Version"); [contradiction | reflexivity].
Qed.

(** X15.  [refund] makes one request, to the API address, and the body it
    posts carries the command ["refund"], the configured terminal code, the
    configured version, which has precedence over the caller's, and the
    signature of the thirteen values of the body in fixed order; the other
    fields are the caller's. *)
Theorem refund_request (this : VNPay) (data : JsObject) (u : URL) :
  URL_parse (resolveUrlString
               (or_else (vnpayHost (globalDefaultConfig this))
                        VNPAY_GATEWAY_SANDBOX_HOST)
               QUERY_DR_REFUND_ENDPOINT) = Some u ->
  exists body,
    (forall fetch,
        refund this fetch data
        = refund this (fun _ _ => fetch (url_href u) body) data)
    /\ get "vnp_Command" body = JStr "refund"
    /\ get "vnp_TmnCode" body = JStr (tmnCode (globalDefaultConfig this))
    /\ get "vnp_Version" body = of_option (vnp_Version (globalDefaultConfig this))
    /\ get "vnp_SecureHash" body
       = JStr (hash (secureSecret (globalDefaultConfig this))
                 (String.concat "|"
                    [ field body "vnp_RequestId"; field body "vnp_Version";
                      "refund"; field body "vnp_TmnCode";
                      field body "vnp_TransactionType";
                      field body "vnp_TxnRef"; field body "vnp_Amount";
                      field body "vnp_TransactionNo";
                      field body "vnp_TransactionDate";
                      field body "vnp_CreateBy"; field body "vnp_CreateDate";
                      field body "vnp_IpAddr"; field body "vnp_OrderInfo" ])
                 (HASH_ALGORITHM this))
    /\ (wf data = true ->
        forall k, k <> "vnp_Command" -> k <> "vnp_TmnCode" ->
                  k <> "vnp_SecureHash" -> k <> "vnp_Version" ->
                  get k body = get k data).
Proof.
  intros Hu.
  set (dataQuery :=
         set "vnp_TmnCode" (JStr (tmnCode (globalDefaultConfig this)))
           (set "vnp_Version" (of_option (vnp_Version (globalDefaultConfig this)))
              (set "vnp_Command" (JStr "refund") (assign [] data)))).
  assert (Hwf : wf dataQuery = true)
    by (unfold dataQuery; repeat apply wf_set; apply wf_assign; reflexivity).
  eexists. split.
  { intros fetch. unfold refund. cbv zeta. open_post Hu. reflexivity. }
  fold dataQuery.
  assert (Hk : forall k v, k <> "vnp_SecureHash" ->
                           get k (set "vnp_SecureHash" v (assign [] dataQuery))
                           = get k dataQuery).
  { intros k v H. rewrite get_set_other by assumption. now apply get_copy. }
  split; [rewrite Hk by discriminate; unfold dataQuery;
          now rewrite !get_set_other, get_set_same by discriminate|].
  split; [rewrite Hk by discriminate; unfold dataQuery; apply get_set_same|].
  split; [rewrite Hk by discriminate; unfold dataQuery;
          now rewrite get_set_other, get_set_same by discriminate|].
  split.
  - rewrite get_set_same. unfold field, Buffer_from.
    rewrite !Hk by discriminate. simpl String.concat.
    rewrite !app_assoc. reflexivity.
  - intros Hd k H1 H2 H3 H4. rewrite Hk by assumption. unfold dataQuery.
    rewrite !get_set_other by assumption. now apply get_copy.
Qed.

(** X16.  An HTTP answer that is not ok makes [queryDr] and [refund] throw
    [Error "HTTP error! status: <status>"]; the body of the answer, its
    response code and its signature are not looked at. *)
Theorem http_failure_is_thrown (this : VNPay) (request : JsObject) (u : URL)
  (response : HttpResponse) :
  URL_parse (resolveUrlString
               (or_else (vnpayHost (globalDefaultConfig this))
                        VNPAY_GATEWAY_SANDBOX_HOST)
               QUERY_DR_REFUND_ENDPOINT) = Some u ->
  resp_ok response = false ->
  queryDr this (fun _ _ => Ok response) request
  = Throw (Error ("HTTP error! status: "
                  ++ Number_toString (resp_status response)))
  /\ refund this (fun _ _ => Ok response) request
     = Throw (Error ("HTTP error! status: "
                     ++ Number_toString (resp_status response))).
Proof.
  intros Hu Hok. split.
  - unfold queryDr. cbv zeta. open_post Hu. now rewrite Hok.
  - unfold refund. cbv zeta. open_post Hu. now rewrite Hok.
Qed.

(** X17.  [queryDr] and [refund] pass on the failure of the request and of
    reading the answer unchanged, and with an API address that [new URL]
    refuses they throw before any request is made. *)
Theorem request_failures_pass_through (this : VNPay) (request : JsObject)
  (u : URL) (e : JsError) (response : HttpResponse) :
  let api :=
    resolveUrlString
      (or_else (vnpayHost (globalDefaultConfig this)) VNPAY_GATEWAY_SANDBOX_HOST)
      QUERY_DR_REFUND_ENDPOINT in
  (URL_parse api = None ->
   forall fetch,
     queryDr this fetch request = Throw (TypeError "Invalid URL")
     /\ refund this fetch request = Throw (TypeError "Invalid URL"))
  /\ (URL_parse api = Some u ->
      queryDr this (fun _ _ => Throw e) request = Throw e
      /\ refund this (fun _ _ => Throw e) request = Throw e)
  /\ (URL_parse api = Some u ->
      resp_ok response = true -> resp_json response = Throw e ->
      queryDr this (fun _ _ => Ok response) request = Throw e
      /\ refund this (fun _ _ => Ok response) request = Throw e).
Proof.
  cbv zeta. split; [|split].
  - intros Hu fetch. unfold queryDr, refund, new_URL. now rewrite Hu.
  - intros Hu. split.
    + unfold queryDr. cbv zeta. open_post Hu. reflexivity.
    + unfold refund. cbv zeta. open_post Hu. reflexivity.
  - intros Hu Hok Hjson. split.
    + unfold queryDr. cbv zeta. open_post Hu. now rewrite Hok, Hjson.
    + unfold refund. cbv zeta. open_post Hu. now rewrite Hok, Hjson.
Qed.

(** X18.  For a refund response whose numeric code lies in [90, 99],
    [refund] returns without checking any signature, and what it returns is
    the response with a message: [vnp_Message] is looked up in the table of
    the status query, not in the table of the refund, and every other
    property is present exactly when the response has it, with the value the
    response gives it, [vnp_SecureHash] included, right or wrong. *)
Theorem refund_soft_range (this : VNPay) (data : JsObject) (u : URL)
  (response : HttpResponse) (responseData : JsObject) :
  URL_parse (resolveUrlString
               (or_else (vnpayHost (globalDefaultConfig this))
                        VNPAY_GATEWAY_SANDBOX_HOST)
               QUERY_DR_REFUND_ENDPOINT) = Some u ->
  resp_ok response = true ->
  resp_json response = Ok responseData ->
  wf responseData = true ->
  in_soft_range (get "vnp_ResponseCode" responseData) = true ->
  exists result,
    refund this (fun _ _ => Ok response) data = Ok result
    /\ get "vnp_Message" result
       = JStr (getResponseByStatusCode
                 (opt_toString (get "vnp_ResponseCode" responseData))
                 (vnp_Locale (globalDefaultConfig this))
                 (Some QUERY_DR_RESPONSE_MAP))
    /\ wf result = true
    /\ forall k, k <> "vnp_Message" ->
                 get k result = get k responseData
                 /\ has k result = has k responseData.
Proof.
  intros Hu Hok Hjson Hwf Hrange.
  destruct (with_message_fields
              (JStr (getResponseByStatusCode
                       (opt_toString (get "vnp_ResponseCode" responseData))
                       (vnp_Locale (globalDefaultConfig this))
                       (Some QUERY_DR_RESPONSE_MAP)))
              responseData Hwf) as (Hm & _ & Hwfr & Hk).
  eexists. split.
  { unfold refund. cbv zeta. open_post Hu. rewrite Hok. cbn [negb].
    rewrite Hjson. cbn [bind]. rewrite Hrange. reflexivity. }
  split; [exact Hm|]. split; [exact Hwfr | exact Hk].
Qed.

Lemma strict_eq_not_string (s : string) (v : JsValue) :
  (forall t, v <> JStr t) -> strict_eq (JStr s) v = false.
Proof.
  intros H. destruct v as [| |b|n|t]; try reflexivity.
  exfalso. now apply (H t).
Qed.

(** X19.  Outside the soft range, a response whose [vnp_SecureHash] is
    missing or is not a string is rejected by [queryDr] and by [refund],
    whatever its other fields. *)
Theorem unsigned_response_rejected (this : VNPay) (request : JsObject)
  (u : URL) (response : HttpResponse) (responseData : JsObject) :
  URL_parse (resolveUrlString
               (or_else (vnpayHost (globalDefaultConfig this))
                        VNPAY_GATEWAY_SANDBOX_HOST)
               QUERY_DR_REFUND_ENDPOINT) = Some u ->
  resp_ok response = true ->
  resp_json response = Ok responseData ->
  in_soft_range (get "vnp_ResponseCode" responseData) = false ->
  (forall s, get "vnp_SecureHash" responseData <> JStr s) ->
  queryDr this (fun _ _ => Ok response) request
  = Throw (Error "Wrong checksum from VNPay response")
  /\ refund this (fun _ _ => Ok response) request
     = Throw (Error "Wrong checksum from VNPay response").
Proof.
  intros Hu Hok Hjson Hrange Hsig. split.
  - unfold queryDr. cbv zeta. open_post Hu. rewrite Hok. cbn [negb].
    rewrite Hjson. cbn [bind]. rewrite Hrange.
    now rewrite strict_eq_not_string.
  - unfold refund. cbv zeta. open_post Hu. rewrite Hok. cbn [negb].
    rewrite Hjson. cbn [bind]. rewrite Hrange.
    now rewrite strict_eq_not_string.
Qed.

Lemma forEach_update_cons {A : Type} (f : A -> Result A) (x : A)
  (l : list A) :
  forEach_update f (x :: l)
  = bind (f x) (fun x' => bind (forEach_update f l)
                               (fun l' => Ok (x' :: l'))).
Proof. reflexivity. Qed.

(** X20.  When every bank of the answer has a string [logo_link],
    [getBankList] returns the banks in their order, each with its logo path,
    less its first UTF-16 code unit, resolved against the host, and every
    other property as it came; for a path that starts with an ASCII
    character, what is resolved is the rest of the path.  Whether the HTTP
    answer is ok is not looked at. *)
Theorem getBankList_resolves_logos (this : VNPay) (endpoint : string)
  (response : BankListResponse) (banks : list JsObject) :
  banks_json response = Ok banks ->
  Forall (fun b => exists s, get "logo_link" b = JStr s) banks ->
  exists out,
    getBankList this endpoint (fun _ _ => Ok response) = Ok out
    /\ Forall2
         (fun b b' =>
            (exists s,
                get "logo_link" b = JStr s
                /\ get "logo_link" b'
                   = JStr (resolveUrlString
                             (or_else (vnpayHost (globalDefaultConfig this))
                                      VNPAY_GATEWAY_SANDBOX_HOST)
                             (Str.slice1_utf16 s))
                /\ forall c rest,
                     s = String c rest -> (N_of_ascii c < 128)%N ->
                     get "logo_link" b'
                     = JStr (resolveUrlString
                               (or_else (vnpayHost (globalDefaultConfig this))
                                        VNPAY_GATEWAY_SANDBOX_HOST)
                               rest))
            /\ forall k,
                 k <> "logo_link" ->
                 get k b' = get k b /\ has k b' = has k b)
         banks out.
Proof.
  intros Hjson Hall. unfold getBankList. cbn [bind]. rewrite Hjson. cbn [bind].
  clear Hjson.
  induction Hall as [|b l (s & Hs) Hl (out & Hout & Hrel)].
  - exists []. split; [reflexivity | constructor].
  - rewrite forEach_update_cons. unfold resolve_logo at 1. rewrite Hs.
    cbn [bind]. rewrite Hout. cbn [bind]. eexists. split; [reflexivity|].
    constructor; [|exact Hrel]. split.
    + exists s. split; [exact Hs|]. split; [apply get_set_same|].
      intros c rest -> Hc. rewrite get_set_same.
      now rewrite slice1_utf16_ascii.
    + intros k Hk. split; [now apply get_set_other|].
      rewrite has_set. apply String.eqb_neq in Hk. now rewrite Hk.
Qed.

(** X21.  When a bank of the answer has no [logo_link], or one that is not
    a string, [getBankList] throws a [TypeError] and returns no list. *)
Theorem getBankList_needs_logos (this : VNPay) (endpoint : string)
  (response : BankListResponse) (banks : list JsObject) :
  banks_json response = Ok banks ->
  Exists (fun b => forall s, get "logo_link" b <> JStr s) banks ->
  exists message,
    getBankList this endpoint (fun _ _ => Ok response)
    = Throw (TypeError message).
Proof.
  intros Hjson Hex. unfold getBankList. cbn [bind]. rewrite Hjson. cbn [bind].
  clear Hjson.
  induction banks as [|b l IH]; [inversion Hex|].
  rewrite forEach_update_cons. unfold resolve_logo at 1.
  destruct (get "logo_link" b) as [| |x|n|s] eqn:E; cbn [bind]; eauto.
  inversion Hex as [? ? Hb|? ? Hl]; subst.
  - exfalso. now apply (Hb s).
  - destruct (IH Hl) as (m & Hm). rewrite Hm. cbn [bind]. eauto.
Qed.

End MoreFacts.

(** ** The further properties on concrete inputs *)

Lemma string_app_inv_head (a x y : string) : a ++ x = a ++ y -> x = y.
Proof. induction a as [|c a IH]; simpl; [auto|]. intros H. apply IH. congruence. Qed.

Lemma string_app_inv_last (x y : string) (c : ascii) :
  x ++ String c "" = y ++ String c "" -> x = y.
Proof.
  revert y. induction x as [|a x IH]; intros [|b y]; simpl; intros H.
  - reflexivity.
  - injection H as _ H. now destruct y.
  - injection H as _ H. now destruct x.
  - injection H as -> H. f_equal. now apply IH.
Qed.

Lemma Ref_hash_injective (secret : string) (alg : HashAlgorithm)
  (d d' : string) :
  Ref.hash secret d alg = Ref.hash secret d' alg -> d = d'.
Proof.
  unfold Ref.hash. intros H.
  apply string_app_inv_head in H. apply string_app_inv_head in H.
  apply string_app_inv_head in H. apply string_app_inv_head in H.
  now apply string_app_inv_last in H.
Qed.

Lemma caller_overrides_defaults_witness :
  Obj.get "vnp_Locale" (dataToBuild Ref.vnpay Ref.now Ref.payment)
  = (if Obj.has "vnp_Locale" Ref.payment
     then Obj.get "vnp_Locale" Ref.payment
     else Obj.get "vnp_Locale" (defaultConfig Ref.vnpay)).
Proof.
  apply caller_overrides_defaults; [reflexivity | discriminate | discriminate].
Defined.

Lemma create_date_kept_or_generated_witness :
  Obj.get "vnp_CreateDate" (dataToBuild Ref.vnpay Ref.now Ref.payment)
  = (if isValidVnpayDateFormat
          (nullish (Obj.get "vnp_CreateDate" Ref.payment) (JNum 0%float))
     then Obj.get "vnp_CreateDate" Ref.payment
     else Ref.now).
Proof. apply create_date_kept_or_generated. reflexivity. Defined.

Lemma signature_is_last_parameter_witness :
  let query :=
    serialize
      (canonical_pairs build_skips
         (own_entries (dataToBuild Ref.vnpay Ref.now Ref.payment))) in
  buildPaymentUrl Ref.vnpay Ref.now Ref.payment
  = Ok (url_base Ref.payment_url ++ "?"
        ++ (if String.eqb query "" then "" else query ++ "&")
        ++ "vnp_SecureHash=" ++ urlencode (hash "SECRET" query SHA512)
        ++ "").
Proof.
  apply (signature_is_last_parameter Ref.vnpay Ref.now Ref.payment
           Ref.payment_url); reflexivity.
Defined.

Lemma built_pairs_distinct_and_filled_witness :
  exists pairs,
    buildPaymentUrl Ref.vnpay Ref.now Ref.payment
    = Ok (url_base Ref.payment_url
          ++ String "?"
               (serialize
                  (pairs
                   ++ [("vnp_SecureHash",
                        hash "SECRET" (serialize pairs) SHA512)])
                ++ ""))
    /\ NoDup (map fst pairs)
    /\ forall k s,
         In (k, s) pairs ->
         s <> ""
         /\ s = ToString (Obj.get k (dataToBuild Ref.vnpay Ref.now Ref.payment))
         /\ build_skips (Obj.get k (dataToBuild Ref.vnpay Ref.now Ref.payment))
            = false.
Proof.
  apply (built_pairs_distinct_and_filled Ref.vnpay Ref.now Ref.payment
           Ref.payment_url);
    [exact RefFacts.Number_toString_not_empty | reflexivity | reflexivity].
Defined.

Lemma buildPaymentUrl_order_independent_witness :
  buildPaymentUrl Ref.vnpay Ref.now Ref.payment
  = buildPaymentUrl Ref.vnpay Ref.now Ref.payment_reordered.
Proof.
  apply buildPaymentUrl_order_independent.
  - exact RefFacts.localeCompare_consistent.
  - apply RefFacts.localeCompare_separating.
  - reflexivity.
  - change Ref.payment_reordered with (rev Ref.payment). apply Permutation_rev.
Defined.

Lemma verifyReturnUrl_order_independent_witness :
  return_signed_string Ref.paid_fields
  = return_signed_string Ref.paid_fields_reordered.
Proof.
  apply (verifyReturnUrl_order_independent Ref.vnpay).
  - exact RefFacts.localeCompare_consistent.
  - apply RefFacts.localeCompare_separating.
  - reflexivity.
  - change Ref.paid_fields_reordered with (rev Ref.paid_fields).
    apply Permutation_rev.
Defined.

Lemma signed_string_ignores_skipped_witness :
  return_signed_string Ref.paid_fields
  = return_signed_string
      (filter (fun kv => negb (verify_skips (snd kv))) Ref.paid_fields).
Proof.
  apply signed_string_ignores_skipped.
  - exact RefFacts.localeCompare_consistent.
  - apply RefFacts.localeCompare_separating.
  - reflexivity.
Defined.

Lemma signed_string_detects_change_witness :
  return_signed_string
    (Obj.set "vnp_Amount" (JStr "10000000") Ref.paid_fields)
  <> return_signed_string
       (Obj.set "vnp_Amount" (JStr "90000000") Ref.paid_fields).
Proof.
  apply signed_string_detects_change;
    try reflexivity; simpl; discriminate.
Defined.

Lemma tampering_detected_witness :
  Obj.get "isVerified"
    (fst (verifyReturnUrl Ref.vnpay
            (Obj.set "vnp_Amount" (JStr "10000000") Ref.paid_callback)))
  = JBool true
  /\ Obj.get "isVerified"
       (fst (verifyReturnUrl Ref.vnpay
               (Obj.set "vnp_Amount" (JStr "90000000") Ref.paid_callback)))
     = JBool false.
Proof.
  assert (H : Obj.get "isVerified"
                (fst (verifyReturnUrl Ref.vnpay
                        (Obj.set "vnp_Amount" (JStr "10000000")
                           Ref.paid_callback)))
              = JBool true) by (vm_compute; reflexivity).
  split; [exact H|].
  apply (tampering_detected Ref.vnpay Ref.paid_callback "vnp_Amount"
           (JStr "10000000") (JStr "90000000"));
    try reflexivity; try exact H; try (simpl; discriminate).
  intros d d'. apply Ref_hash_injective.
Defined.

Lemma verified_only_with_signature_witness :
  Obj.get "isVerified" (fst (verifyReturnUrl Ref.vnpay Ref.paid_fields))
  = JBool false.
Proof.
  apply (verified_only_with_signature Ref.vnpay Ref.paid_fields). reflexivity.
Defined.

Lemma constructor_ignored_options_witness :
  vnpayHost (globalDefaultConfig (VNPay_new Ref.test_mode_config))
  = Some "https://sandbox.vnpayment.vn"
  /\ paymentEndpoint (globalDefaultConfig (VNPay_new Ref.test_mode_config))
     = None.
Proof.
  destruct (constructor_ignored_options Ref.test_mode_config) as (_ & H1 & H2).
  split; [apply H2; reflexivity | exact H1].
Defined.

Lemma queryDr_request_witness :
  exists body,
    (forall fetch,
        queryDr Ref.vnpay fetch Ref.status_query
        = queryDr Ref.vnpay
            (fun _ _ => fetch (url_href Ref.api_url) body) Ref.status_query)
    /\ Obj.get "vnp_Command" body = JStr "querydr"
    /\ Obj.get "vnp_TxnRef" body = JStr "12345678".
Proof.
  assert (Hu : URL_parse
                 (resolveUrlString
                    (or_else (vnpayHost (globalDefaultConfig Ref.vnpay))
                             VNPAY_GATEWAY_SANDBOX_HOST)
                    QUERY_DR_REFUND_ENDPOINT) = Some Ref.api_url)
    by reflexivity.
  destruct (queryDr_request Ref.vnpay Ref.status_query Ref.api_url Hu)
    as (body & H1 & H2 & _ & _ & _ & H3).
  exists body. split; [exact H1|]. split; [exact H2|].
  rewrite H3; [reflexivity | reflexivity | discriminate..].
Defined.

Lemma refund_request_witness :
  exists body,
    (forall fetch,
        refund Ref.vnpay fetch Ref.refund_data
        = refund Ref.vnpay
            (fun _ _ => fetch (url_href Ref.api_url) body) Ref.refund_data)
    /\ Obj.get "vnp_Version" body = JStr "2.1.0"
    /\ Obj.get "vnp_CreateBy" body = JStr "admin".
Proof.
  assert (Hu : URL_parse
                 (resolveUrlString
                    (or_else (vnpayHost (globalDefaultConfig Ref.vnpay))
                             VNPAY_GATEWAY_SANDBOX_HOST)
                    QUERY_DR_REFUND_ENDPOINT) = Some Ref.api_url)
    by reflexivity.
  destruct (refund_request Ref.vnpay Ref.refund_data Ref.api_url Hu)
    as (body & H1 & _ & _ & H2 & _ & H3).
  exists body. split; [exact H1|]. split; [exact H2|].
  rewrite H3; [reflexivity | reflexivity | discriminate..].
Defined.

Lemma http_failure_is_thrown_witness :
  queryDr Ref.vnpay
    (fun _ _ => Ok (Ref.http_error 500%float Ref.foreign_status_response))
    Ref.status_query
  = Throw (Error "HTTP error! status: 500").
Proof.
  assert (Hu : URL_parse
                 (resolveUrlString
                    (or_else (vnpayHost (globalDefaultConfig Ref.vnpay))
                             VNPAY_GATEWAY_SANDBOX_HOST)
                    QUERY_DR_REFUND_ENDPOINT) = Some Ref.api_url)
    by reflexivity.
  destruct (http_failure_is_thrown Ref.vnpay Ref.status_query Ref.api_url
              (Ref.http_error 500%float Ref.foreign_status_response)
              Hu eq_refl) as [H _].
  rewrite H. vm_compute. reflexivity.
Defined.

Lemma request_failures_pass_through_witness :
  refund Ref.vnpay (fun _ _ => Throw (Error "fetch failed")) Ref.refund_data
  = Throw (Error "fetch failed").
Proof.
  destruct (request_failures_pass_through Ref.vnpay Ref.refund_data
              Ref.api_url (Error "fetch failed")
              (Ref.http_ok Ref.soft_response)) as (_ & H & _).
  apply H. reflexivity.
Defined.

Lemma refund_soft_range_witness :
  exists result,
    refund Ref.vnpay (fun _ _ => Ok (Ref.http_ok Ref.soft_response))
      Ref.refund_data
    = Ok result
    /\ Obj.get "vnp_Message" result = JStr "querydr/vn/91"
    /\ Obj.get "vnp_ResponseId" result = JStr "res-2".
Proof.
  assert (Hu : URL_parse
                 (resolveUrlString
                    (or_else (vnpayHost (globalDefaultConfig Ref.vnpay))
                             VNPAY_GATEWAY_SANDBOX_HOST)
                    QUERY_DR_REFUND_ENDPOINT) = Some Ref.api_url)
    by reflexivity.
  assert (Hwf : Obj.wf Ref.soft_response = true) by reflexivity.
  assert (Hr : in_soft_range (Obj.get "vnp_ResponseCode" Ref.soft_response)
               = true) by (vm_compute; reflexivity).
  destruct (refund_soft_range Ref.vnpay Ref.refund_data Ref.api_url
              (Ref.http_ok Ref.soft_response) Ref.soft_response
              Hu eq_refl eq_refl Hwf Hr) as (result & Hq & Hm & _ & Hk).
  exists result. split; [exact Hq|].
  split; [rewrite Hm; vm_compute; reflexivity|].
  rewrite (proj1 (Hk "vnp_ResponseId" ltac:(discriminate))). reflexivity.
Defined.

Lemma unsigned_response_rejected_witness :
  queryDr Ref.vnpay (fun _ _ => Ok (Ref.http_ok Ref.foreign_fields))
    Ref.status_query
  = Throw (Error "Wrong checksum from VNPay response").
Proof.
  assert (Hu : URL_parse
                 (resolveUrlString
                    (or_else (vnpayHost (globalDefaultConfig Ref.vnpay))
                             VNPAY_GATEWAY_SANDBOX_HOST)
                    QUERY_DR_REFUND_ENDPOINT) = Some Ref.api_url)
    by reflexivity.
  assert (Hr : in_soft_range (Obj.get "vnp_ResponseCode" Ref.foreign_fields)
               = false) by (vm_compute; reflexivity).
  assert (Hs : forall s, Obj.get "vnp_SecureHash" Ref.foreign_fields <> JStr s)
    by (intros s H; vm_compute in H; discriminate H).
  exact (proj1 (unsigned_response_rejected Ref.vnpay Ref.status_query
                  Ref.api_url (Ref.http_ok Ref.foreign_fields)
                  Ref.foreign_fields Hu eq_refl eq_refl Hr Hs)).
Defined.

Lemma getBankList_resolves_logos_witness :
  exists out,
    getBankList Ref.vnpay "qrpayauth/api/merchant/get_bank_list"
      (fun _ _ => Ok (Ref.banks_answer false Ref.bank_list)) = Ok out
    /\ length out = 2%nat.
Proof.
  assert (Hj : banks_json (Ref.banks_answer false Ref.bank_list)
               = Ok Ref.bank_list) by reflexivity.
  assert (Hl : Forall (fun b => exists s, Obj.get "logo_link" b = JStr s)
                 Ref.bank_list)
    by (repeat constructor; eexists; reflexivity).
  destruct (getBankList_resolves_logos Ref.vnpay
              "qrpayauth/api/merchant/get_bank_list"
              (Ref.banks_answer false Ref.bank_list) Ref.bank_list Hj Hl)
    as (out & H1 & H2).
  exists out. split; [exact H1|].
  apply Forall2_length in H2. now rewrite <- H2.
Defined.

Lemma getBankList_needs_logos_witness :
  exists message,
    getBankList Ref.vnpay "qrpayauth/api/merchant/get_bank_list"
      (fun _ _ => Ok (Ref.banks_answer true Ref.bank_list_without_logo))
    = Throw (TypeError message).
Proof.
  apply (getBankList_needs_logos Ref.vnpay
           "qrpayauth/api/merchant/get_bank_list"
           (Ref.banks_answer true Ref.bank_list_without_logo)
           Ref.bank_list_without_logo); [reflexivity|].
  right. left. intros s H. vm_compute in H. discriminate H.
Defined.
